(** * kala-rag: the ingestion-and-retrieval pipeline, embedded in Rocq

  Shallow embedding of
    - [src/document_processor.py]  (token-window chunking),
    - [src/ollama_client.py], [src/embeddings.py]
                                   (embedding generation, fallback latch,
                                    batching, cosine similarity),
    - [src/vector_store.py]        (add / exists / delete / search / stats),
  followed by the properties of the specification that concern them.

  Python integers are [Z]; Python floats are IEEE-754 binary64 values,
  taken from the Standard Library's executable specification
  [spec_float] at precision 53 and maximal exponent 1024; dictionaries
  are [gmap]s; an operation that may raise returns a [Result]. *)

From Stdlib Require Import ZArith List String Ascii Bool Lia Reals Lra.
From Stdlib Require Import Floats.SpecFloat Sorting.Sorted.
From stdpp Require Import base option list gmap strings pretty sorting.

Open Scope Z_scope.

(* ===================================================================== *)
(** * Part I: definitions                                                 *)
(* ===================================================================== *)

(** ** Python values, exceptions and builtins *)

Module Python.

(** A raised exception: its class name and [str(e)]. *)
Record exn := Exn { exn_class : string; exn_msg : string }.

Inductive Result (A : Type) : Type :=
| Ok (a : A)
| Raise (e : exn).
Arguments Ok {A} a.
Arguments Raise {A} e.

(** Sequencing: the first raise ends the computation. *)
Definition bind {A B} (r : Result A) (k : A -> Result B) : Result B :=
  match r with
  | Ok a => k a
  | Raise e => Raise e
  end.

Notation "x <-! r ;; k" := (bind r (fun x => k))
  (at level 100, r at next level, right associativity).

(** [l[i]] for a non-negative index. *)
Definition index {A} (l : list A) (i : nat) : Result A :=
  match l !! i with
  | Some x => Ok x
  | None => Raise (Exn "IndexError" "list index out of range")
  end.

(** The values kept in metadata dictionaries.  Anything that is not
    [None], a bool, an int or a str is carried by what [str()] prints. *)
Inductive pyval :=
| VNone
| VBool (b : bool)
| VInt (z : Z)
| VStr (s : string)
| VOther (shown : string).

#[global] Instance pyval_eq_dec : EqDecision pyval.
Proof. solve_decision. Defined.

(** [str(v)], as an f-string renders a value. *)
Definition py_str (v : pyval) : string :=
  match v with
  | VNone => "None"
  | VBool true => "True"
  | VBool false => "False"
  | VInt z => pretty z
  | VStr s => s
  | VOther s => s
  end.

(** [d.get(key, dflt)] *)
Definition dict_get (d : gmap string pyval) (key : string) (dflt : pyval)
  : pyval := default dflt (d !! key).

(** [list(range(start, stop, step))].  The loop of a positive step yields
    [cur] while [cur < stop]; at most [stop - start] values exist, which
    bounds the recursion.  A negative step counts down while [cur > stop];
    a zero step is Python's [ValueError]. *)
Fixpoint range_up (fuel : nat) (cur stop step : Z) : list Z :=
  match fuel with
  | O => []
  | S fuel' =>
      if cur <? stop then cur :: range_up fuel' (cur + step) stop step
      else []
  end.

Fixpoint range_down (fuel : nat) (cur stop step : Z) : list Z :=
  match fuel with
  | O => []
  | S fuel' =>
      if stop <? cur then cur :: range_down fuel' (cur + step) stop step
      else []
  end.

Definition py_range (start stop step : Z) : Result (list Z) :=
  if step =? 0 then
    Raise (Exn "ValueError" "range() arg 3 must not be zero")
  else if 0 <? step then
    Ok (range_up (Z.to_nat (stop - start)) start stop step)
  else
    Ok (range_down (Z.to_nat (start - stop)) start stop step).

(** Slice bounds: a negative index counts from the end, and both ends
    are clamped to [0, len]. *)
Definition slice_index (len i : Z) : Z :=
  if i <? 0 then Z.max 0 (i + len) else Z.min i len.

(** [l[start:stop]] *)
Definition py_slice {A} (l : list A) (start stop : Z) : list A :=
  let len := Z.of_nat (length l) in
  let lo := slice_index len start in
  let hi := slice_index len stop in
  take (Z.to_nat (hi - lo)) (drop (Z.to_nat lo) l).

(** [s.strip()] on the ASCII range: tab, LF, VT, FF, CR, the four
    separators 0x1c-0x1f and the space. *)
Definition is_space (c : ascii) : bool :=
  let n := nat_of_ascii c in
  (((9 <=? n) && (n <=? 13)) || ((28 <=? n) && (n <=? 32)))%nat.

Fixpoint lstrip (s : list ascii) : list ascii :=
  match s with
  | c :: s' => if is_space c then lstrip s' else s
  | [] => []
  end.

Definition strip (s : string) : string :=
  string_of_list_ascii
    (rev (lstrip (rev (lstrip (list_ascii_of_string s))))).

(** ceil(a / b) for a positive divisor. *)
Definition ceil_div (a b : Z) : Z := (a + b - 1) / b.

(** [s.split(sep)] for a one-character separator: the pieces between the
    separators, empty ones included; never the empty list. *)
Fixpoint split_chars (sep : ascii) (s : list ascii) : list (list ascii) :=
  match s with
  | [] => [[]]
  | c :: s' =>
      if Ascii.eqb c sep then [] :: split_chars sep s'
      else match split_chars sep s' with
           | piece :: pieces => (c :: piece) :: pieces
           | [] => [[c]]
           end
  end.

Definition split (sep : ascii) (s : string) : list string :=
  map string_of_list_ascii (split_chars sep (list_ascii_of_string s)).

(** [s.lower()] on the ASCII range. *)
Definition lower_char (c : ascii) : ascii :=
  let n := nat_of_ascii c in
  if ((65 <=? n) && (n <=? 90))%nat then ascii_of_nat (n + 32) else c.

Definition lower (s : string) : string :=
  string_of_list_ascii (map lower_char (list_ascii_of_string s)).

(** [s.rfind(c)]: the index of the last occurrence, if there is one. *)
Fixpoint rfind_from (c : ascii) (s : list ascii) (i : nat)
    (found : option nat) : option nat :=
  match s with
  | [] => found
  | x :: s' =>
      rfind_from c s' (S i) (if Ascii.eqb x c then Some i else found)
  end.

Definition rfind (c : ascii) (s : string) : option nat :=
  rfind_from c (list_ascii_of_string s) 0%nat None.

(** [s[i:]] for an index inside the string. *)
Definition string_from (i : nat) (s : string) : string :=
  string_of_list_ascii (drop i (list_ascii_of_string s)).

(** [s.startswith(prefix)] and [sub in s]. *)
Definition startswith (s prefix : string) : bool := String.prefix prefix s.

Definition contains (sub s : string) : bool :=
  match String.index 0 sub s with Some _ => true | None => false end.

End Python.

(** ** config/settings.py *)

Module Settings.

Record Settings := {
  embedding_model : string;
  chroma_collection_name : string;
  chunk_size : Z;
  chunk_overlap : Z;
  top_k_results : Z
}.

(** The field defaults; each can be overridden from the process
    environment, and no validator relates [chunk_overlap] to
    [chunk_size]. *)
Definition defaults : Settings := {|
  embedding_model := "nomic-embed-text";
  chroma_collection_name := "rag_documents";
  chunk_size := 1000;
  chunk_overlap := 200;
  top_k_results := 5
|}.

End Settings.

(** ** src/document_processor.py *)

Module DocumentProcessor.
Import Python.

(** The tokenizer ([tiktoken.get_encoding]) is an external collaborator:
    any pair of functions between text and token ids. *)
Record Encoding := {
  encode : string -> list Z;
  decode : list Z -> string
}.

Record DocumentChunk := {
  text : string;
  metadata : gmap string pyval;
  chunk_id : string
}.

Record ProcessedDocument := {
  file_path : string;
  file_hash : string;
  chunks : list DocumentChunk;
  doc_metadata : gmap string pyval;
  total_chunks : Z;
  total_tokens : Z
}.

(** [BaseDocumentProcessor.__init__] copies the two settings. *)
Record BaseDocumentProcessor := {
  chunk_size : Z;
  chunk_overlap : Z;
  encoding : Encoding
}.

Definition init (s : Settings.Settings) (enc : Encoding)
  : BaseDocumentProcessor :=
  {| chunk_size := Settings.chunk_size s;
     chunk_overlap := Settings.chunk_overlap s;
     encoding := enc |}.

Definition count_tokens (self : BaseDocumentProcessor) (t : string) : Z :=
  Z.of_nat (length (encode (encoding self) t)).

(** The body of the [for i, start in enumerate(chunk_starts)] loop. *)
Definition make_chunk (self : BaseDocumentProcessor) (tokens : list Z)
    (md : gmap string pyval) (n_starts : Z) (i : nat) (start : Z)
  : DocumentChunk :=
  let end_ := Z.min (start + chunk_size self) (Z.of_nat (length tokens)) in
  let chunk_tokens := py_slice tokens start end_ in
  let chunk_text := decode (encoding self) chunk_tokens in
  let chunk_metadata :=
    <["total_chunks" := VInt n_starts]>
    (<["chunk_token_count" := VInt (Z.of_nat (length chunk_tokens))]>
    (<["chunk_end_token" := VInt end_]>
    (<["chunk_start_token" := VInt start]>
    (<["chunk_index" := VInt (Z.of_nat i)]> md)))) in
  {| text := chunk_text;
     metadata := chunk_metadata;
     chunk_id :=
       py_str (dict_get md "file_hash" (VStr "unknown"))
         +:+ "_" +:+ pretty (Z.of_nat i) |}.

Definition chunk_text (self : BaseDocumentProcessor) (text : string)
    (md : gmap string pyval) : Result (list DocumentChunk) :=
  let text := strip text in
  if decide (text = EmptyString) then Ok []
  else
    let tokens := encode (encoding self) text in
    match py_range 0 (Z.of_nat (length tokens))
                   (chunk_size self - chunk_overlap self) with
    | Raise e => Raise e
    | Ok chunk_starts =>
        Ok (imap (make_chunk self tokens md
                    (Z.of_nat (length chunk_starts)))
                 chunk_starts)
    end.

(** A one-token-per-character tokenizer, for running the chunker. *)
Definition char_encoding : Encoding := {|
  encode s := map (fun c => Z.of_nat (nat_of_ascii c)) (list_ascii_of_string s);
  decode ts := string_of_list_ascii (map (fun t => ascii_of_nat (Z.to_nat t)) ts)
|}.

End DocumentProcessor.

(** ** Numbers

    The numeric code is written once over the operations it uses and
    read at two arithmetics: [binary64], the floats the program runs on,
    and [exact], the real numbers, for what holds before rounding. *)

Module Numeric.

Record Arith (F : Type) := {
  zero : F;
  one : F;
  add : F -> F -> F;
  sub : F -> F -> F;
  mul : F -> F -> F;
  div : F -> F -> F;
  sqrt : F -> F;
  eqb : F -> F -> bool;
  leb : F -> F -> bool
}.
Arguments zero {F}. Arguments one {F}. Arguments add {F}.
Arguments sub {F}. Arguments mul {F}. Arguments div {F}.
Arguments sqrt {F}. Arguments eqb {F}. Arguments leb {F}.

Definition float : Type := spec_float.

#[global] Instance float_eq_dec : EqDecision float.
Proof. unfold float. solve_decision. Defined.

Definition binary64 : Arith float := {|
  zero := S754_zero false;
  one := S754_finite false 4503599627370496 (-52);
  add := SFadd 53 1024;
  sub := SFsub 53 1024;
  mul := SFmul 53 1024;
  div := SFdiv 53 1024;
  sqrt := SFsqrt 53 1024;
  eqb := SFeqb;
  leb := SFleb
|}.

Definition exact : Arith R := {|
  zero := 0%R;
  one := 1%R;
  add := Rplus;
  sub := Rminus;
  mul := Rmult;
  div := Rdiv;
  sqrt := R_sqrt.sqrt;
  eqb x y := if Req_dec_T x y then true else false;
  leb x y := if Rle_dec x y then true else false
|}.

(** An embedding vector. *)
Definition vec : Type := list float.



End Numeric.

(** ** The vector-store engine (ChromaDB collection) *)

Module Chroma.
Import Python Numeric.

Record record := {
  rec_embedding : vec;
  rec_document : string;
  rec_metadata : gmap string pyval
}.

#[global] Instance record_eq_dec : EqDecision record.
Proof. solve_decision. Defined.

(** What [collection.get] returns. *)
Record GetResult := {
  gr_ids : list string;
  gr_metadatas : list (gmap string pyval)
}.

(** What [collection.query] returns for the single query vector: one inner
    list per key; [qr_distances] is [None] when the key is absent. *)
Record QueryResult := {
  qr_ids : list (list string);
  qr_documents : list (list string);
  qr_metadatas : list (list (gmap string pyval));
  qr_distances : option (list (list float))
}.

(** Modelled from the spec: the engine is external; section 6 gives it as
    a store keyed by record id with add / get / delete / count and
    equality filters on metadata.  A [where] clause is a dictionary of
    required metadata values, the empty one filtering nothing. *)
Definition matches (where_ : gmap string pyval) (kr : string * record)
  : Prop :=
  map_Forall (fun k v => rec_metadata (snd kr) !! k = Some v) where_.

#[global] Instance matches_dec where_ kr : Decision (matches where_ kr).
Proof. unfold matches. apply _. Defined.

Definition get (coll : gmap string record) (where_ : gmap string pyval)
    (limit : option nat) : GetResult :=
  let rows := filter (matches where_) (map_to_list coll) in
  let rows := match limit with Some n => take n rows | None => rows end in
  {| gr_ids := map fst rows;
     gr_metadatas := map (fun kr => rec_metadata (snd kr)) rows |}.

(** Modelled from the spec: [add] takes parallel lists; it rejects an empty
    batch, lists of unequal length and an id repeated inside the batch, and
    it stores a record under an id only when that id is still free. *)
Definition add_one (coll : gmap string record) (id : string) (r : record)
  : gmap string record :=
  match coll !! id with
  | Some _ => coll
  | None => <[id := r]> coll
  end.

Fixpoint add_rows (coll : gmap string record)
    (rows : list (string * record)) : gmap string record :=
  match rows with
  | [] => coll
  | (id, r) :: rows' => add_rows (add_one coll id r) rows'
  end.

Definition add (coll : gmap string record) (ids : list string)
    (embeddings : list vec) (documents : list string)
    (metadatas : list (gmap string pyval)) : Result (gmap string record) :=
  if bool_decide (ids = []) then
    Raise (Exn "ValueError" "Expected IDs to be a non-empty list")
  else if negb (bool_decide (length embeddings = length ids
                             /\ length documents = length ids
                             /\ length metadatas = length ids)) then
    Raise (Exn "ValueError" "Unequal lengths for fields")
  else if negb (bool_decide (NoDup ids)) then
    Raise (Exn "DuplicateIDError" "Expected IDs to be unique")
  else
    Ok (add_rows coll
          (zip ids (zip_with (fun ed m =>
                                {| rec_embedding := fst ed;
                                   rec_document := snd ed;
                                   rec_metadata := m |})
                             (zip embeddings documents) metadatas))).

(** Modelled from the spec: [delete(ids=...)] removes the records stored
    under the ids, and [count] is the number of records. *)
Definition delete (coll : gmap string record) (ids : list string)
  : gmap string record :=
  foldr (fun id c => base.delete id c) coll ids.

Definition count (coll : gmap string record) : Z := Z.of_nat (size coll).

(** ChromaDB's [get(ids=...)] answers with the records that are stored
    under the ids asked for, in the order asked. *)
Definition get_by_ids (coll : gmap string record) (ids : list string)
  : list (string * record) :=
  omap (fun id => match coll !! id with
                  | Some r => Some (id, r)
                  | None => None
                  end) ids.

(** The rows an [add] call hands to [add_rows]: the [i]-th id with the
    [i]-th embedding, document and metadata. *)
Definition staged (ids : list string) (embeddings : list vec)
    (documents : list string) (metadatas : list (gmap string pyval))
  : list (string * record) :=
  zip ids (zip_with (fun ed m =>
                       {| rec_embedding := fst ed;
                          rec_document := snd ed;
                          rec_metadata := m |})
                    (zip embeddings documents) metadatas).

End Chroma.

(** ** The external collaborators

    Every call that leaves the process is recorded in the [World]; what a
    collaborator answers may depend on how many calls were made before
    (its first argument), so that a service can fail at one moment and
    work at another. *)

Module External.
Import Python Numeric.

Inductive call :=
| OllamaEmbeddings (model prompt : string)
| SentenceTransformerLoad (name : string)
| SentenceTransformerEncode (texts : list string)
| CollectionGet (where_ : gmap string pyval) (limit : option nat)
| CollectionAdd (ids : list string)
| CollectionDelete (ids : list string)
| CollectionCount
| CollectionQuery (n_results : Z)
| DatetimeNow.

Definition World : Type := list call.

Record Env := {
  settings : Settings.Settings;
  (** [ollama.Client.embeddings(model=, prompt=)['embedding']] *)
  ollama_embeddings : nat -> string -> string -> Result vec;
  (** [SentenceTransformer(name)] *)
  sentence_transformer_load : nat -> string -> Result unit;
  (** [model.encode(texts, convert_to_numpy=True)], row by row *)
  sentence_transformer_encode : nat -> list string -> Result (list vec);
  (** whether the engine raises on the call made at this moment *)
  engine_fault : nat -> option exn;
  (** the nearest neighbours the engine answers to [collection.query] *)
  engine_query : nat -> gmap string Chroma.record -> vec -> Z ->
                 option (gmap string pyval) -> Chroma.QueryResult;
  (** [datetime.now().isoformat()] *)
  datetime_now : nat -> string
}.

Definition is_primary_call (c : call) : bool :=
  match c with OllamaEmbeddings _ _ => true | _ => false end.

Definition is_embedding_call (c : call) : bool :=
  match c with
  | OllamaEmbeddings _ _ | SentenceTransformerLoad _
  | SentenceTransformerEncode _ => true
  | _ => false
  end.

(** The calls of a history that reached the primary embedding backend. *)
Definition primary_calls (w : World) : list call :=
  List.filter is_primary_call w.

Definition embedding_calls (w : World) : list call :=
  List.filter is_embedding_call w.


(** The engine raises [e] on every call. *)
Definition engine_raises (env : Env) (e : exn) : Prop :=
  forall t, engine_fault env t = Some e.

(** The engine answers every call. *)
Definition responsive (env : Env) : Prop :=
  forall t, engine_fault env t = None.

(** One call to the engine: recorded, and answered unless the engine
    raises. *)
Definition engine_call {A} (env : Env) (c : call) (answer : Result A)
    (w : World) : World * Result A :=
  (w ++ [c],
   match engine_fault env (length w) with
   | Some e => Raise e
   | None => answer
   end).

End External.

(** ** src/ollama_client.py *)

Module OllamaClient.
Import Python Numeric External.

(** [generate_embeddings]: one request per text; the first failure is
    logged and re-raised, dropping the vectors gathered so far. *)
Fixpoint generate_embeddings (env : Env) (texts : list string) (w : World)
  : World * Result (list vec) :=
  match texts with
  | [] => (w, Ok [])
  | t :: rest =>
      let model := Settings.embedding_model (settings env) in
      let w1 := w ++ [OllamaEmbeddings model t] in
      match ollama_embeddings env (length w) model t with
      | Raise e => (w1, Raise e)
      | Ok v =>
          match generate_embeddings env rest w1 with
          | (w2, Ok vs) => (w2, Ok (v :: vs))
          | (w2, Raise e) => (w2, Raise e)
          end
      end
  end.

End OllamaClient.

(** ** src/embeddings.py *)

Module Embeddings.
Import Python Numeric External.

Record EmbeddingGenerator := {
  use_ollama : bool;
  model_name : string;
  (** the loaded Sentence-Transformers model, once there is one *)
  model : option string
}.

Definition fallback_model : string := "all-MiniLM-L6-v2".

(** [__init__(use_ollama)] *)
Definition init (env : Env) (use_ollama_ : bool) (w : World)
  : World * Result EmbeddingGenerator :=
  if use_ollama_ then
    (w, Ok {| use_ollama := true;
              model_name := Settings.embedding_model (settings env);
              model := None |})
  else
    (w ++ [SentenceTransformerLoad fallback_model],
     match sentence_transformer_load env (length w) fallback_model with
     | Raise e => Raise e
     | Ok _ => Ok {| use_ollama := false;
                     model_name := fallback_model;
                     model := Some fallback_model |}
     end).

(** The Sentence-Transformers branch of [generate_embeddings]; its handler
    re-raises.  Without a loaded model the attribute lookup fails. *)
Definition encode_locally (env : Env) (self : EmbeddingGenerator)
    (texts : list string) (w : World)
  : World * EmbeddingGenerator * Result (list vec) :=
  match model self with
  | None =>
      (w, self,
       Raise (Exn "AttributeError"
                  "'EmbeddingGenerator' object has no attribute 'model'"))
  | Some _ =>
      (w ++ [SentenceTransformerEncode texts], self,
       sentence_transformer_encode env (length w) texts)
  end.

(** [generate_embeddings] on a list of texts.  The handler of a primary
    failure clears [use_ollama], loads the local model and calls the method
    again, which then takes the Sentence-Transformers branch. *)
Definition generate_embeddings (env : Env) (self : EmbeddingGenerator)
    (texts : list string) (w : World)
  : World * EmbeddingGenerator * Result (list vec) :=
  match texts with
  | [] => (w, self, Ok [])
  | _ :: _ =>
      if use_ollama self then
        match OllamaClient.generate_embeddings env texts w with
        | (w1, Ok embeddings) => (w1, self, Ok embeddings)
        | (w1, Raise _) =>
            let self1 := {| use_ollama := false;
                            model_name := model_name self;
                            model := model self |} in
            let w2 := w1 ++ [SentenceTransformerLoad fallback_model] in
            match sentence_transformer_load env (length w1)
                                            fallback_model with
            | Raise e => (w2, self1, Raise e)
            | Ok _ =>
                encode_locally env
                  {| use_ollama := false;
                     model_name := model_name self;
                     model := Some fallback_model |} texts w2
            end
        end
      else encode_locally env self texts w
  end.

(** [generate_query_embedding]: the single string becomes a one-element
    list. *)
Definition generate_query_embedding (env : Env) (self : EmbeddingGenerator)
    (query : string) (w : World)
  : World * EmbeddingGenerator * Result vec :=
  match generate_embeddings env self [query] w with
  | (w1, self1, Ok embeddings) =>
      (w1, self1, Ok (match embeddings with e :: _ => e | [] => [] end))
  | (w1, self1, Raise e) => (w1, self1, Raise e)
  end.




(** The loop of [batch_generate_embeddings] over the batch starts. *)
Fixpoint batch_loop (env : Env) (self : EmbeddingGenerator)
    (texts : list string) (batch_size : Z) (starts : list Z)
    (all_embeddings : list vec) (w : World)
  : World * EmbeddingGenerator * Result (list vec) :=
  match starts with
  | [] => (w, self, Ok all_embeddings)
  | i :: starts' =>
      let batch := py_slice texts i (i + batch_size) in
      match generate_embeddings env self batch w with
      | (w1, self1, Raise e) => (w1, self1, Raise e)
      | (w1, self1, Ok embeddings) =>
          batch_loop env self1 texts batch_size starts'
                     (all_embeddings ++ embeddings) w1
      end
  end.

Definition batch_generate_embeddings (env : Env) (self : EmbeddingGenerator)
    (texts : list string) (batch_size : Z) (w : World)
  : World * EmbeddingGenerator * Result (list vec) :=
  match py_range 0 (Z.of_nat (length texts)) batch_size with
  | Raise e => (w, self, Raise e)
  | Ok starts => batch_loop env self texts batch_size starts [] w
  end.

Definition default_batch_size : Z := 32.

(** The slices the loop hands to [generate_embeddings], in order. *)
Definition batches (texts : list string) (batch_size : Z) (starts : list Z)
  : list (list string) :=
  map (fun i => py_slice texts i (i + batch_size)) starts.


(** The calls in a list of batches, one after the other on the same
    generator, whatever each returns or raises. *)
Fixpoint generate_all (env : Env) (self : EmbeddingGenerator)
    (batches : list (list string)) (w : World)
  : World * EmbeddingGenerator :=
  match batches with
  | [] => (w, self)
  | b :: rest =>
      match generate_embeddings env self b w with
      | (w1, self1, _) => generate_all env self1 rest w1
      end
  end.

End Embeddings.

(** ** src/vector_store.py *)

Module VectorStore.
Import Python Numeric External.
Import DocumentProcessor (ProcessedDocument, DocumentChunk).

Record VectorStore := {
  collection : gmap string Chroma.record;
  embedding_generator : Embeddings.EmbeddingGenerator;
  collection_name : string
}.

(** One entry of what [search] returns; the key ['similarity'] exists only
    next to a distance. *)
Record SearchResult := {
  sr_id : string;
  sr_text : string;
  sr_metadata : gmap string pyval;
  sr_distance : option float;
  sr_similarity : option float
}.

(** What [get_collection_stats] returns; the key ['error'] exists only in
    the handler's answer. *)
Record CollectionStats := {
  total_chunks : Z;
  unique_documents : Z;
  stats_collection_name : string;
  stats_error : option string
}.

(** [where={"file_hash": file_hash}] *)
Definition hash_filter (file_hash : string) : gmap string pyval :=
  {[ "file_hash" := VStr file_hash ]}.

(** The records of a collection that carry a content hash. *)
Definition records_with_hash (coll : gmap string Chroma.record)
    (file_hash : string) : gmap string Chroma.record :=
  filter (Chroma.matches (hash_filter file_hash)) coll.

Definition document_exists (env : Env) (self : VectorStore)
    (file_hash : string) (w : World) : World * bool :=
  match engine_call env (CollectionGet (hash_filter file_hash) (Some 1%nat))
          (Ok (Chroma.get (collection self) (hash_filter file_hash)
                          (Some 1%nat))) w with
  | (w1, Ok results) =>
      (w1, bool_decide (0 < length (Chroma.gr_ids results))%nat)
  | (w1, Raise _) => (w1, false)
  end.

(** The metadata dictionary built for one chunk. *)
Definition chunk_record_metadata (processed_doc : ProcessedDocument)
    (chunk : DocumentChunk) (now : string) : gmap string pyval :=
  let md := DocumentProcessor.metadata chunk in
  let base :=
    <["file_hash" := VStr (DocumentProcessor.file_hash processed_doc)]>
    (<["file_path" := VStr (DocumentProcessor.file_path processed_doc)]>
    (<["file_name" := dict_get md "file_name" (VStr "")]>
    (<["chunk_index" := dict_get md "chunk_index" (VInt 0)]>
    (<["total_chunks" := dict_get md "total_chunks" (VInt 1)]>
    (<["chunk_token_count" := dict_get md "chunk_token_count" (VInt 0)]>
    (<["file_type" := dict_get md "file_type" (VStr "unknown")]>
    (<["indexed_at" := VStr now]> ∅))))))) in
  match md !! "page_number" with
  | Some page => <["page_number" := page]> base
  | None => base
  end.

(** The loop over the chunks; each turn reads the clock. *)
Fixpoint build_metadatas (env : Env) (processed_doc : ProcessedDocument)
    (chunks : list DocumentChunk) (w : World)
  : World * list (gmap string pyval) :=
  match chunks with
  | [] => (w, [])
  | chunk :: rest =>
      let now := datetime_now env (length w) in
      match build_metadatas env processed_doc rest (w ++ [DatetimeNow]) with
      | (w1, metadatas) =>
          (w1, chunk_record_metadata processed_doc chunk now :: metadatas)
      end
  end.

Definition with_generator (self : VectorStore)
    (g : Embeddings.EmbeddingGenerator) : VectorStore :=
  {| collection := collection self;
     embedding_generator := g;
     collection_name := collection_name self |}.

Definition with_collection (self : VectorStore)
    (coll : gmap string Chroma.record) : VectorStore :=
  {| collection := coll;
     embedding_generator := embedding_generator self;
     collection_name := collection_name self |}.

Definition add_document (env : Env) (self : VectorStore)
    (processed_doc : ProcessedDocument) (w : World)
  : World * VectorStore * (bool * string) :=
  match document_exists env self
          (DocumentProcessor.file_hash processed_doc) w with
  | (w1, true) =>
      (w1, self, (false, "Document already exists in vector store"))
  | (w1, false) =>
      let chunks := DocumentProcessor.chunks processed_doc in
      let texts := map DocumentProcessor.text chunks in
      match texts with
      | [] => (w1, self, (false, "No text chunks to process"))
      | _ :: _ =>
          match Embeddings.batch_generate_embeddings env
                  (embedding_generator self) texts
                  Embeddings.default_batch_size w1 with
          | (w2, g, Raise e) =>
              (w2, with_generator self g, (false, "Error: " +:+ exn_msg e))
          | (w2, g, Ok embeddings) =>
              let self2 := with_generator self g in
              let ids := map DocumentProcessor.chunk_id chunks in
              match build_metadatas env processed_doc chunks w2 with
              | (w3, metadatas) =>
                  match engine_call env (CollectionAdd ids)
                          (Chroma.add (collection self2) ids embeddings
                                      texts metadatas) w3 with
                  | (w4, Raise e) =>
                      (w4, self2, (false, "Error: " +:+ exn_msg e))
                  | (w4, Ok coll) =>
                      (w4, with_collection self2 coll,
                       (true,
                        "Added " +:+ pretty (Z.of_nat (length texts))
                          +:+ " chunks to vector store"))
                  end
              end
          end
      end
  end.

(** The dictionary built for the [i]-th neighbour. *)
Definition format_result (results : Chroma.QueryResult)
    (ids0 : list string) (i : nat) : Result SearchResult :=
  id <-! index ids0 i ;;
  documents0 <-! index (Chroma.qr_documents results) 0 ;;
  text <-! index documents0 i ;;
  metadatas0 <-! index (Chroma.qr_metadatas results) 0 ;;
  md <-! index metadatas0 i ;;
  distance <-! match Chroma.qr_distances results with
               | None => Ok None
               | Some distances =>
                   distances0 <-! index distances 0 ;;
                   d <-! index distances0 i ;;
                   Ok (Some d)
               end ;;
  Ok {| sr_id := id;
        sr_text := text;
        sr_metadata := md;
        sr_distance := distance;
        sr_similarity :=
          match distance with
          | Some d => Some (sub binary64 (one binary64) d)
          | None => None
          end |}.

Fixpoint format_loop (results : Chroma.QueryResult) (ids0 : list string)
    (indices : list nat) : Result (list SearchResult) :=
  match indices with
  | [] => Ok []
  | i :: rest =>
      r <-! format_result results ids0 i ;;
      rs <-! format_loop results ids0 rest ;;
      Ok (r :: rs)
  end.

Definition format_results (results : Chroma.QueryResult)
  : Result (list SearchResult) :=
  match Chroma.qr_ids results with
  | [] => Ok []
  | [] :: _ => Ok []
  | ids0 :: _ => format_loop results ids0 (seq 0 (length ids0))
  end.

Definition search (env : Env) (self : VectorStore) (query : string)
    (n_results : option Z) (filter_dict : option (gmap string pyval))
    (w : World) : World * VectorStore * list SearchResult :=
  let n_results :=
    default (Settings.top_k_results (settings env)) n_results in
  match Embeddings.generate_query_embedding env (embedding_generator self)
          query w with
  | (w1, g, Raise _) => (w1, with_generator self g, [])
  | (w1, g, Ok query_embedding) =>
      let self1 := with_generator self g in
      match engine_call env (CollectionQuery n_results)
              (Ok (engine_query env (length w1) (collection self)
                                query_embedding n_results filter_dict))
              w1 with
      | (w2, Raise _) => (w2, self1, [])
      | (w2, Ok results) =>
          match format_results results with
          | Ok formatted_results => (w2, self1, formatted_results)
          | Raise _ => (w2, self1, [])
          end
      end
  end.

Definition delete_document (env : Env) (self : VectorStore)
    (file_hash : string) (w : World)
  : World * VectorStore * (bool * string) :=
  match engine_call env (CollectionGet (hash_filter file_hash) None)
          (Ok (Chroma.get (collection self) (hash_filter file_hash) None))
          w with
  | (w1, Raise e) => (w1, self, (false, "Error: " +:+ exn_msg e))
  | (w1, Ok results) =>
      match Chroma.gr_ids results with
      | [] => (w1, self, (false, "Document not found in vector store"))
      | ids =>
          match engine_call env (CollectionDelete ids)
                  (Ok (Chroma.delete (collection self) ids)) w1 with
          | (w2, Raise e) => (w2, self, (false, "Error: " +:+ exn_msg e))
          | (w2, Ok coll) =>
              (w2, with_collection self coll,
               (true,
                "Deleted " +:+ pretty (Z.of_nat (length ids))
                  +:+ " chunks"))
          end
      end
  end.

Definition get_collection_stats (env : Env) (self : VectorStore)
    (w : World) : World * CollectionStats :=
  let on_error (e : exn) :=
    {| total_chunks := 0; unique_documents := 0;
       stats_collection_name := collection_name self;
       stats_error := Some (exn_msg e) |} in
  match engine_call env CollectionCount
          (Ok (Chroma.count (collection self))) w with
  | (w1, Raise e) => (w1, on_error e)
  | (w1, Ok count) =>
      match engine_call env (CollectionGet ∅ None)
              (Ok (Chroma.get (collection self) ∅ None)) w1 with
      | (w2, Raise e) => (w2, on_error e)
      | (w2, Ok all_results) =>
          let unique_docs :=
            remove_dups
              (omap (fun md : gmap string pyval => md !! "file_hash")
                    (Chroma.gr_metadatas all_results)) in
          (w2, {| total_chunks := count;
                  unique_documents := Z.of_nat (length unique_docs);
                  stats_collection_name := collection_name self;
                  stats_error := None |})
      end
  end.


(** Adding the documents of a list one after the other. *)
Fixpoint add_documents (env : Env) (self : VectorStore)
    (docs : list ProcessedDocument) (w : World) : World * VectorStore :=
  match docs with
  | [] => (w, self)
  | d :: rest =>
      match add_document env self d w with
      | (w1, self1, _) => add_documents env self1 rest w1
      end
  end.

(** The dictionary [get_similar_chunks] builds for the [i]-th neighbour,
    or nothing for the chunk itself. *)
Definition format_similar (results : Chroma.QueryResult)
    (ids0 : list string) (chunk_id : string) (i : nat)
  : Result (option SearchResult) :=
  id <-! index ids0 i ;;
  if bool_decide (id = chunk_id) then Ok None
  else
    documents0 <-! index (Chroma.qr_documents results) 0 ;;
    text <-! index documents0 i ;;
    metadatas0 <-! index (Chroma.qr_metadatas results) 0 ;;
    md <-! index metadatas0 i ;;
    d <-! match Chroma.qr_distances results with
          | None =>
              Raise (Exn "TypeError"
                         "'NoneType' object is not subscriptable")
          | Some distances =>
              distances0 <-! index distances 0 ;;
              index distances0 i
          end ;;
    Ok (Some {| sr_id := id;
                sr_text := text;
                sr_metadata := md;
                sr_distance := None;
                sr_similarity := Some (sub binary64 (one binary64) d) |}).

Fixpoint similar_loop (results : Chroma.QueryResult) (ids0 : list string)
    (chunk_id : string) (indices : list nat) : Result (list SearchResult) :=
  match indices with
  | [] => Ok []
  | i :: rest =>
      r <-! format_similar results ids0 chunk_id i ;;
      rs <-! similar_loop results ids0 chunk_id rest ;;
      Ok (match r with Some r => r :: rs | None => rs end)
  end.

(** The first engine call is [get(ids=[chunk_id], ...)]; the history
    records it as a get without a [where] clause. *)
Definition get_similar_chunks (env : Env) (self : VectorStore)
    (chunk_id : string) (n_results : Z) (w : World)
  : World * list SearchResult :=
  match engine_call env (CollectionGet ∅ None)
          (Ok (Chroma.get_by_ids (collection self) [chunk_id])) w with
  | (w1, Raise _) => (w1, [])
  | (w1, Ok []) => (w1, [])
  | (w1, Ok ((_, r) :: _)) =>
      let embedding := Chroma.rec_embedding r in
      match engine_call env (CollectionQuery (n_results + 1))
              (Ok (engine_query env (length w1) (collection self)
                                embedding (n_results + 1) None)) w1 with
      | (w2, Raise _) => (w2, [])
      | (w2, Ok results) =>
          match Chroma.qr_ids results with
          | [] => (w2, [])
          | [] :: _ => (w2, [])
          | ids0 :: _ =>
              match similar_loop results ids0 chunk_id
                                 (seq 0 (length ids0)) with
              | Ok formatted_results => (w2, formatted_results)
              | Raise _ => (w2, [])
              end
          end
      end
  end.

(** The number of those additions that change the records kept under
    the hash [h]. *)
Fixpoint insertions (env : Env) (self : VectorStore)
    (docs : list ProcessedDocument) (w : World) (h : string) : nat :=
  match docs with
  | [] => 0%nat
  | d :: rest =>
      match add_document env self d w with
      | (w1, self1, _) =>
          ((if decide (records_with_hash (collection self1) h
                       = records_with_hash (collection self) h)
            then 0 else 1)
           + insertions env self1 rest w1 h)%nat
      end
  end.

End VectorStore.

(** ** src/utils.py *)

Module Utils.
Import Python.

Definition SUPPORTED_EXTENSIONS : list (string * string) :=
  [(".pdf", "application/pdf");
   (".txt", "text/plain");
   (".md", "text/markdown");
   (".docx",
    "application/vnd.openxmlformats-officedocument.wordprocessingml.document");
   (".doc", "application/msword");
   (".csv", "text/csv")].

Definition MAX_FILE_SIZE : Z := 50 * 1024 * 1024.

(** What the operating system and the libraries that read files answer
    for a path.  Bytes are characters of a [string]. *)
Record FileSystem := {
  (** [Path.exists()], [Path.is_file()], [stat().st_size] *)
  path_exists : string -> Result bool;
  path_is_file : string -> Result bool;
  st_size : string -> Result Z;
  (** [magic.Magic(mime=True).from_file(path)] *)
  magic_from_file : string -> Result string;
  (** the bytes of [open(path, "rb")] *)
  read_bytes : string -> Result (list ascii);
  (** [open(path, 'r', encoding='utf-8').read()] *)
  read_text : string -> Result string;
  (** [hashlib.sha256(data).hexdigest()] *)
  sha256_hexdigest : list ascii -> string;
  (** the size rendered as [f"{size / 1024 / 1024:.1f}"] *)
  megabytes_1f : Z -> string;
  (** what [extract_text] of the PDF, DOCX and CSV processors returns,
      which wrap the libraries that parse those formats *)
  library_extract_text :
    string -> string -> Result (string * gmap string pyval)
}.

(** [Path(p).name]: the last component, empty components and ["."]
    dropped. *)
Definition path_name (p : string) : string :=
  List.last (List.filter
               (fun part => negb (String.eqb part "")
                            && negb (String.eqb part "."))
               (split "/" p))
            EmptyString.

(** [Path(p).suffix]: the name from its last dot on, unless that dot opens
    or closes the name. *)
Definition path_suffix (p : string) : string :=
  let name := path_name p in
  match rfind "." name with
  | Some i =>
      if ((0 <? i) && (i <? String.length name - 1))%nat
      then string_from i name
      else EmptyString
  | None => EmptyString
  end.

(** [os.path.basename(p)]: what follows the last slash. *)
Definition basename (p : string) : string :=
  match rfind "/" p with
  | Some i => string_from (S i) p
  | None => p
  end.

Definition is_supported (file_ext : string) : bool :=
  bool_decide (file_ext ∈ map fst SUPPORTED_EXTENSIONS).

(** The MIME check of [validate_file]: each branch, the mismatch branch
    and the handler included, returns [(True, "")]. *)
Definition mime_check (fs : FileSystem) (file_path file_ext : string)
  : bool * string :=
  match magic_from_file fs file_path with
  | Ok file_mime =>
      if bool_decide (file_ext ∈ [".txt"; ".md"; ".csv"]%string)
         && startswith file_mime "text/" then (true, EmptyString)
      else if String.eqb file_ext ".pdf"
              && String.eqb file_mime "application/pdf"
      then (true, EmptyString)
      else if bool_decide (file_ext ∈ [".docx"; ".doc"]%string)
              && contains "officedocument" file_mime
      then (true, EmptyString)
      else (true, EmptyString)
  | Raise _ => (true, EmptyString)
  end.

Definition validate_file (fs : FileSystem) (file_path : string)
  : bool * string :=
  let checks : Result (bool * string) :=
    present <-! path_exists fs file_path ;;
    if negb present then Ok (false, "File does not exist") else
    regular <-! path_is_file fs file_path ;;
    if negb regular then Ok (false, "Path is not a file") else
    file_size <-! st_size fs file_path ;;
    if MAX_FILE_SIZE <? file_size then
      Ok (false,
          "File size (" +:+ megabytes_1f fs file_size
            +:+ "MB) exceeds maximum allowed size (50.0MB)")
    else if file_size =? 0 then Ok (false, "File is empty")
    else
      let file_ext := lower (path_suffix file_path) in
      if negb (is_supported file_ext) then
        Ok (false,
            "Unsupported file type: " +:+ file_ext
              +:+ ". Supported types: "
              +:+ String.concat ", " (map fst SUPPORTED_EXTENSIONS))
      else Ok (mime_check fs file_path file_ext) in
  match checks with
  | Ok answer => answer
  | Raise e => (false, "Error validating file: " +:+ exn_msg e)
  end.

(** The loop of [get_file_hash]: blocks of 4096 bytes are read from the
    current position and fed to the hash until a read returns nothing.
    The hash object is the bytes fed so far. *)
Fixpoint hash_blocks (fuel : nat) (content : list ascii) (pos : nat)
    (fed : list ascii) : list ascii :=
  match fuel with
  | O => fed
  | S fuel' =>
      match take 4096 (drop pos content) with
      | [] => fed
      | byte_block =>
          hash_blocks fuel' content (pos + length byte_block)%nat
                      (fed ++ byte_block)
      end
  end.

Definition get_file_hash (fs : FileSystem) (file_path : string)
  : Result string :=
  content <-! read_bytes fs file_path ;;
  Ok (sha256_hexdigest fs
        (hash_blocks (S (length content)) content 0 [])).

End Utils.

(** ** src/document_processor.py: processing a file *)

Module Processing.
Import Python Utils.
Import DocumentProcessor (ProcessedDocument, DocumentChunk,
                          BaseDocumentProcessor).

(** [sum(chunk.metadata['chunk_token_count'] for chunk in chunks)] *)
Fixpoint sum_token_counts (chunks : list DocumentChunk) : Result Z :=
  match chunks with
  | [] => Ok 0
  | chunk :: rest =>
      match DocumentProcessor.metadata chunk !! "chunk_token_count" with
      | None => Raise (Exn "KeyError" "'chunk_token_count'")
      | Some (VInt k) =>
          total <-! sum_token_counts rest ;; Ok (k + total)
      | Some _ =>
          Raise (Exn "TypeError" "unsupported operand type(s) for +")
      end
  end.

(** [BaseDocumentProcessor.process], over the [extract_text] of the
    subclass. *)
Definition process (fs : FileSystem) (self : BaseDocumentProcessor)
    (extract_text : string -> Result (string * gmap string pyval))
    (file_path : string) : Result ProcessedDocument :=
  match validate_file fs file_path with
  | (false, error) => Raise (Exn "ValueError" ("Invalid file: " +:+ error))
  | (true, _) =>
      file_hash <-! get_file_hash fs file_path ;;
      extracted <-! extract_text file_path ;;
      file_size <-! st_size fs file_path ;;
      let doc_metadata :=
        <["file_size" := VInt file_size]>
        (<["file_hash" := VStr file_hash]>
        (<["file_name" := VStr (basename file_path)]>
        (<["file_path" := VStr file_path]> (snd extracted)))) in
      chunks <-! DocumentProcessor.chunk_text self (fst extracted)
                                              doc_metadata ;;
      total_tokens <-! sum_token_counts chunks ;;
      Ok {| DocumentProcessor.file_path := file_path;
            DocumentProcessor.file_hash := file_hash;
            DocumentProcessor.chunks := chunks;
            DocumentProcessor.doc_metadata := doc_metadata;
            DocumentProcessor.total_chunks := Z.of_nat (length chunks);
            DocumentProcessor.total_tokens := total_tokens |}
  end.

Definition is_blank (line : string) : bool :=
  bool_decide (strip line = EmptyString).

(** [TextProcessor.extract_text] *)
Definition text_extract_text (fs : FileSystem) (file_path : string)
  : Result (string * gmap string pyval) :=
  match read_text fs file_path with
  | Raise e =>
      Raise (Exn "ValueError" ("Failed to read text file: " +:+ exn_msg e))
  | Ok text =>
      let lines := split "010" text in
      Ok (text,
          <["non_empty_lines" :=
              VInt (Z.of_nat
                      (length (List.filter (fun l => negb (is_blank l))
                                           lines)))]>
          (<["total_lines" := VInt (Z.of_nat (length lines))]>
          {[ "file_type" := VStr "text" ]}))
  end.

(** [MarkdownProcessor.extract_text] *)
Definition markdown_extract_text (fs : FileSystem) (file_path : string)
  : Result (string * gmap string pyval) :=
  extracted <-! text_extract_text fs file_path ;;
  let headers :=
    List.filter (fun l => startswith (strip l) "#")
                (split "010" (fst extracted)) in
  Ok (fst extracted,
      <["header_count" := VInt (Z.of_nat (length headers))]>
      (<["file_type" := VStr "markdown"]> (snd extracted))).

(** The classes of [DocumentProcessorFactory._processors]. *)
Inductive Processor :=
| PDFProcessor
| TextProcessor
| MarkdownProcessor
| DocxProcessor
| CSVProcessor.

Definition processors : list (string * Processor) :=
  [(".pdf", PDFProcessor);
   (".txt", TextProcessor);
   (".md", MarkdownProcessor);
   (".docx", DocxProcessor);
   (".csv", CSVProcessor)].

Fixpoint lookup_processor (table : list (string * Processor))
    (file_ext : string) : option Processor :=
  match table with
  | [] => None
  | (ext, cls) :: rest =>
      if String.eqb ext file_ext then Some cls
      else lookup_processor rest file_ext
  end.

Definition get_processor (file_path : string) : Result Processor :=
  let file_ext := lower (path_suffix file_path) in
  match lookup_processor processors file_ext with
  | Some cls => Ok cls
  | None =>
      Raise (Exn "ValueError"
                 ("No processor available for file type: " +:+ file_ext))
  end.

Definition extract_text (fs : FileSystem) (cls : Processor)
    (file_path : string) : Result (string * gmap string pyval) :=
  match cls with
  | TextProcessor => text_extract_text fs file_path
  | MarkdownProcessor => markdown_extract_text fs file_path
  | PDFProcessor => library_extract_text fs ".pdf" file_path
  | DocxProcessor => library_extract_text fs ".docx" file_path
  | CSVProcessor => library_extract_text fs ".csv" file_path
  end.

(** [DocumentProcessorFactory.process_document]; the processor is built
    from the settings and the tokenizer. *)
Definition process_document (fs : FileSystem) (s : Settings.Settings)
    (enc : DocumentProcessor.Encoding) (file_path : string)
  : Result ProcessedDocument :=
  cls <-! get_processor file_path ;;
  process fs (DocumentProcessor.init s enc) (extract_text fs cls) file_path.

End Processing.

(** ** app.py: processing an uploaded file *)

Module App.
Import Python External.

(** One entry of [st.session_state.processed_files]. *)
Record ProcessedFile := {
  processed_at : string;
  pf_total_chunks : Z;
  pf_total_tokens : Z;
  pf_metadata : gmap string pyval;
  pf_file_hash : string;
  vector_status : option (bool * string)
}.

(** The part of the session state the function touches. *)
Record Session := {
  processed_files : gmap string ProcessedFile;
  vector_store : VectorStore.VectorStore
}.

Definition process_uploaded_file (env : Env) (fs : Utils.FileSystem)
    (enc : DocumentProcessor.Encoding) (session : Session)
    (file_path : string) (add_to_vector_store : bool) (w : World)
  : World * Session * (bool * string) :=
  match Processing.process_document fs (settings env) enc file_path with
  | Raise e => (w, session, (false, "Error processing file: " +:+ exn_msg e))
  | Ok processed_doc =>
      let '(w1, store1, status) :=
        if add_to_vector_store then
          match VectorStore.add_document env (vector_store session)
                                         processed_doc w with
          | (w1, store1, outcome) => (w1, store1, Some outcome)
          end
        else (w, vector_store session, None) in
      let entry :=
        {| processed_at := datetime_now env (length w1);
           pf_total_chunks := DocumentProcessor.total_chunks processed_doc;
           pf_total_tokens := DocumentProcessor.total_tokens processed_doc;
           pf_metadata := DocumentProcessor.doc_metadata processed_doc;
           pf_file_hash := DocumentProcessor.file_hash processed_doc;
           vector_status := status |} in
      let session1 :=
        {| processed_files := <[file_path := entry]> (processed_files session);
           vector_store := store1 |} in
      (w1 ++ [DatetimeNow], session1,
       (true,
        match status with
        | Some (false, message) =>
            "Processed "
              +:+ pretty (DocumentProcessor.total_chunks processed_doc)
              +:+ " chunks. Vector store: " +:+ message
        | _ =>
            "Successfully processed: "
              +:+ pretty (DocumentProcessor.total_chunks processed_doc)
              +:+ " chunks, "
              +:+ pretty (DocumentProcessor.total_tokens processed_doc)
              +:+ " tokens"
        end))
  end.

End App.

(** ** Sample collaborators, to run the code on *)

Module Samples.
Import Python Numeric External.

Definition no_neighbours : Chroma.QueryResult :=
  {| Chroma.qr_ids := [[]]; Chroma.qr_documents := [[]];
     Chroma.qr_metadatas := [[]]; Chroma.qr_distances := Some [[]] |}.

(** The primary embeds every prompt as [[1.0]] except the prompt ["b"], on
    which it fails; the local model embeds every text as [[0.0]]; the
    engine never raises. *)
Definition picky_primary : Env := {|
  settings := Settings.defaults;
  ollama_embeddings _ _ prompt :=
    if String.eqb prompt "b" then Raise (Exn "ResponseError" "bad prompt")
    else Ok [one binary64];
  sentence_transformer_load _ _ := Ok tt;
  sentence_transformer_encode _ texts :=
    Ok (map (fun _ => [zero binary64]) texts);
  engine_fault _ := None;
  engine_query _ _ _ _ _ := no_neighbours;
  datetime_now _ := "2024-01-01T00:00:00"
|}.

(** The primary is down for the very first call only. *)
Definition outage_at_start : Env := {|
  settings := Settings.defaults;
  ollama_embeddings t _ _ :=
    if Nat.eqb t 0 then Raise (Exn "ConnectionError" "connection refused")
    else Ok [one binary64];
  sentence_transformer_load _ _ := Ok tt;
  sentence_transformer_encode _ texts :=
    Ok (map (fun _ => [zero binary64]) texts);
  engine_fault _ := None;
  engine_query _ _ _ _ _ := no_neighbours;
  datetime_now _ := "2024-01-01T00:00:00"
|}.

(** Neither embedding backend is available. *)
Definition no_backend : Env := {|
  settings := Settings.defaults;
  ollama_embeddings _ _ _ :=
    Raise (Exn "ConnectionError" "connection refused");
  sentence_transformer_load _ _ :=
    Raise (Exn "OSError" "model files not found");
  sentence_transformer_encode _ _ :=
    Raise (Exn "RuntimeError" "no model");
  engine_fault _ := None;
  engine_query _ _ _ _ _ := no_neighbours;
  datetime_now _ := "2024-01-01T00:00:00"
|}.

Definition fresh_generator : Embeddings.EmbeddingGenerator :=
  {| Embeddings.use_ollama := true;
     Embeddings.model_name := "nomic-embed-text";
     Embeddings.model := None |}.

(** The engine raises on every call; the embedding backends work. *)
Definition engine_down : Env := {|
  settings := Settings.defaults;
  ollama_embeddings _ _ _ := Ok [one binary64];
  sentence_transformer_load _ _ := Ok tt;
  sentence_transformer_encode _ texts :=
    Ok (map (fun _ => [zero binary64]) texts);
  engine_fault _ := Some (Exn "InternalError" "database is locked");
  engine_query _ _ _ _ _ := no_neighbours;
  datetime_now _ := "2024-01-01T00:00:00"
|}.

(** The engine raises on its second call only, the call with one call
    before it in the history. *)
Definition second_call_fails : Env := {|
  settings := Settings.defaults;
  ollama_embeddings _ _ _ := Ok [one binary64];
  sentence_transformer_load _ _ := Ok tt;
  sentence_transformer_encode _ texts :=
    Ok (map (fun _ => [zero binary64]) texts);
  engine_fault t :=
    if Nat.eqb t 1 then Some (Exn "InternalError" "database is locked")
    else None;
  engine_query _ _ _ _ _ := no_neighbours;
  datetime_now _ := "2024-01-01T00:00:00"
|}.

(** The engine raises on the very first call only. *)
Definition probe_outage : Env := {|
  settings := Settings.defaults;
  ollama_embeddings _ _ _ := Ok [one binary64];
  sentence_transformer_load _ _ := Ok tt;
  sentence_transformer_encode _ texts :=
    Ok (map (fun _ => [zero binary64]) texts);
  engine_fault t :=
    if Nat.eqb t 0 then Some (Exn "InternalError" "database is locked")
    else None;
  engine_query _ _ _ _ _ := no_neighbours;
  datetime_now _ := "2024-01-01T00:00:00"
|}.
(** A healthy engine that answers every query with the same two
    neighbours, at distances 0.0 and 1.0. *)
Definition two_neighbours : Env := {|
  settings := Settings.defaults;
  ollama_embeddings _ _ _ := Ok [one binary64];
  sentence_transformer_load _ _ := Ok tt;
  sentence_transformer_encode _ texts :=
    Ok (map (fun _ => [zero binary64]) texts);
  engine_fault _ := None;
  engine_query _ _ _ _ _ :=
    {| Chroma.qr_ids := [["H_0"; "H_1"]];
       Chroma.qr_documents := [["alpha"; "beta"]];
       Chroma.qr_metadatas := [[∅; ∅]];
       Chroma.qr_distances := Some [[zero binary64; one binary64]] |};
  datetime_now _ := "2024-01-01T00:00:00"
|}.

(** A tokenizer that finds [n] tokens in every text. *)
Definition tokens_of_length (n : nat) : DocumentProcessor.Encoding :=
  {| DocumentProcessor.encode _ := repeat 0 n;
     DocumentProcessor.decode _ := EmptyString |}.

Definition sample_chunk (hash : string) (i : Z) (body : string)
  : DocumentProcessor.DocumentChunk :=
  {| DocumentProcessor.text := body;
     DocumentProcessor.metadata :=
       {[ "file_hash" := VStr hash; "chunk_index" := VInt i ]};
     DocumentProcessor.chunk_id := hash +:+ "_" +:+ pretty i |}.

Definition sample_document (hash : string)
    (chunks : list DocumentProcessor.DocumentChunk)
  : DocumentProcessor.ProcessedDocument :=
  {| DocumentProcessor.file_path := "notes.txt";
     DocumentProcessor.file_hash := hash;
     DocumentProcessor.chunks := chunks;
     DocumentProcessor.doc_metadata := {[ "file_hash" := VStr hash ]};
     DocumentProcessor.total_chunks := Z.of_nat (length chunks);
     DocumentProcessor.total_tokens := 0 |}.

Definition empty_store : VectorStore.VectorStore :=
  {| VectorStore.collection := ∅;
     VectorStore.embedding_generator := fresh_generator;
     VectorStore.collection_name := "rag_documents" |}.

(** A store that holds the two chunks of the document with hash ["H"] and
    the one chunk of the document with hash ["K"]. *)
Definition stocked_store : VectorStore.VectorStore :=
  snd (VectorStore.add_documents picky_primary empty_store
         [sample_document "H" [sample_chunk "H" 0 "alpha";
                               sample_chunk "H" 1 "beta"];
          sample_document "K" [sample_chunk "K" 0 "gamma"]] []).

(** The chunks a processor cuts a text into, or none when it raises. *)
Definition chunks_of (p : DocumentProcessor.BaseDocumentProcessor)
    (t : string) (md : gmap string pyval)
  : list DocumentProcessor.DocumentChunk :=
  match DocumentProcessor.chunk_text p t md with
  | Ok cs => cs
  | Raise _ => []
  end.

Definition no_chunk : DocumentProcessor.DocumentChunk :=
  {| DocumentProcessor.text := EmptyString;
     DocumentProcessor.metadata := ∅;
     DocumentProcessor.chunk_id := EmptyString |}.

Definition small_windows : DocumentProcessor.BaseDocumentProcessor :=
  {| DocumentProcessor.chunk_size := 3;
     DocumentProcessor.chunk_overlap := 1;
     DocumentProcessor.encoding := DocumentProcessor.char_encoding |}.

(** A directory ["data"] with four files; no MIME database is installed,
    and the digest is a stand-in that prints the length of the content. *)
Definition file_content (path : string) : string :=
  if String.eqb path "data/notes.txt" then "hello world"
  else if String.eqb path "data/blank.txt" then "   "
  else if String.eqb path "data/readme.md"
       then "# Title" +:+ String "010" ("body" +:+ String "010" "  ## More")
  else if String.eqb path "data/old.doc" then "legacy"
  else EmptyString.

Definition sample_files : Utils.FileSystem := {|
  Utils.path_exists p :=
    Ok (bool_decide (p ∈ ["data"; "data/notes.txt"; "data/blank.txt";
                          "data/readme.md"; "data/old.doc"]%string));
  Utils.path_is_file p := Ok (negb (String.eqb p "data"));
  Utils.st_size p := Ok (Z.of_nat (String.length (file_content p)));
  Utils.magic_from_file _ :=
    Raise (Exn "MagicException" "could not find any valid magic files");
  Utils.read_bytes p := Ok (list_ascii_of_string (file_content p));
  Utils.read_text p := Ok (file_content p);
  Utils.sha256_hexdigest bytes := "digest" +:+ pretty (Z.of_nat (length bytes));
  Utils.megabytes_1f size := pretty (size / 1048576) +:+ ".0";
  Utils.library_extract_text _ _ :=
    Raise (Exn "ValueError" "Failed to extract text")
|}.

Definition empty_session : App.Session :=
  {| App.processed_files := ∅; App.vector_store := empty_store |}.

(** The session after ["data/notes.txt"] has been uploaded once. *)
Definition after_first_upload : App.Session :=
  snd (fst (App.process_uploaded_file picky_primary sample_files
              DocumentProcessor.char_encoding empty_session
              "data/notes.txt" true [])).

End Samples.

(* ===================================================================== *)
(** * Part II: properties                                                 *)
(* ===================================================================== *)

Module ChunkerFacts.
Import Python DocumentProcessor.

Example chunk_abcde :
  (fun r => match r with Ok cs => map text cs | Raise _ => [] end)
    (chunk_text {| chunk_size := 3; chunk_overlap := 1;
                   encoding := char_encoding |} "  abcde " ∅)
  = ["abc"; "cde"; "e"]%string.
Proof. vm_compute. reflexivity. Qed.

(** The scenario of the specification: 2500 tokens under the default
    settings give four windows, the last one inside the third. *)
Example windows_of_2500_tokens :
  (fun r => match r with
            | Ok cs => map (fun c => (metadata c !! "chunk_start_token",
                                      metadata c !! "chunk_end_token")) cs
            | Raise _ => []
            end)
    (chunk_text (init Settings.defaults (Samples.tokens_of_length 2500))
                "text" ∅)
  = [(Some (VInt 0), Some (VInt 1000));
     (Some (VInt 800), Some (VInt 1800));
     (Some (VInt 1600), Some (VInt 2500));
     (Some (VInt 2400), Some (VInt 2500))].
Proof. vm_compute. reflexivity. Qed.

(** [ceil_div] is the ceiling of the quotient. *)
Lemma ceil_div_bounds (a b : Z) :
  0 < b -> (ceil_div a b - 1) * b < a <= ceil_div a b * b.
Proof.
  intros Hb. unfold ceil_div.
  pose proof (Z.div_mod (a + b - 1) b ltac:(lia)) as Hdm.
  pose proof (Z.mod_pos_bound (a + b - 1) b Hb) as Hm.
  nia.
Qed.

Lemma ceil_div_unique (a b q : Z) :
  0 < b -> (q - 1) * b < a <= q * b -> ceil_div a b = q.
Proof.
  intros Hb Hq. pose proof (ceil_div_bounds a b Hb) as Hc. nia.
Qed.

Lemma ceil_div_step (a b : Z) :
  0 < b -> ceil_div a b = 1 + ceil_div (a - b) b.
Proof.
  intros Hb. apply ceil_div_unique; [exact Hb|].
  pose proof (ceil_div_bounds (a - b) b Hb). lia.
Qed.

Lemma ceil_div_nonpos (a b : Z) : 0 < b -> a <= 0 -> ceil_div a b <= 0.
Proof.
  intros Hb Ha. pose proof (ceil_div_bounds a b Hb). nia.
Qed.

Lemma ceil_div_pos (a b : Z) : 0 < b -> 0 < a -> 0 < ceil_div a b.
Proof.
  intros Hb Ha. pose proof (ceil_div_bounds a b Hb). nia.
Qed.

(** The loop of [range] with a positive step never runs out of fuel: it
    yields ceil((stop - cur) / step) values. *)
Lemma range_up_length (fuel : nat) (cur stop step : Z) :
  0 < step ->
  (Z.to_nat (stop - cur) <= fuel)%nat ->
  Z.of_nat (length (range_up fuel cur stop step))
  = Z.max 0 (ceil_div (stop - cur) step).
Proof.
  intros Hstep. revert cur.
  induction fuel as [|fuel IH]; intros cur Hfuel; cbn [range_up].
  - pose proof (ceil_div_nonpos (stop - cur) step Hstep ltac:(lia)).
    cbn [length]. lia.
  - destruct (Z.ltb_spec cur stop) as [Hlt|Hge].
    + cbn [length]. rewrite Nat2Z.inj_succ, IH by lia.
      rewrite (ceil_div_step (stop - cur) step Hstep).
      replace (stop - (cur + step)) with (stop - cur - step) by lia.
      pose proof (ceil_div_pos (stop - cur) step Hstep ltac:(lia)) as Hp.
      rewrite (ceil_div_step (stop - cur) step Hstep) in Hp. lia.
    + pose proof (ceil_div_nonpos (stop - cur) step Hstep ltac:(lia)).
      cbn [length]. lia.
Qed.

Lemma range_down_empty (fuel : nat) (cur stop step : Z) :
  cur <= stop -> range_down fuel cur stop step = [].
Proof.
  intros Hle. destruct fuel as [|fuel]; [reflexivity|]. cbn [range_down].
  destruct (Z.ltb_spec stop cur); [lia | reflexivity].
Qed.

Lemma py_range_positive (n step : Z) :
  0 < step -> 0 <= n ->
  exists starts, py_range 0 n step = Ok starts
                 /\ Z.of_nat (length starts) = ceil_div n step.
Proof.
  intros Hstep Hn. unfold py_range.
  destruct (Z.eqb_spec step 0) as [->|_]; [lia|].
  destruct (Z.ltb_spec 0 step) as [_|]; [|lia].
  eexists; split; [reflexivity|].
  rewrite range_up_length by lia. rewrite Z.sub_0_r.
  destruct (Z.eq_dec n 0) as [->|Hnz].
  - unfold ceil_div. rewrite Z.div_small by lia. reflexivity.
  - pose proof (ceil_div_pos n step Hstep ltac:(lia)). lia.
Qed.

Lemma py_range_negative (n step : Z) :
  step < 0 -> 0 <= n -> py_range 0 n step = Ok [].
Proof.
  intros Hstep Hn. unfold py_range.
  destruct (Z.eqb_spec step 0) as [->|_]; [lia|].
  destruct (Z.ltb_spec 0 step) as [|_]; [lia|].
  rewrite range_down_empty by lia. reflexivity.
Qed.

(** Whatever the parameters, a text with a positive stride is cut into
    ceil(n / stride) chunks. *)
Lemma chunk_text_stride (self : BaseDocumentProcessor) (t : string)
    (md : gmap string pyval) :
  strip t <> EmptyString ->
  0 < chunk_size self - chunk_overlap self ->
  exists cs, chunk_text self t md = Ok cs
    /\ Z.of_nat (length cs)
       = ceil_div (count_tokens self (strip t))
                  (chunk_size self - chunk_overlap self).
Proof.
  intros Hne Hstride. unfold chunk_text, count_tokens.
  destruct (decide (strip t = EmptyString)) as [He|_]; [contradiction|].
  destruct (py_range_positive
              (Z.of_nat (length (encode (encoding self) (strip t))))
              (chunk_size self - chunk_overlap self) Hstride ltac:(lia))
    as (starts & -> & Hlen).
  eexists; split; [reflexivity|]. rewrite length_imap. exact Hlen.
Qed.

(** C2, as the specification states it, fails: three tokens with
    [chunk_size = 3] and [overlap = 1] give the window starts 0 and 2, hence
    two chunks, where both ceil((n - o) / (c - o)) and the "n <= c" clause
    promise one. *)
Lemma chunk_count_spec_formula_fails :
  let p := {| chunk_size := 3; chunk_overlap := 1;
              encoding := char_encoding |} in
  count_tokens p "abc" = 3
  /\ (0 < chunk_overlap p < chunk_size p)
  /\ (0 < count_tokens p "abc" <= chunk_size p)
  /\ chunk_overlap p < count_tokens p "abc"
  /\ ceil_div (count_tokens p "abc" - chunk_overlap p)
              (chunk_size p - chunk_overlap p) = 1
  /\ exists cs, chunk_text p "abc" ∅ = Ok cs
                /\ map text cs = ["abc"; "c"]%string
                /\ length cs = 2%nat.
Proof.
  vm_compute. repeat split; try discriminate.
  eexists; repeat split.
Qed.

(** C2 (amended): for a text with non-blank content and [o < c] the chunker
    returns exactly ceil(n / (c - o)) chunks, n the token count of the
    stripped text; it returns exactly one chunk whenever 0 < n <= c - o. *)
Theorem chunk_count (self : BaseDocumentProcessor) (t : string)
    (md : gmap string pyval) :
  let n := count_tokens self (strip t) in
  let c := chunk_size self in
  let o := chunk_overlap self in
  strip t <> EmptyString ->
  o < c ->
  exists cs, chunk_text self t md = Ok cs
    /\ Z.of_nat (length cs) = ceil_div n (c - o)
    /\ (0 < n <= c - o -> length cs = 1%nat).
Proof.
  intros n c o Hne Hoc.
  destruct (chunk_text_stride self t md Hne ltac:(lia))
    as (cs & Hcs & Hlen).
  exists cs. split; [exact Hcs|]. split; [exact Hlen|].
  intros Hn. fold n c o in Hlen.
  rewrite (ceil_div_unique n (c - o) 1) in Hlen by lia. lia.
Qed.

Lemma chunk_count_witness :
  exists cs,
    chunk_text {| chunk_size := 1000; chunk_overlap := 200;
                  encoding := char_encoding |} " hello world " ∅ = Ok cs
    /\ Z.of_nat (length cs) = ceil_div 11 800
    /\ (0 < 11 <= 800 -> length cs = 1%nat).
Proof.
  apply (chunk_count {| chunk_size := 1000; chunk_overlap := 200;
                        encoding := char_encoding |} " hello world " ∅).
  - vm_compute. discriminate.
  - vm_compute. reflexivity.
Defined.

(** C3, as stated, fails: with [overlap > chunk_size] the chunker returns
    the empty list, and with [chunk_size = 0] it returns (empty) chunks;
    neither raises. *)
Lemma chunk_text_bad_parameters_accepted :
  let p := {| chunk_size := 2; chunk_overlap := 3;
              encoding := char_encoding |} in
  let q := {| chunk_size := 0; chunk_overlap := -1;
              encoding := char_encoding |} in
  chunk_overlap p >= chunk_size p
  /\ chunk_text p "abc" ∅ = Ok []
  /\ chunk_size q <= 0
  /\ exists cs, chunk_text q "abc" ∅ = Ok cs
                /\ map text cs = [""; ""; ""]%string.
Proof.
  vm_compute. repeat split; try discriminate.
  eexists; repeat split.
Qed.

(** C3 (amended): the chunker checks neither parameter.  A blank text gives
    the empty list whatever the parameters; on a non-blank text,
    [overlap = chunk_size] raises the [ValueError] of [range()] with a zero
    step, [overlap > chunk_size] returns the empty list, and
    [chunk_size <= 0] with [overlap < chunk_size] returns
    ceil(n / (c - o)) chunks.  No case loops. *)
Theorem chunk_text_unvalidated (self : BaseDocumentProcessor) (t : string)
    (md : gmap string pyval) :
  let c := chunk_size self in
  let o := chunk_overlap self in
  (strip t = EmptyString -> chunk_text self t md = Ok [])
  /\ (strip t <> EmptyString -> o = c ->
      chunk_text self t md
      = Raise (Exn "ValueError" "range() arg 3 must not be zero"))
  /\ (strip t <> EmptyString -> o > c -> chunk_text self t md = Ok [])
  /\ (strip t <> EmptyString -> c <= 0 -> o < c ->
      exists cs, chunk_text self t md = Ok cs
        /\ Z.of_nat (length cs)
           = ceil_div (count_tokens self (strip t)) (c - o)).
Proof.
  intros c o. repeat split.
  - intros He. unfold chunk_text.
    destruct (decide (strip t = EmptyString)); [reflexivity|contradiction].
  - intros Hne Heq. unfold chunk_text.
    destruct (decide (strip t = EmptyString)); [contradiction|].
    fold c o. rewrite Heq, Z.sub_diag. reflexivity.
  - intros Hne Hgt. unfold chunk_text.
    destruct (decide (strip t = EmptyString)); [contradiction|].
    rewrite py_range_negative by (fold c o; lia). reflexivity.
  - intros Hne _ Hlt. apply chunk_text_stride; [exact Hne|]. fold c o. lia.
Qed.

Lemma chunk_text_unvalidated_witness :
  let p := fun c o => {| chunk_size := c; chunk_overlap := o;
                         encoding := char_encoding |} in
  chunk_text (p 5 5) "   " ∅ = Ok []
  /\ chunk_text (p 5 5) "abc" ∅
     = Raise (Exn "ValueError" "range() arg 3 must not be zero")
  /\ chunk_text (p 5 7) "abc" ∅ = Ok []
  /\ exists cs, chunk_text (p (-2) (-3)) "abc" ∅ = Ok cs
       /\ Z.of_nat (length cs) = ceil_div 3 1.
Proof.
  intros p.
  destruct (chunk_text_unvalidated (p 5 5) "   " ∅) as (Hblank & _).
  destruct (chunk_text_unvalidated (p 5 5) "abc" ∅) as (_ & Hzero & _).
  destruct (chunk_text_unvalidated (p 5 7) "abc" ∅) as (_ & _ & Hneg & _).
  destruct (chunk_text_unvalidated (p (-2) (-3)) "abc" ∅)
    as (_ & _ & _ & Hnonpos).
  split; [|split; [|split]].
  - apply Hblank. reflexivity.
  - apply Hzero; [vm_compute; discriminate | reflexivity].
  - apply Hneg; [vm_compute; discriminate | reflexivity].
  - apply Hnonpos; [vm_compute; discriminate | cbn; lia | cbn; lia].
Defined.

End ChunkerFacts.

Module EmbeddingFacts.
Import Python Numeric External Embeddings.

Lemma primary_calls_app (w1 w2 : World) :
  primary_calls (w1 ++ w2) = primary_calls w1 ++ primary_calls w2.
Proof. apply List.filter_app. Qed.

(** The local branch never reaches the primary backend. *)
Lemma encode_locally_keeps_latch env self texts w :
  let '(w1, self1, _) := encode_locally env self texts w in
  self1 = self /\ primary_calls w1 = primary_calls w.
Proof.
  unfold encode_locally. destruct (model self); split; try reflexivity.
  rewrite primary_calls_app. cbn. apply app_nil_r.
Qed.

Lemma generate_embeddings_demoted env self texts w :
  use_ollama self = false ->
  let '(w1, self1, _) := generate_embeddings env self texts w in
  use_ollama self1 = false /\ primary_calls w1 = primary_calls w.
Proof.
  intros Hoff. unfold generate_embeddings.
  destruct texts as [|t ts]; [split; [exact Hoff | reflexivity]|].
  rewrite Hoff.
  pose proof (encode_locally_keeps_latch env self (t :: ts) w) as H.
  destruct (encode_locally env self (t :: ts) w) as [[w1 self1] r].
  destruct H as [-> Hw]. split; [exact Hoff | exact Hw].
Qed.

Lemma generate_all_demoted env self batches w :
  use_ollama self = false ->
  let '(w1, self1) := generate_all env self batches w in
  use_ollama self1 = false /\ primary_calls w1 = primary_calls w.
Proof.
  revert self w. induction batches as [|b rest IH]; intros self w Hoff.
  - cbn. split; [exact Hoff | reflexivity].
  - cbn [generate_all].
    pose proof (generate_embeddings_demoted env self b w Hoff) as H.
    destruct (generate_embeddings env self b w) as [[w1 self1] r].
    destruct H as [Hoff1 Hw1].
    specialize (IH self1 w1 Hoff1).
    destruct (generate_all env self1 rest w1) as [w2 self2].
    destruct IH as [Hoff2 Hw2]. split; [exact Hoff2 | congruence].
Qed.

(** Once demoted with a loaded model, every call with a non-empty batch is
    answered by the local model. *)
Lemma generate_embeddings_local env self t ts w :
  use_ollama self = false -> model self <> None ->
  generate_embeddings env self (t :: ts) w
  = (w ++ [SentenceTransformerEncode (t :: ts)], self,
     sentence_transformer_encode env (length w) (t :: ts)).
Proof.
  intros Hoff Hm. unfold generate_embeddings, encode_locally.
  rewrite Hoff. destruct (model self); [reflexivity | contradiction].
Qed.

(** C4: when the primary backend raises during a call of a generator that
    still uses it, the generator leaves that call demoted and the call's
    outcome is that of loading the local model and encoding the same batch
    with it; no later call, whatever its batch, reaches the primary backend
    or promotes the generator back, and once the local model is loaded
    every later call is answered by it. *)
Theorem fallback_latch env self texts w e :
  use_ollama self = true ->
  snd (OllamaClient.generate_embeddings env texts w) = Raise e ->
  let wp := fst (OllamaClient.generate_embeddings env texts w) in
  let w_load := wp ++ [SentenceTransformerLoad fallback_model] in
  let '(w1, self1, r) := generate_embeddings env self texts w in
  use_ollama self1 = false
  /\ (w1, r)
     = match sentence_transformer_load env (length wp) fallback_model with
       | Raise e' => (w_load, Raise e')
       | Ok _ =>
           (w_load ++ [SentenceTransformerEncode texts],
            sentence_transformer_encode env (length w_load) texts)
       end
  /\ (forall later,
       let '(w2, self2) := generate_all env self1 later w1 in
       use_ollama self2 = false /\ primary_calls w2 = primary_calls w1)
  /\ (sentence_transformer_load env (length wp) fallback_model = Ok tt ->
      forall t ts w',
        generate_embeddings env self1 (t :: ts) w'
        = (w' ++ [SentenceTransformerEncode (t :: ts)], self1,
           sentence_transformer_encode env (length w') (t :: ts))).
Proof.
  intros Hon Hraise wp w_load. subst wp w_load.
  unfold generate_embeddings at 1.
  destruct texts as [|t0 ts0]; [cbn in Hraise; discriminate|].
  rewrite Hon.
  destruct (OllamaClient.generate_embeddings env (t0 :: ts0) w) as [wp rp].
  cbn [fst snd] in *. subst rp.
  destruct (sentence_transformer_load env (length wp) fallback_model)
    as [[]|e'].
  - cbn [encode_locally model].
    split; [reflexivity|]. split; [reflexivity|]. split.
    + intros later. apply generate_all_demoted. reflexivity.
    + intros _ t ts w'. apply generate_embeddings_local;
        [reflexivity | discriminate].
  - split; [reflexivity|]. split; [reflexivity|]. split.
    + intros later. apply generate_all_demoted. reflexivity.
    + discriminate.
Qed.

(** An outage during the first call only: the call is answered with the
    local model's vectors, and so are the later ones although the primary
    would answer again. *)
Lemma fallback_latch_witness :
  let env := Samples.outage_at_start in
  let '(w1, self1, r) :=
    generate_embeddings env Samples.fresh_generator ["x"; "y"] [] in
  use_ollama self1 = false
  /\ (w1, r)
     = ([OllamaEmbeddings "nomic-embed-text" "x";
         SentenceTransformerLoad fallback_model;
         SentenceTransformerEncode ["x"; "y"]],
        Ok [[zero binary64]; [zero binary64]])
  /\ (forall later,
       let '(w2, self2) := generate_all env self1 later w1 in
       use_ollama self2 = false /\ primary_calls w2 = primary_calls w1)
  /\ (Ok tt = Ok tt ->
      forall t ts w',
        generate_embeddings env self1 (t :: ts) w'
        = (w' ++ [SentenceTransformerEncode (t :: ts)], self1,
           sentence_transformer_encode env (length w') (t :: ts))).
Proof.
  exact (fallback_latch Samples.outage_at_start Samples.fresh_generator
           ["x"; "y"]%string []
           (Exn "ConnectionError" "connection refused")
           eq_refl eq_refl).
Defined.

(** *** Cosine similarity *)











(** *** Batching *)









End EmbeddingFacts.

Module StoreFacts.
Import Python Numeric External VectorStore.

Example stocked_store_ids :
  map fst (map_to_list (collection Samples.stocked_store))
  = ["K_0"; "H_1"; "H_0"]%string.
Proof. vm_compute. reflexivity. Qed.

(** *** The existence probe *)

Lemma matches_hash (h : string) (kr : string * Chroma.record) :
  Chroma.matches (hash_filter h) kr
  <-> Chroma.rec_metadata (snd kr) !! "file_hash" = Some (VStr h).
Proof.
  unfold Chroma.matches, hash_filter.
  exact (map_Forall_singleton
           (fun k v => Chroma.rec_metadata (snd kr) !! k = Some v)
           "file_hash" (VStr h)).
Qed.

Lemma records_with_hash_rows coll h :
  records_with_hash coll h = ∅
  <-> filter (Chroma.matches (hash_filter h)) (map_to_list coll) = [].
Proof.
  unfold records_with_hash. rewrite map_filter_alt. split.
  - destruct (filter _ (map_to_list coll)) as [|[k r] rows]; [done|].
    rewrite list_to_map_cons. intros H.
    exfalso. exact (insert_non_empty _ _ _ H).
  - intros ->. apply list_to_map_nil.
Qed.

Lemma get_ids_nil coll h limit :
  records_with_hash coll h = ∅ ->
  Chroma.gr_ids (Chroma.get coll (hash_filter h) limit) = [].
Proof.
  intros H. apply records_with_hash_rows in H. unfold Chroma.get.
  rewrite H. destruct limit as [n|]; [rewrite take_nil|]; reflexivity.
Qed.

Lemma get_ids_first coll h :
  records_with_hash coll h <> ∅ ->
  (0 < length (Chroma.gr_ids
                 (Chroma.get coll (hash_filter h) (Some 1%nat))))%nat.
Proof.
  intros H. rewrite records_with_hash_rows in H. unfold Chroma.get.
  destruct (filter _ (map_to_list coll)) as [|kr rows]; [done|].
  cbn. lia.
Qed.

Lemma document_exists_present env self h w :
  engine_fault env (length w) = None ->
  records_with_hash (collection self) h <> ∅ ->
  document_exists env self h w
  = (w ++ [CollectionGet (hash_filter h) (Some 1%nat)], true).
Proof.
  intros Hok Hin. unfold document_exists, engine_call. rewrite Hok.
  rewrite bool_decide_eq_true_2 by (apply get_ids_first; exact Hin).
  reflexivity.
Qed.

Lemma document_exists_absent env self h w :
  records_with_hash (collection self) h = ∅ ->
  document_exists env self h w
  = (w ++ [CollectionGet (hash_filter h) (Some 1%nat)], false).
Proof.
  intros Hout. unfold document_exists, engine_call.
  destruct (engine_fault env (length w)); [reflexivity|].
  rewrite get_ids_nil by exact Hout. reflexivity.
Qed.

Lemma document_exists_world env self h w :
  fst (document_exists env self h w)
  = w ++ [CollectionGet (hash_filter h) (Some 1%nat)].
Proof.
  unfold document_exists, engine_call.
  destruct (engine_fault env (length w)); reflexivity.
Qed.

Lemma embedding_calls_app (w1 w2 : World) :
  embedding_calls (w1 ++ w2) = embedding_calls w1 ++ embedding_calls w2.
Proof. apply List.filter_app. Qed.

(** C10: a document without chunks is refused after the existence probe,
    the only call that leaves the process: the embedding backends are not
    called, nothing is inserted, and the store object is left as it was. *)
Theorem add_document_no_chunks env self doc w :
  DocumentProcessor.chunks doc = [] ->
  let '(w1, self1, (ok, message)) := add_document env self doc w in
  ok = false
  /\ (message = "No text chunks to process"
      \/ message = "Document already exists in vector store")
  /\ self1 = self
  /\ w1 = w ++ [CollectionGet
                  (hash_filter (DocumentProcessor.file_hash doc))
                  (Some 1%nat)]
  /\ embedding_calls w1 = embedding_calls w.
Proof.
  intros Hnone. unfold add_document.
  pose proof (document_exists_world env self
                (DocumentProcessor.file_hash doc) w) as Hw.
  destruct (document_exists env self (DocumentProcessor.file_hash doc) w)
    as [w1 found]. cbn [fst] in Hw. subst w1.
  assert (Hcalls :
    embedding_calls
      (w ++ [CollectionGet (hash_filter (DocumentProcessor.file_hash doc))
                           (Some 1%nat)]) = embedding_calls w).
  { rewrite embedding_calls_app. cbn. apply app_nil_r. }
  destruct found.
  - repeat split; auto.
  - rewrite Hnone. cbn [map]. repeat split; auto.
Qed.

Lemma add_document_no_chunks_witness :
  let '(w1, self1, (ok, message)) :=
    add_document Samples.picky_primary Samples.stocked_store
                 (Samples.sample_document "Z" []) [] in
  ok = false
  /\ (message = "No text chunks to process"
      \/ message = "Document already exists in vector store")
  /\ self1 = Samples.stocked_store
  /\ w1 = [] ++ [CollectionGet (hash_filter "Z") (Some 1%nat)]
  /\ embedding_calls w1 = embedding_calls [].
Proof.
  exact (add_document_no_chunks Samples.picky_primary Samples.stocked_store
           (Samples.sample_document "Z" []) [] eq_refl).
Defined.

(** *** Idempotent ingestion *)

Lemma chunk_record_metadata_hash doc chunk now :
  chunk_record_metadata doc chunk now !! "file_hash"
  = Some (VStr (DocumentProcessor.file_hash doc)).
Proof.
  unfold chunk_record_metadata.
  destruct (DocumentProcessor.metadata chunk !! "page_number").
  - rewrite lookup_insert_ne by discriminate. apply lookup_insert_eq.
  - apply lookup_insert_eq.
Qed.

Lemma build_metadatas_hash env doc chunks w :
  Forall (fun md : gmap string pyval =>
            md !! "file_hash" = Some (VStr (DocumentProcessor.file_hash doc)))
         (snd (build_metadatas env doc chunks w)).
Proof.
  revert w. induction chunks as [|c rest IH]; intros w; cbn; [constructor|].
  specialize (IH (w ++ [DatetimeNow])).
  destruct (build_metadatas env doc rest (w ++ [DatetimeNow])) as [w1 mds].
  cbn in *. constructor; [apply chunk_record_metadata_hash | exact IH].
Qed.

(** Records that carry another hash leave the records of [h] alone. *)
Lemma add_rows_other_hash coll rows h :
  Forall (fun kr => ~ Chroma.matches (hash_filter h) kr) rows ->
  records_with_hash (Chroma.add_rows coll rows) h = records_with_hash coll h.
Proof.
  intros Hrows. revert coll.
  induction Hrows as [|[id r] rows Hr _ IH]; intros coll; cbn; [reflexivity|].
  rewrite IH. unfold Chroma.add_one.
  destruct (coll !! id) eqn:Hid; [reflexivity|].
  unfold records_with_hash. apply map_filter_insert_not'; [exact Hr|].
  intros y Hy. congruence.
Qed.

Lemma staged_rows_hash (h h' : string) (ids : list string)
    (eds : list (vec * string)) (mds : list (gmap string pyval)) :
  h' <> h ->
  Forall (fun md : gmap string pyval =>
            md !! "file_hash" = Some (VStr h')) mds ->
  Forall (fun kr => ~ Chroma.matches (hash_filter h) kr)
         (zip ids (zip_with (fun ed m =>
                               {| Chroma.rec_embedding := fst ed;
                                  Chroma.rec_document := snd ed;
                                  Chroma.rec_metadata := m |}) eds mds)).
Proof.
  intros Hne Hmds. revert ids eds.
  induction Hmds as [|md mds Hmd _ IH]; intros ids eds.
  - destruct eds; destruct ids; cbn; constructor.
  - destruct eds as [|ed eds]; [destruct ids; constructor|].
    destruct ids as [|id ids]; [constructor|]. cbn. constructor; [|apply IH].
    rewrite matches_hash. cbn. rewrite Hmd. congruence.
Qed.

Lemma add_other_hash coll ids embeddings documents mds coll' h h' :
  h' <> h ->
  Forall (fun md : gmap string pyval =>
            md !! "file_hash" = Some (VStr h')) mds ->
  Chroma.add coll ids embeddings documents mds = Ok coll' ->
  records_with_hash coll' h = records_with_hash coll h.
Proof.
  intros Hne Hmds. unfold Chroma.add.
  repeat case_match; try discriminate.
  intros [= <-]. apply add_rows_other_hash.
  apply (staged_rows_hash h h'); assumption.
Qed.

(** Whatever document is added, the records of a hash that is already in
    the store stay as they are. *)
Lemma add_document_keeps_present env self doc w h :
  responsive env ->
  records_with_hash (collection self) h <> ∅ ->
  records_with_hash
    (collection (snd (fst (add_document env self doc w)))) h
  = records_with_hash (collection self) h.
Proof.
  intros Hresp Hin. unfold add_document.
  destruct (decide (DocumentProcessor.file_hash doc = h)) as [->|Hne].
  - rewrite document_exists_present by (auto using Hresp). reflexivity.
  - destruct (document_exists env self (DocumentProcessor.file_hash doc) w)
      as [w1 [|]]; [reflexivity|].
    destruct (map DocumentProcessor.text (DocumentProcessor.chunks doc))
      as [|t ts]; [reflexivity|].
    destruct (Embeddings.batch_generate_embeddings env
                (embedding_generator self) (t :: ts)
                Embeddings.default_batch_size w1) as [[w2 g] [embs|e]];
      [|reflexivity].
    pose proof (build_metadatas_hash env doc
                  (DocumentProcessor.chunks doc) w2) as Hmds.
    destruct (build_metadatas env doc (DocumentProcessor.chunks doc) w2)
      as [w3 mds]. cbn [snd] in Hmds.
    unfold engine_call. destruct (engine_fault env (length w3));
      [reflexivity|].
    destruct (Chroma.add _ _ _ _ _) as [coll'|e] eqn:Hadd; [|reflexivity].
    cbn. eapply add_other_hash; [exact Hne | exact Hmds | exact Hadd].
Qed.

Lemma add_documents_keep_present env self docs w h :
  responsive env ->
  records_with_hash (collection self) h <> ∅ ->
  records_with_hash (collection (snd (add_documents env self docs w))) h
  = records_with_hash (collection self) h.
Proof.
  intros Hresp. revert self w.
  induction docs as [|d rest IH]; intros self w Hin; [reflexivity|].
  cbn [add_documents].
  pose proof (add_document_keeps_present env self d w h Hresp Hin) as Hstep.
  destruct (add_document env self d w) as [[w1 self1] res].
  cbn [fst snd] in Hstep. rewrite IH; [exact Hstep|]. congruence.
Qed.

Lemma insertions_none_when_present env self docs w h :
  responsive env ->
  records_with_hash (collection self) h <> ∅ ->
  insertions env self docs w h = 0%nat.
Proof.
  intros Hresp. revert self w.
  induction docs as [|d rest IH]; intros self w Hin; [reflexivity|].
  cbn [insertions].
  pose proof (add_document_keeps_present env self d w h Hresp Hin) as Hstep.
  destruct (add_document env self d w) as [[w1 self1] res].
  cbn [fst snd] in Hstep.
  rewrite decide_True by exact Hstep. rewrite IH; [reflexivity|]. congruence.
Qed.

Lemma insertions_at_most_one env self docs w h :
  responsive env -> (insertions env self docs w h <= 1)%nat.
Proof.
  intros Hresp. revert self w.
  induction docs as [|d rest IH]; intros self w; [cbn; lia|].
  destruct (decide (records_with_hash (collection self) h = ∅))
    as [Hout|Hin].
  2: { rewrite insertions_none_when_present by assumption. lia. }
  cbn [insertions].
  specialize (IH (snd (fst (add_document env self d w)))
                 (fst (fst (add_document env self d w)))).
  pose proof (insertions_none_when_present env
                (snd (fst (add_document env self d w))) rest
                (fst (fst (add_document env self d w))) h Hresp) as Hnone.
  destruct (add_document env self d w) as [[w1 self1] res].
  cbn [fst snd] in *. case_decide as Hsame; [exact IH|].
  rewrite Hnone; [lia|]. congruence.
Qed.

(** C1: with an answering engine, adding a document whose content hash
    already has records is refused as a duplicate right after the
    existence probe: no embedding backend is called, and the store object
    and its record count are unchanged.  Hence, in any sequence of
    additions, at most one changes the records kept under a given hash,
    and records that are present under a hash stay exactly as they are. *)
Theorem add_document_duplicate env :
  responsive env ->
  (forall self doc w,
     let h := DocumentProcessor.file_hash doc in
     records_with_hash (collection self) h <> ∅ ->
     let '(w1, self1, outcome) := add_document env self doc w in
     outcome = (false, "Document already exists in vector store")
     /\ w1 = w ++ [CollectionGet (hash_filter h) (Some 1%nat)]
     /\ embedding_calls w1 = embedding_calls w
     /\ self1 = self
     /\ total_chunks (snd (get_collection_stats env self1 w1))
        = total_chunks (snd (get_collection_stats env self w)))
  /\ (forall self docs w h,
        (insertions env self docs w h <= 1)%nat
        /\ (records_with_hash (collection self) h <> ∅ ->
            records_with_hash
              (collection (snd (add_documents env self docs w))) h
            = records_with_hash (collection self) h)).
Proof.
  intros Hresp. split.
  - intros self doc w h Hin. unfold add_document. fold h.
    rewrite document_exists_present by (auto using Hresp).
    split; [reflexivity|]. split; [reflexivity|]. split.
    { rewrite embedding_calls_app. cbn. apply app_nil_r. }
    split; [reflexivity|].
    unfold get_collection_stats, engine_call. rewrite !Hresp. reflexivity.
  - intros self docs w h. split.
    + apply insertions_at_most_one. exact Hresp.
    + apply add_documents_keep_present. exact Hresp.
Qed.

Lemma add_document_duplicate_witness :
  let env := Samples.picky_primary in
  let doc := Samples.sample_document "H"
               [Samples.sample_chunk "H" 7 "again"] in
  let '(w1, self1, outcome) :=
    add_document env Samples.stocked_store doc [] in
  outcome = (false, "Document already exists in vector store")
  /\ w1 = [] ++ [CollectionGet (hash_filter "H") (Some 1%nat)]
  /\ embedding_calls w1 = embedding_calls []
  /\ self1 = Samples.stocked_store
  /\ total_chunks (snd (get_collection_stats env self1 w1))
     = total_chunks (snd (get_collection_stats env Samples.stocked_store
                            [])).
Proof.
  destruct (add_document_duplicate Samples.picky_primary
              (fun t => eq_refl)) as [Hdup _].
  apply (Hdup Samples.stocked_store
              (Samples.sample_document "H"
                 [Samples.sample_chunk "H" 7 "again"]) []).
  vm_compute. discriminate.
Defined.

(** Two documents with hash ["H"] and one with hash ["K"], added to the
    empty store: only the first changes the records under ["H"]. *)
Example one_insertion_per_hash :
  insertions Samples.picky_primary Samples.empty_store
    [Samples.sample_document "H" [Samples.sample_chunk "H" 0 "alpha"];
     Samples.sample_document "K" [Samples.sample_chunk "K" 0 "gamma"];
     Samples.sample_document "H" [Samples.sample_chunk "H" 7 "again"]]
    [] "H" = 1%nat.
Proof. vm_compute. reflexivity. Qed.

(** *** Deletion *)

Lemma get_ids_elem coll h id :
  id ∈ Chroma.gr_ids (Chroma.get coll (hash_filter h) None)
  <-> is_Some (records_with_hash coll h !! id).
Proof.
  unfold Chroma.get, records_with_hash. cbn [Chroma.gr_ids]. split.
  - intros Hin. apply list_elem_of_fmap in Hin as [[k r] [-> Hkr]].
    apply list_elem_of_filter in Hkr as [HP Hkr].
    apply elem_of_map_to_list in Hkr. exists r.
    apply map_lookup_filter_Some. split; assumption.
  - intros [r Hr]. apply map_lookup_filter_Some in Hr as [Hk HP].
    apply list_elem_of_fmap. exists (id, r). split; [reflexivity|].
    apply list_elem_of_filter. split; [exact HP|].
    apply elem_of_map_to_list. exact Hk.
Qed.

Lemma get_ids_length coll h :
  length (Chroma.gr_ids (Chroma.get coll (hash_filter h) None))
  = size (records_with_hash coll h).
Proof.
  unfold Chroma.get, records_with_hash. cbn [Chroma.gr_ids].
  rewrite length_map, map_filter_alt, map_size_list_to_map; [reflexivity|].
  apply (sublist_NoDup _ ((map_to_list coll).*1)).
  - apply NoDup_fst_map_to_list.
  - apply fmap_sublist, sublist_filter.
Qed.

(** Deleting the ids fetched for a hash removes the records that carry
    the hash and no other. *)
Lemma delete_fetched coll h :
  Chroma.delete coll (Chroma.gr_ids (Chroma.get coll (hash_filter h) None))
  = filter (fun kr => ~ Chroma.matches (hash_filter h) kr) coll.
Proof.
  apply map_eq. intros k. unfold Chroma.delete.
  destruct (decide (k ∈ Chroma.gr_ids
                         (Chroma.get coll (hash_filter h) None)))
    as [Hin|Hout].
  - rewrite lookup_foldr_delete by exact Hin. symmetry.
    apply get_ids_elem in Hin as [r Hr].
    apply map_lookup_filter_Some in Hr as [Hk HP].
    apply map_lookup_filter_None. right. intros r' Hk' Hn.
    rewrite Hk in Hk'. injection Hk' as <-. exact (Hn HP).
  - rewrite lookup_foldr_delete_not_elem_of by exact Hout.
    destruct (coll !! k) as [r|] eqn:Hk; symmetry.
    + apply map_lookup_filter_Some. split; [exact Hk|].
      intros HP. apply Hout, get_ids_elem. exists r.
      apply map_lookup_filter_Some. split; assumption.
    + apply map_lookup_filter_None. left. exact Hk.
Qed.

Lemma none_left coll h :
  records_with_hash
    (filter (fun kr => ~ Chroma.matches (hash_filter h) kr) coll) h = ∅.
Proof.
  unfold records_with_hash. apply map_empty_filter_2.
  intros k r Hk. apply map_lookup_filter_Some in Hk as [_ Hn]. exact Hn.
Qed.

Lemma delete_document_absent env self h w :
  engine_fault env (length w) = None ->
  records_with_hash (collection self) h = ∅ ->
  delete_document env self h w
  = (w ++ [CollectionGet (hash_filter h) None], self,
     (false, "Document not found in vector store")).
Proof.
  intros Hok Hout. unfold delete_document, engine_call. rewrite Hok.
  rewrite get_ids_nil by exact Hout. reflexivity.
Qed.

Lemma delete_document_present env self h w :
  responsive env ->
  records_with_hash (collection self) h <> ∅ ->
  let ids := Chroma.gr_ids
               (Chroma.get (collection self) (hash_filter h) None) in
  delete_document env self h w
  = (w ++ [CollectionGet (hash_filter h) None; CollectionDelete ids],
     with_collection self
       (filter (fun kr => ~ Chroma.matches (hash_filter h) kr)
               (collection self)),
     (true, "Deleted "
              +:+ pretty (Z.of_nat (size (records_with_hash
                                            (collection self) h)))
              +:+ " chunks")).
Proof.
  intros Hresp Hin ids. unfold delete_document, engine_call.
  rewrite Hresp. fold ids.
  pose proof (get_ids_length (collection self) h) as Hlen. fold ids in Hlen.
  pose proof (delete_fetched (collection self) h) as Hdel. fold ids in Hdel.
  destruct ids as [|id ids'] eqn:Hids.
  { exfalso. apply Hin. apply map_size_empty_inv. cbn in Hlen. lia. }
  rewrite Hresp, Hdel, Hlen, <- app_assoc. reflexivity.
Qed.

(** C8: with an answering engine, [delete_document] on a hash that has
    records fetches their ids, removes them in a single engine call,
    leaves every other record in place and reports their number; the hash
    is then unknown to [document_exists], and a further deletion reports
    that the document is not found, as does a deletion of a hash without
    records, which changes nothing. *)
Theorem delete_document_exact env self h w :
  responsive env ->
  let present := records_with_hash (collection self) h in
  let '(w1, self1, outcome) := delete_document env self h w in
  (present <> ∅ ->
     outcome = (true, "Deleted " +:+ pretty (Z.of_nat (size present))
                        +:+ " chunks")
     /\ collection self1
        = filter (fun kr => ~ Chroma.matches (hash_filter h) kr)
                 (collection self)
     /\ (exists ids,
           w1 = w ++ [CollectionGet (hash_filter h) None;
                      CollectionDelete ids]
           /\ forall id, id ∈ ids <-> is_Some (present !! id))
     /\ (forall w', snd (document_exists env self1 h w') = false)
     /\ (forall w', snd (delete_document env self1 h w')
                    = (false, "Document not found in vector store")))
  /\ (present = ∅ ->
        outcome = (false, "Document not found in vector store")
        /\ self1 = self).
Proof.
  intros Hresp present.
  destruct (decide (present = ∅)) as [Hout|Hin].
  - rewrite delete_document_absent by (auto using Hresp).
    split; [contradiction | split; reflexivity].
  - rewrite (delete_document_present env self h w Hresp Hin).
    split; [|contradiction]. intros _. cbn [collection with_collection].
    split; [reflexivity|]. split; [reflexivity|]. split.
    { eexists. split; [reflexivity|]. apply get_ids_elem. }
    split; intros w'.
    + rewrite document_exists_absent; [reflexivity|]. apply none_left.
    + rewrite delete_document_absent;
        [reflexivity | apply Hresp | apply none_left].
Qed.

Lemma delete_document_exact_witness :
  let env := Samples.picky_primary in
  let present := records_with_hash (collection Samples.stocked_store) "H" in
  let '(w1, self1, outcome) :=
    delete_document env Samples.stocked_store "H" [] in
  (present <> ∅ ->
     outcome = (true, "Deleted 2 chunks")
     /\ collection self1
        = filter (fun kr => ~ Chroma.matches (hash_filter "H") kr)
                 (collection Samples.stocked_store)
     /\ (exists ids,
           w1 = [] ++ [CollectionGet (hash_filter "H") None;
                       CollectionDelete ids]
           /\ forall id, id ∈ ids <-> is_Some (present !! id))
     /\ (forall w', snd (document_exists env self1 "H" w') = false)
     /\ (forall w', snd (delete_document env self1 "H" w')
                    = (false, "Document not found in vector store")))
  /\ (present = ∅ ->
        outcome = (false, "Document not found in vector store")
        /\ self1 = Samples.stocked_store).
Proof.
  apply (delete_document_exact Samples.picky_primary Samples.stocked_store
           "H" []).
  intros t. reflexivity.
Defined.

Example delete_leaves_the_other_document :
  let '(_, self1, _) :=
    delete_document Samples.picky_primary Samples.stocked_store "H" [] in
  map fst (map_to_list (collection self1)) = ["K_0"]%string.
Proof. vm_compute. reflexivity. Qed.

(** *** Engine failures *)

(** C7, as stated, fails: with the engine raising on every call,
    [document_exists] answers [False] for a hash that has records and
    [search] answers the empty list, the very answers a healthy engine
    gives on an empty store; neither carries an error. *)
Lemma engine_failure_swallowed :
  records_with_hash (collection Samples.stocked_store) "H" <> ∅
  /\ snd (document_exists Samples.engine_down Samples.stocked_store "H" [])
     = false
  /\ snd (search Samples.engine_down Samples.stocked_store "alpha"
                 None None []) = []
  /\ snd (document_exists Samples.picky_primary Samples.empty_store "H" [])
     = false
  /\ snd (search Samples.picky_primary Samples.empty_store "alpha"
                 None None []) = [].
Proof. vm_compute. repeat split; discriminate. Qed.

Lemma get_ids_present coll h :
  records_with_hash coll h <> ∅ ->
  Chroma.gr_ids (Chroma.get coll (hash_filter h) None) <> [].
Proof.
  intros Hin Hnil. apply Hin, map_size_empty_iff.
  rewrite <- get_ids_length, Hnil. reflexivity.
Qed.

Lemma add_document_failure_keeps_collection env self doc w :
  let '(_, self1, (ok, _)) := add_document env self doc w in
  ok = false -> collection self1 = collection self.
Proof.
  unfold add_document.
  destruct (document_exists env self _ w) as [w1 [|]]; [reflexivity|].
  destruct (map DocumentProcessor.text (DocumentProcessor.chunks doc))
    as [|t ts]; [reflexivity|].
  destruct (Embeddings.batch_generate_embeddings env _ _ _ _)
    as [[w2 g] [embs|e]]; [|reflexivity].
  destruct (build_metadatas env doc _ w2) as [w3 mds].
  destruct (engine_call env _ _ w3) as [w4 [coll|e]];
    [discriminate | reflexivity].
Qed.

Lemma add_document_failed_probe env self doc w e :
  engine_fault env (length w) = Some e ->
  let '(_, _, (_, message)) := add_document env self doc w in
  message <> "Document already exists in vector store".
Proof.
  intros Hfault. unfold add_document, document_exists.
  unfold engine_call at 1. rewrite Hfault.
  destruct (map DocumentProcessor.text (DocumentProcessor.chunks doc))
    as [|t ts]; [discriminate|].
  destruct (Embeddings.batch_generate_embeddings env _ _ _ _)
    as [[w2 g] [embs|e']]; [|discriminate].
  destruct (build_metadatas env doc _ w2) as [w3 mds].
  destruct (engine_call env _ _ w3) as [w4 [coll|e']]; discriminate.
Qed.

(** C7 (amended): a failure of an engine call never leaves an operation as
    an exception.  [delete_document] returns [(False, "Error: " + cause)]
    when its fetch or its deletion fails, [add_document] returns the same
    when its insertion fails, and [get_collection_stats] returns zero
    counts with the cause under ['error'] when its count or its fetch
    fails: the cause is carried, untyped and without the operation's name,
    and the collection is as it was, as it is after every [add_document]
    that reports failure.  [search] returns the empty list when its query
    fails and [document_exists] returns [False] when its lookup fails;
    [add_document] goes on past a failed probe and never reports a
    duplicate then. *)
Theorem engine_failures_caught env self :
  (forall h w e,
     engine_fault env (length w) = Some e ->
     document_exists env self h w
     = (w ++ [CollectionGet (hash_filter h) (Some 1%nat)], false))
  /\ (forall q n f w e,
        engine_fault env
          (length (fst (fst (Embeddings.generate_query_embedding env
                               (embedding_generator self) q w))))
        = Some e ->
        snd (search env self q n f w) = []
        /\ collection (snd (fst (search env self q n f w)))
           = collection self)
  /\ (forall h w e,
        engine_fault env (length w) = Some e ->
        delete_document env self h w
        = (w ++ [CollectionGet (hash_filter h) None], self,
           (false, "Error: " +:+ exn_msg e)))
  /\ (forall h w e,
        engine_fault env (length w) = None ->
        records_with_hash (collection self) h <> ∅ ->
        engine_fault env (S (length w)) = Some e ->
        let ids := Chroma.gr_ids
                     (Chroma.get (collection self) (hash_filter h) None) in
        delete_document env self h w
        = (w ++ [CollectionGet (hash_filter h) None; CollectionDelete ids],
           self, (false, "Error: " +:+ exn_msg e)))
  /\ (forall w e,
        engine_fault env (length w) = Some e ->
        get_collection_stats env self w
        = (w ++ [CollectionCount],
           {| total_chunks := 0; unique_documents := 0;
              stats_collection_name := collection_name self;
              stats_error := Some (exn_msg e) |}))
  /\ (forall w e,
        engine_fault env (length w) = None ->
        engine_fault env (S (length w)) = Some e ->
        get_collection_stats env self w
        = (w ++ [CollectionCount; CollectionGet ∅ None],
           {| total_chunks := 0; unique_documents := 0;
              stats_collection_name := collection_name self;
              stats_error := Some (exn_msg e) |}))
  /\ (forall doc w e,
        engine_fault env (length w) = Some e ->
        let '(_, _, (_, message)) := add_document env self doc w in
        message <> "Document already exists in vector store")
  /\ (forall doc w w1 w2 w3 g embeddings metadatas e,
        let chunks := DocumentProcessor.chunks doc in
        let texts := map DocumentProcessor.text chunks in
        let ids := map DocumentProcessor.chunk_id chunks in
        document_exists env self (DocumentProcessor.file_hash doc) w
        = (w1, false) ->
        texts <> [] ->
        Embeddings.batch_generate_embeddings env (embedding_generator self)
          texts Embeddings.default_batch_size w1 = (w2, g, Ok embeddings) ->
        build_metadatas env doc chunks w2 = (w3, metadatas) ->
        snd (engine_call env (CollectionAdd ids)
               (Chroma.add (collection self) ids embeddings texts metadatas)
               w3) = Raise e ->
        let '(w4, self1, outcome) := add_document env self doc w in
        w4 = w3 ++ [CollectionAdd ids]
        /\ collection self1 = collection self
        /\ outcome = (false, "Error: " +:+ exn_msg e))
  /\ (forall doc w,
        let '(_, self1, (ok, _)) := add_document env self doc w in
        ok = false -> collection self1 = collection self).
Proof.
  repeat apply conj.
  - intros h w e Hfault. unfold document_exists, engine_call.
    rewrite Hfault. reflexivity.
  - intros q n f w e. unfold search.
    destruct (Embeddings.generate_query_embedding env
                (embedding_generator self) q w) as [[w1 g] [qe|e']];
      cbn [fst snd]; [|intros _; split; reflexivity].
    intros Hfault. unfold engine_call. rewrite Hfault. split; reflexivity.
  - intros h w e Hfault. unfold delete_document, engine_call.
    rewrite Hfault. reflexivity.
  - intros h w e Hok Hin Hfault ids. unfold delete_document.
    unfold engine_call at 1. rewrite Hok. fold ids.
    pose proof (get_ids_present _ _ Hin) as Hids. fold ids in Hids.
    destruct ids as [|id ids']; [contradiction|].
    unfold engine_call. rewrite length_app, Nat.add_1_r, Hfault.
    rewrite <- app_assoc. reflexivity.
  - intros w e Hfault. unfold get_collection_stats, engine_call.
    rewrite Hfault. reflexivity.
  - intros w e Hok Hfault. unfold get_collection_stats.
    unfold engine_call at 1. rewrite Hok.
    unfold engine_call. rewrite length_app, Nat.add_1_r, Hfault.
    rewrite <- app_assoc. reflexivity.
  - intros doc w e Hfault. apply (add_document_failed_probe env self doc w e).
    exact Hfault.
  - intros doc w w1 w2 w3 g embeddings metadatas e chunks texts ids
           Hprobe Htexts Hemb Hmds Hadd.
    unfold add_document. rewrite Hprobe. fold chunks texts ids.
    destruct texts as [|t ts] eqn:Ht; [contradiction|].
    rewrite Hemb. fold chunks. rewrite Hmds.
    cbn [collection with_generator].
    revert Hadd. unfold engine_call. cbn [snd]. intros ->.
    repeat split.
  - intros doc w. apply add_document_failure_keeps_collection.
Qed.

Lemma engine_failures_caught_witness :
  document_exists Samples.engine_down Samples.stocked_store "H" []
  = ([] ++ [CollectionGet (hash_filter "H") (Some 1%nat)], false)
  /\ (let ids := Chroma.gr_ids
                   (Chroma.get (collection Samples.stocked_store)
                               (hash_filter "H") None) in
      delete_document Samples.second_call_fails Samples.stocked_store "H" []
      = ([] ++ [CollectionGet (hash_filter "H") None; CollectionDelete ids],
         Samples.stocked_store, (false, "Error: database is locked")))
  /\ get_collection_stats Samples.second_call_fails Samples.stocked_store []
     = ([] ++ [CollectionCount; CollectionGet ∅ None],
        {| total_chunks := 0; unique_documents := 0;
           stats_collection_name := "rag_documents";
           stats_error := Some "database is locked" |}).
Proof.
  destruct (engine_failures_caught Samples.engine_down Samples.stocked_store)
    as (Hexists & _).
  destruct (engine_failures_caught Samples.second_call_fails
              Samples.stocked_store)
    as (_ & _ & _ & Hdelete & _ & Hstats & _).
  split; [|split].
  - apply (Hexists "H" [] (Exn "InternalError" "database is locked")).
    reflexivity.
  - apply (Hdelete "H" [] (Exn "InternalError" "database is locked"));
      [reflexivity | vm_compute; discriminate | reflexivity].
  - apply (Hstats [] (Exn "InternalError" "database is locked"));
      reflexivity.
Defined.

Example add_past_a_failed_probe :
  snd (add_document Samples.engine_down Samples.stocked_store
         (Samples.sample_document "H" [Samples.sample_chunk "H" 7 "again"])
         [])
  = (false, "Error: database is locked").
Proof. vm_compute. reflexivity. Qed.

(** With the probe alone failing, a document whose hash is stored is
    embedded and inserted again. *)
Example insertion_past_a_failed_probe :
  records_with_hash (collection Samples.stocked_store) "H" <> ∅
  /\ (let '(_, self1, outcome) :=
        add_document Samples.probe_outage Samples.stocked_store
          (Samples.sample_document "H" [Samples.sample_chunk "H" 7 "again"])
          [] in
      outcome = (true, "Added 1 chunks to vector store")
      /\ size (collection self1)
         = S (size (collection Samples.stocked_store))).
Proof. vm_compute. repeat split; discriminate. Qed.


(** *** Search *)









Example search_two_neighbours :
  map (fun r => (sr_id r, sr_distance r, sr_similarity r))
      (snd (search Samples.two_neighbours Samples.stocked_store "alpha"
                   (Some 2) None []))
  = [("H_0", Some (zero binary64), Some (one binary64));
     ("H_1", Some (one binary64), Some (zero binary64))].
Proof. vm_compute. reflexivity. Qed.

End StoreFacts.

(** ** More on the chunker *)

Module ChunkerMore.
Import Python DocumentProcessor.

(** The values of [range] with a positive step: the i-th is
    [cur + i * step], and it is below [stop]. *)
Lemma range_up_lookup (fuel : nat) (cur stop step : Z) (i : nat) (x : Z) :
  range_up fuel cur stop step !! i = Some x ->
  x = cur + Z.of_nat i * step /\ x < stop.
Proof.
  revert cur i. induction fuel as [|fuel IH]; intros cur i; cbn [range_up].
  - discriminate.
  - destruct (Z.ltb_spec cur stop) as [Hlt|Hge]; [|discriminate].
    destruct i as [|i]; cbn.
    + intros [= <-]. lia.
    + intros Hx. apply IH in Hx. lia.
Qed.

Lemma range_up_lookup_lt (fuel : nat) (cur stop step : Z) (i : nat) :
  0 < step ->
  (Z.to_nat (stop - cur) <= fuel)%nat ->
  cur + Z.of_nat i * step < stop ->
  range_up fuel cur stop step !! i = Some (cur + Z.of_nat i * step).
Proof.
  intros Hstep. revert cur i.
  induction fuel as [|fuel IH]; intros cur i Hfuel Hlt; cbn [range_up].
  - exfalso. nia.
  - destruct (Z.ltb_spec cur stop) as [Hc|Hc]; [|exfalso; nia].
    destruct i as [|i]; cbn.
    + f_equal. lia.
    + rewrite IH by lia. f_equal. lia.
Qed.

(** With a positive stride the chunks are the images of the starts of
    [range]. *)
Lemma chunk_text_positive_stride (self : BaseDocumentProcessor)
    (t : string) (md : gmap string pyval) (cs : list DocumentChunk) :
  chunk_overlap self < chunk_size self ->
  chunk_text self t md = Ok cs ->
  let tokens := encode (encoding self) (strip t) in
  let n := Z.of_nat (length tokens) in
  (strip t = EmptyString /\ cs = [])
  \/ (strip t <> EmptyString
      /\ cs = imap (make_chunk self tokens md (Z.of_nat (length cs)))
                   (range_up (Z.to_nat n) 0 n
                             (chunk_size self - chunk_overlap self))).
Proof.
  intros Hoc. unfold chunk_text, py_range.
  destruct (decide (strip t = EmptyString));
    [intros [= <-]; left; split; done|].
  destruct (Z.eqb_spec (chunk_size self - chunk_overlap self) 0); [lia|].
  destruct (Z.ltb_spec 0 (chunk_size self - chunk_overlap self)); [|lia].
  rewrite Z.sub_0_r. intros [= <-]. right. split; [assumption|]. cbn zeta.
  rewrite length_imap. reflexivity.
Qed.

Lemma chunk_at (self : BaseDocumentProcessor) (t : string)
    (md : gmap string pyval) (cs : list DocumentChunk) (i : nat)
    (ch : DocumentChunk) :
  chunk_overlap self < chunk_size self ->
  chunk_text self t md = Ok cs ->
  cs !! i = Some ch ->
  let tokens := encode (encoding self) (strip t) in
  let start := Z.of_nat i * (chunk_size self - chunk_overlap self) in
  ch = make_chunk self tokens md (Z.of_nat (length cs)) i start
  /\ start < Z.of_nat (length tokens).
Proof.
  intros Hoc Hcs Hi tokens start.
  destruct (chunk_text_positive_stride self t md cs Hoc Hcs)
    as [[_ ->]|[_ Heq]]; [discriminate|].
  fold tokens in Heq. rewrite Heq in Hi. rewrite list_lookup_imap in Hi.
  destruct (range_up _ 0 _ _ !! i) as [x|] eqn:Hx; [|discriminate].
  apply range_up_lookup in Hx as [-> Hlt]. rewrite Z.add_0_l in *.
  cbn in Hi. injection Hi as <-. split; [reflexivity | exact Hlt].
Qed.

Lemma py_slice_inside {A} (l : list A) (lo hi : Z) :
  0 <= lo <= hi -> hi <= Z.of_nat (length l) ->
  Z.of_nat (length (py_slice l lo hi)) = hi - lo.
Proof.
  intros Hlo Hhi. unfold py_slice, slice_index.
  destruct (Z.ltb_spec lo 0); [lia|]. destruct (Z.ltb_spec hi 0); [lia|].
  rewrite !Z.min_l by lia. rewrite length_take, length_drop. lia.
Qed.

Lemma chunk_text_imap (self : BaseDocumentProcessor) (t : string)
    (md : gmap string pyval) (cs : list DocumentChunk) :
  chunk_text self t md = Ok cs ->
  exists tokens total starts,
    cs = imap (make_chunk self tokens md total) starts.
Proof.
  unfold chunk_text.
  destruct (decide (strip t = EmptyString)).
  - intros [= <-]. exists [], 0, []. reflexivity.
  - destruct (py_range _ _ _) as [starts|e]; [|discriminate].
    intros [= <-]. eauto.
Qed.

(** X1: the [i]-th chunk of a text cut with [overlap < chunk_size] is the
    window that starts at token i times (chunk_size - overlap), a position
    inside the text, and ends at the smaller of start + chunk_size and the
    token count; its metadata records the index, both bounds and the
    number of chunks, its text is the decoded slice, and its id is the
    "file_hash" of the base metadata (or "unknown"), an underscore and the
    index. *)
Theorem chunk_window (self : BaseDocumentProcessor) (t : string)
    (md : gmap string pyval) (cs : list DocumentChunk) (i : nat)
    (ch : DocumentChunk) :
  chunk_overlap self < chunk_size self ->
  chunk_text self t md = Ok cs ->
  cs !! i = Some ch ->
  let tokens := encode (encoding self) (strip t) in
  let n := Z.of_nat (length tokens) in
  let start := Z.of_nat i * (chunk_size self - chunk_overlap self) in
  let end_ := Z.min (start + chunk_size self) n in
  start < n
  /\ metadata ch !! "chunk_index" = Some (VInt (Z.of_nat i))
  /\ metadata ch !! "chunk_start_token" = Some (VInt start)
  /\ metadata ch !! "chunk_end_token" = Some (VInt end_)
  /\ metadata ch !! "total_chunks" = Some (VInt (Z.of_nat (length cs)))
  /\ text ch = decode (encoding self) (py_slice tokens start end_)
  /\ chunk_id ch
     = py_str (dict_get md "file_hash" (VStr "unknown"))
         +:+ "_" +:+ pretty (Z.of_nat i).
Proof.
  intros Hoc Hcs Hi tokens n start end_.
  destruct (chunk_at self t md cs i ch Hoc Hcs Hi) as [-> Hlt].
  fold tokens start in Hlt |- *. unfold make_chunk.
  cbn [metadata text chunk_id]. split; [exact Hlt|].
  repeat split; by simplify_map_eq.
Qed.

Lemma chunk_window_witness :
  let p := Samples.small_windows in
  let cs := Samples.chunks_of p "abcde" ∅ in
  let ch := default Samples.no_chunk (cs !! 1%nat) in
  2 < 5
  /\ metadata ch !! "chunk_index" = Some (VInt 1)
  /\ metadata ch !! "chunk_start_token" = Some (VInt 2)
  /\ metadata ch !! "chunk_end_token" = Some (VInt 5)
  /\ metadata ch !! "total_chunks" = Some (VInt 3)
  /\ text ch = "cde"
  /\ chunk_id ch = "unknown_1".
Proof.
  exact (chunk_window Samples.small_windows "abcde" ∅
           (Samples.chunks_of Samples.small_windows "abcde" ∅) 1
           (default Samples.no_chunk
              (Samples.chunks_of Samples.small_windows "abcde" ∅ !! 1%nat))
           eq_refl eq_refl eq_refl).
Defined.

(** X2: with a positive chunk size and [overlap < chunk_size] no chunk is
    empty and none holds more than [chunk_size] tokens; the recorded token
    count is the width of the window. *)
Theorem chunk_token_bounds (self : BaseDocumentProcessor) (t : string)
    (md : gmap string pyval) (cs : list DocumentChunk) (i : nat)
    (ch : DocumentChunk) :
  0 < chunk_size self ->
  chunk_overlap self < chunk_size self ->
  chunk_text self t md = Ok cs ->
  cs !! i = Some ch ->
  exists k a b,
    metadata ch !! "chunk_token_count" = Some (VInt k)
    /\ metadata ch !! "chunk_start_token" = Some (VInt a)
    /\ metadata ch !! "chunk_end_token" = Some (VInt b)
    /\ k = b - a /\ 1 <= k <= chunk_size self.
Proof.
  intros Hc Hoc Hcs Hi.
  destruct (chunk_at self t md cs i ch Hoc Hcs Hi) as [-> Hlt].
  unfold make_chunk. cbn [metadata]. do 3 eexists.
  split; [by simplify_map_eq|]. split; [by simplify_map_eq|].
  split; [by simplify_map_eq|].
  rewrite py_slice_inside by nia. nia.
Qed.

Lemma chunk_token_bounds_witness :
  let cs := Samples.chunks_of Samples.small_windows "abcde" ∅ in
  let ch := default Samples.no_chunk (cs !! 2%nat) in
  exists k a b,
    metadata ch !! "chunk_token_count" = Some (VInt k)
    /\ metadata ch !! "chunk_start_token" = Some (VInt a)
    /\ metadata ch !! "chunk_end_token" = Some (VInt b)
    /\ k = b - a /\ 1 <= k <= 3.
Proof.
  intros cs ch.
  apply (chunk_token_bounds Samples.small_windows "abcde" ∅ cs 2 ch);
    [cbn; lia | cbn; lia
    | vm_compute; reflexivity | vm_compute; reflexivity].
Defined.

(** X3: with [0 <= overlap < chunk_size] the windows leave no gap: every
    token position of a non-blank text lies inside some chunk. *)
Theorem chunks_cover_tokens (self : BaseDocumentProcessor) (t : string)
    (md : gmap string pyval) (cs : list DocumentChunk) (p : Z) :
  0 <= chunk_overlap self < chunk_size self ->
  strip t <> EmptyString ->
  chunk_text self t md = Ok cs ->
  0 <= p < count_tokens self (strip t) ->
  exists i ch a b,
    cs !! i = Some ch
    /\ metadata ch !! "chunk_start_token" = Some (VInt a)
    /\ metadata ch !! "chunk_end_token" = Some (VInt b)
    /\ a <= p < b.
Proof.
  intros Hoc Hne Hcs Hp. unfold count_tokens in Hp.
  set (tokens := encode (encoding self) (strip t)) in *.
  set (n := Z.of_nat (length tokens)) in *.
  set (stride := chunk_size self - chunk_overlap self).
  assert (Hstride : 0 < stride) by (unfold stride; lia).
  set (i := Z.to_nat (p / stride)).
  assert (Hi : Z.of_nat i * stride <= p < Z.of_nat i * stride + stride).
  { unfold i. rewrite Z2Nat.id by (apply Z.div_pos; lia).
    pose proof (Z.div_mod p stride ltac:(lia)).
    pose proof (Z.mod_pos_bound p stride Hstride). nia. }
  assert (Hlookup : exists ch, cs !! i = Some ch).
  { destruct (chunk_text_positive_stride self t md cs ltac:(lia) Hcs)
      as [[He _]|[_ Heq]]; [contradiction|].
    fold tokens n stride in Heq. rewrite Heq, list_lookup_imap.
    rewrite (range_up_lookup_lt (Z.to_nat n) 0 n stride i) by lia.
    eexists. reflexivity. }
  destruct Hlookup as [ch Hch].
  destruct (chunk_at self t md cs i ch ltac:(lia) Hcs Hch) as [-> Hlt].
  fold tokens n stride in Hlt |- *.
  exists i. eexists. do 2 eexists. split; [exact Hch|].
  unfold make_chunk. cbn [metadata].
  split; [by simplify_map_eq|]. split; [by simplify_map_eq|].
  unfold stride, n, tokens in *. lia.
Qed.

Lemma chunks_cover_tokens_witness :
  let cs := Samples.chunks_of Samples.small_windows "abcde" ∅ in
  exists i ch a b,
    cs !! i = Some ch
    /\ metadata ch !! "chunk_start_token" = Some (VInt a)
    /\ metadata ch !! "chunk_end_token" = Some (VInt b)
    /\ a <= 4 < b.
Proof.
  intros cs.
  apply (chunks_cover_tokens Samples.small_windows "abcde" ∅ cs 4);
    [cbn; lia | vm_compute; discriminate
    | vm_compute; reflexivity | vm_compute; split; [discriminate|reflexivity]].
Defined.

(** X4: the chunk ids of one chunking are pairwise distinct, whatever the
    parameters. *)
Theorem chunk_ids_distinct (self : BaseDocumentProcessor) (t : string)
    (md : gmap string pyval) (cs : list DocumentChunk) :
  chunk_text self t md = Ok cs ->
  NoDup (map chunk_id cs).
Proof.
  intros Hcs.
  destruct (chunk_text_imap self t md cs Hcs) as (tokens & total & starts & ->).
  apply NoDup_alt. intros i j id.
  change (map chunk_id ?l) with (chunk_id <$> l).
  rewrite !list_lookup_fmap, !list_lookup_imap.
  destruct (starts !! i) as [si|]; [|discriminate].
  destruct (starts !! j) as [sj|]; [|discriminate].
  cbn. intros [= <-] [= Heq].
  apply String.app_inj, String.app_inj in Heq.
  apply (inj pretty) in Heq. lia.
Qed.

Lemma chunk_ids_distinct_witness :
  NoDup (map chunk_id (Samples.chunks_of Samples.small_windows "abcde" ∅)).
Proof.
  apply (chunk_ids_distinct Samples.small_windows "abcde" ∅).
  vm_compute. reflexivity.
Defined.

(** X5: every chunk carries the base metadata: a key other than the five
    the chunker writes has in each chunk the value it has in the base
    dictionary, and is absent where it is absent there. *)
Theorem chunk_keeps_base_metadata (self : BaseDocumentProcessor)
    (t : string) (md : gmap string pyval) (cs : list DocumentChunk)
    (i : nat) (ch : DocumentChunk) (key : string) :
  chunk_text self t md = Ok cs ->
  cs !! i = Some ch ->
  key ∉ ["chunk_index"; "chunk_start_token"; "chunk_end_token";
         "chunk_token_count"; "total_chunks"]%string ->
  metadata ch !! key = md !! key.
Proof.
  intros Hcs Hi Hkey.
  destruct (chunk_text_imap self t md cs Hcs) as (tokens & total & starts & ->).
  rewrite list_lookup_imap in Hi.
  destruct (starts !! i) as [s|]; [|discriminate].
  cbn in Hi. injection Hi as <-. unfold make_chunk. cbn [metadata].
  rewrite !not_elem_of_cons in Hkey.
  destruct Hkey as (H1 & H2 & H3 & H4 & H5 & _).
  rewrite !lookup_insert_ne by congruence. reflexivity.
Qed.

Lemma chunk_keeps_base_metadata_witness :
  let md : gmap string pyval := {[ "file_name" := VStr "a.txt" ]} in
  let cs := Samples.chunks_of Samples.small_windows "abcde" md in
  let ch := default Samples.no_chunk (cs !! 0%nat) in
  metadata ch !! "file_name" = md !! "file_name".
Proof.
  intros md cs ch.
  apply (chunk_keeps_base_metadata Samples.small_windows "abcde" md cs 0 ch);
    [vm_compute; reflexivity | vm_compute; reflexivity |].
  rewrite !not_elem_of_cons. repeat split; try discriminate.
  apply not_elem_of_nil.
Defined.

End ChunkerMore.

(** ** src/utils.py: validation and hashing *)

Module UtilsFacts.
Import Python Utils Processing.

Lemma mime_check_permissive fs file_path file_ext :
  mime_check fs file_path file_ext = (true, EmptyString).
Proof.
  unfold mime_check. destruct (magic_from_file fs file_path); [|reflexivity].
  repeat case_match; reflexivity.
Qed.

Lemma validate_file_decides fs file_path file_size :
  path_exists fs file_path = Ok true ->
  path_is_file fs file_path = Ok true ->
  st_size fs file_path = Ok file_size ->
  0 <= file_size ->
  if (0 <? file_size) && (file_size <=? MAX_FILE_SIZE)
     && is_supported (lower (path_suffix file_path))
  then validate_file fs file_path = (true, EmptyString)
  else fst (validate_file fs file_path) = false.
Proof.
  intros Hex Hfile Hsize Hpos. unfold validate_file.
  rewrite Hex, Hfile, Hsize. cbn [bind negb].
  destruct (Z.ltb_spec MAX_FILE_SIZE file_size) as [Hbig|Hfit].
  - rewrite (proj2 (Z.leb_gt _ _)) by lia.
    rewrite andb_false_r. reflexivity.
  - rewrite (proj2 (Z.leb_le _ _)) by lia. rewrite andb_true_r.
    destruct (Z.eqb_spec file_size 0) as [->|Hnz]; [reflexivity|].
    rewrite (proj2 (Z.ltb_lt _ _)) by lia. cbn [andb].
    destruct (is_supported (lower (path_suffix file_path))); cbn [negb].
    + apply mime_check_permissive.
    + reflexivity.
Qed.

(** X6: for a path that exists and is a regular file whose size can be
    read, [validate_file] answers [(True, "")] exactly when the size is
    between 1 byte and 50 MiB and the lower-cased suffix is one of the
    supported extensions; the detected MIME type, or a failure to detect
    it, never changes the answer. *)
Theorem validate_file_accepts fs file_path file_size :
  path_exists fs file_path = Ok true ->
  path_is_file fs file_path = Ok true ->
  st_size fs file_path = Ok file_size ->
  0 <= file_size ->
  (validate_file fs file_path = (true, EmptyString)
   <-> 0 < file_size <= MAX_FILE_SIZE
       /\ lower (path_suffix file_path) ∈ map fst SUPPORTED_EXTENSIONS)
  /\ (fst (validate_file fs file_path) = true
      -> validate_file fs file_path = (true, EmptyString)).
Proof.
  intros Hex Hfile Hsize Hpos.
  pose proof (validate_file_decides fs file_path file_size
                Hex Hfile Hsize Hpos) as Hd.
  unfold is_supported in Hd.
  destruct (Z.ltb_spec 0 file_size) as [H0|H0];
    destruct (Z.leb_spec file_size MAX_FILE_SIZE) as [H1|H1];
    cbn [andb] in Hd;
    try (split; [split; [intros Hv; rewrite Hv in Hd; discriminate | lia]
                | intros Hv; rewrite Hv in Hd; discriminate]).
  destruct (bool_decide_reflect
              (lower (path_suffix file_path) ∈ map fst SUPPORTED_EXTENSIONS))
    as [Hin|Hout].
  - split; [split; [intros _; split; [lia | exact Hin] | intros _; exact Hd]
           | intros _; exact Hd].
  - split; [split; [intros Hv; rewrite Hv in Hd; discriminate
                   | intros [_ Hin]; contradiction]
           | intros Hv; rewrite Hv in Hd; discriminate].
Qed.

Lemma validate_file_accepts_witness :
  (validate_file Samples.sample_files "data/notes.txt" = (true, EmptyString)
   <-> 0 < 11 <= MAX_FILE_SIZE
       /\ lower (path_suffix "data/notes.txt") ∈ map fst SUPPORTED_EXTENSIONS)
  /\ (fst (validate_file Samples.sample_files "data/notes.txt") = true
      -> validate_file Samples.sample_files "data/notes.txt"
         = (true, EmptyString)).
Proof.
  apply (validate_file_accepts Samples.sample_files "data/notes.txt" 11);
    [reflexivity | reflexivity | reflexivity | lia].
Defined.

Example validate_file_rejections :
  validate_file Samples.sample_files "data/missing.txt"
  = (false, "File does not exist")
  /\ validate_file Samples.sample_files "data" = (false, "Path is not a file")
  /\ validate_file Samples.sample_files "data/notes.TXT"
     = (false, "File does not exist")
  /\ path_suffix "data/.txt" = EmptyString
  /\ path_suffix "data/archive.tar.GZ" = ".GZ"
  /\ path_suffix "data/notes.txt/" = ".txt"
  /\ basename "data/notes.txt/" = EmptyString.
Proof. vm_compute. repeat split. Qed.

(** *** The factory *)

Lemma supported_cases (ext : string) :
  ext ∈ map fst SUPPORTED_EXTENSIONS ->
  ext = ".pdf" \/ ext = ".txt" \/ ext = ".md" \/ ext = ".docx"
  \/ ext = ".doc" \/ ext = ".csv".
Proof.
  cbn. rewrite !elem_of_cons, elem_of_nil. tauto.
Qed.

(** X7: every extension the factory has a processor for is accepted by
    [validate_file]'s extension check, and [".doc"] is the one accepted
    extension without a processor: a ".doc" file that passes validation
    makes [process_document] raise [ValueError] before the file is read. *)
Theorem doc_files_have_no_processor :
  (forall ext cls,
     lookup_processor processors ext = Some cls ->
     ext ∈ map fst SUPPORTED_EXTENSIONS)
  /\ (forall ext,
        ext ∈ map fst SUPPORTED_EXTENSIONS ->
        (lookup_processor processors ext = None <-> ext = ".doc"))
  /\ (forall fs s enc file_path file_size,
        path_exists fs file_path = Ok true ->
        path_is_file fs file_path = Ok true ->
        st_size fs file_path = Ok file_size ->
        0 < file_size <= MAX_FILE_SIZE ->
        lower (path_suffix file_path) = ".doc" ->
        validate_file fs file_path = (true, EmptyString)
        /\ process_document fs s enc file_path
           = Raise (Exn "ValueError"
                        "No processor available for file type: .doc")).
Proof.
  split; [|split].
  - intros ext cls. unfold processors. cbn [lookup_processor].
    repeat match goal with
           | |- context [String.eqb ?a ext] =>
               destruct (String.eqb_spec a ext) as [<-|?]
           end;
      try discriminate; intros _; cbn; rewrite !elem_of_cons; tauto.
  - intros ext Hin. apply supported_cases in Hin.
    destruct Hin as [->|[->|[->|[->|[->| ->]]]]]; vm_compute;
      split; intros H; try discriminate; reflexivity.
  - intros fs s enc file_path file_size Hex Hfile Hsize Hrange Hdoc. split.
    + pose proof (validate_file_decides fs file_path file_size
                    Hex Hfile Hsize ltac:(lia)) as Hd.
      rewrite Hdoc in Hd.
      rewrite (proj2 (Z.ltb_lt _ _) (proj1 Hrange)) in Hd.
      rewrite (proj2 (Z.leb_le _ _) (proj2 Hrange)) in Hd.
      exact Hd.
    + unfold process_document, get_processor. rewrite Hdoc. reflexivity.
Qed.

Lemma doc_files_have_no_processor_witness :
  validate_file Samples.sample_files "data/old.doc" = (true, EmptyString)
  /\ process_document Samples.sample_files Settings.defaults
       DocumentProcessor.char_encoding "data/old.doc"
     = Raise (Exn "ValueError"
                  "No processor available for file type: .doc").
Proof.
  destruct doc_files_have_no_processor as (_ & _ & Hdoc).
  apply (Hdoc Samples.sample_files Settings.defaults
              DocumentProcessor.char_encoding "data/old.doc" 6);
    [reflexivity | reflexivity | reflexivity
    | unfold MAX_FILE_SIZE; lia | reflexivity].
Defined.

(** *** Hashing *)

Lemma hash_blocks_rest (fuel : nat) (content : list ascii) (pos : nat)
    (fed : list ascii) :
  (length content - pos < fuel)%nat ->
  hash_blocks fuel content pos fed = fed ++ drop pos content.
Proof.
  revert pos fed. induction fuel as [|fuel IH]; intros pos fed Hfuel; [lia|].
  cbn [hash_blocks].
  remember (drop pos content) as rest eqn:Hrest.
  destruct (take 4096 rest) as [|b block] eqn:Hblock.
  - destruct rest; [rewrite app_nil_r; reflexivity | discriminate].
  - assert (Hlen : (1 <= length (b :: block) <= length rest)%nat).
    { rewrite <- Hblock, length_take. destruct rest; [discriminate|].
      cbn [length]. lia. }
    assert (Hrl : length rest = (length content - pos)%nat)
      by (subst rest; apply length_drop).
    rewrite IH by lia.
    rewrite <- app_assoc. f_equal.
    rewrite <- drop_drop, <- Hrest, <- Hblock.
    destruct (le_lt_dec 4096 (length rest)) as [Hfull|Hshort].
    + rewrite length_take, Nat.min_l by exact Hfull. apply take_drop.
    + rewrite take_ge by lia. rewrite drop_all. apply app_nil_r.
Qed.

Lemma hash_blocks_all (content : list ascii) :
  hash_blocks (S (length content)) content 0 [] = content.
Proof. rewrite hash_blocks_rest by lia. reflexivity. Qed.

(** X8: [get_file_hash] feeds the hash every byte of the file exactly
    once and in order, so that it returns the digest of the whole content,
    whatever the length of the file; it fails only if the file cannot be
    read. *)
Theorem get_file_hash_whole_content fs file_path :
  get_file_hash fs file_path
  = match read_bytes fs file_path with
    | Ok content => Ok (sha256_hexdigest fs content)
    | Raise e => Raise e
    end.
Proof.
  unfold get_file_hash. destruct (read_bytes fs file_path) as [content|e];
    [|reflexivity].
  cbn [bind]. rewrite hash_blocks_all. reflexivity.
Qed.

End UtilsFacts.

(** ** Processing a file *)

Module ProcessingFacts.
Import Python Utils Processing DocumentProcessor.

(** *** The token total *)

Lemma sum_token_counts_imap (f : nat -> Z -> DocumentChunk)
    (width : Z -> Z) (starts : list Z) :
  (forall i x, metadata (f i x) !! "chunk_token_count"
               = Some (VInt (width x))) ->
  sum_token_counts (imap f starts)
  = Ok (foldr (fun x acc => width x + acc) 0 starts).
Proof.
  revert f. induction starts as [|x starts IH]; intros f Hf; [reflexivity|].
  cbn [imap sum_token_counts foldr]. rewrite Hf.
  rewrite (IH (f ∘ S)) by (intros i y; apply Hf). reflexivity.
Qed.

Lemma make_chunk_token_count self tokens md total i start :
  metadata (make_chunk self tokens md total i start) !! "chunk_token_count"
  = Some (VInt (Z.of_nat
                  (length (py_slice tokens start
                             (Z.min (start + chunk_size self)
                                    (Z.of_nat (length tokens))))))).
Proof. unfold make_chunk. cbn [metadata]. by simplify_map_eq. Qed.

(** The widths of the windows taken at the starts of [range] add up to at
    least the tokens from the first start on, and to exactly those tokens
    when the stride is the chunk size. *)
Lemma window_widths (tokens : list Z) (c s : Z) (fuel : nat) (cur : Z) :
  0 < s <= c -> 0 <= cur ->
  (Z.to_nat (Z.of_nat (length tokens) - cur) <= fuel)%nat ->
  let n := Z.of_nat (length tokens) in
  let total :=
    foldr (fun x acc =>
             Z.of_nat (length (py_slice tokens x (Z.min (x + c) n))) + acc)
          0 (range_up fuel cur n s) in
  Z.max 0 (n - cur) <= total /\ (s = c -> total = Z.max 0 (n - cur)).
Proof.
  intros Hs. revert cur. induction fuel as [|fuel IH]; intros cur Hcur Hfuel.
  - cbn. lia.
  - cbn zeta. cbn [range_up].
    destruct (Z.ltb_spec cur (Z.of_nat (length tokens))) as [Hlt|Hge].
    + cbn [foldr]. rewrite ChunkerMore.py_slice_inside by lia.
      destruct (IH (cur + s) ltac:(lia) ltac:(lia)) as [Hge Heq].
      cbn zeta in Hge, Heq. split; [lia|].
      intros Hsc. rewrite (Heq Hsc). lia.
    + cbn. lia.
Qed.

Lemma chunk_text_token_total (self : BaseDocumentProcessor) (t : string)
    (md : gmap string pyval) (cs : list DocumentChunk) :
  chunk_text self t md = Ok cs ->
  exists total,
    sum_token_counts cs = Ok total
    /\ (0 <= chunk_overlap self < chunk_size self ->
        strip t <> EmptyString ->
        count_tokens self (strip t) <= total
        /\ (chunk_overlap self = 0 ->
            total = count_tokens self (strip t))).
Proof.
  unfold chunk_text, count_tokens.
  destruct (decide (strip t = EmptyString)) as [He|Hne].
  { intros [= <-]. exists 0. split; [reflexivity|]. intros _ Hc.
    contradiction. }
  set (tokens := encode (encoding self) (strip t)).
  destruct (py_range 0 (Z.of_nat (length tokens))
              (chunk_size self - chunk_overlap self))
    as [starts|e] eqn:Hrange; [|discriminate].
  intros [= <-].
  rewrite (sum_token_counts_imap _ _ _
             (make_chunk_token_count self tokens md
                (Z.of_nat (length starts)))).
  eexists. split; [reflexivity|]. intros Hoc _.
  revert Hrange. unfold py_range.
  destruct (Z.eqb_spec (chunk_size self - chunk_overlap self) 0); [lia|].
  destruct (Z.ltb_spec 0 (chunk_size self - chunk_overlap self)); [|lia].
  intros [= <-]. rewrite Z.sub_0_r.
  destruct (window_widths tokens (chunk_size self)
              (chunk_size self - chunk_overlap self)
              (Z.to_nat (Z.of_nat (length tokens))) 0
              ltac:(lia) ltac:(lia) ltac:(lia)) as [Hge Heq].
  cbn zeta in Hge, Heq. split; [lia|].
  intros Hzero. rewrite Heq by lia. lia.
Qed.

(** *** What a processed document is made of *)

Lemma process_ok (fs : FileSystem) (self : BaseDocumentProcessor)
    (extract : string -> Result (string * gmap string pyval))
    (path : string) (doc : ProcessedDocument) :
  process fs self extract path = Ok doc ->
  exists content text md size,
    fst (validate_file fs path) = true
    /\ read_bytes fs path = Ok content
    /\ extract path = Ok (text, md)
    /\ st_size fs path = Ok size
    /\ file_path doc = path
    /\ file_hash doc = sha256_hexdigest fs content
    /\ doc_metadata doc
       = <["file_size" := VInt size]>
         (<["file_hash" := VStr (file_hash doc)]>
         (<["file_name" := VStr (basename path)]>
         (<["file_path" := VStr path]> md)))
    /\ chunk_text self text (doc_metadata doc) = Ok (chunks doc)
    /\ sum_token_counts (chunks doc) = Ok (total_tokens doc)
    /\ total_chunks doc = Z.of_nat (length (chunks doc)).
Proof.
  unfold process.
  destruct (validate_file fs path) as [[|] msg]; [|discriminate].
  unfold get_file_hash.
  destruct (read_bytes fs path) as [content|e]; [|discriminate].
  cbn [bind]. rewrite UtilsFacts.hash_blocks_all.
  destruct (extract path) as [[text md]|e]; [|discriminate].
  cbn [bind fst snd].
  destruct (st_size fs path) as [size|e]; [|discriminate].
  cbn [bind].
  destruct (chunk_text self text _) as [cs|e] eqn:Hcs; [|discriminate].
  cbn [bind].
  destruct (sum_token_counts cs) as [total|e] eqn:Hsum; [|discriminate].
  cbn [bind]. intros [= <-]. cbn.
  exists content, text, md, size. repeat split; assumption.
Qed.

(** X9: in a document returned by [process] the hash is the digest of the
    file's bytes, [total_chunks] is the number of chunks, and the [i]-th
    chunk has the id "<hash>_<i>" and carries the hash, the path, the base
    name and the size of the file in its metadata. *)
Theorem processed_document_chunks (fs : FileSystem)
    (self : BaseDocumentProcessor)
    (extract : string -> Result (string * gmap string pyval))
    (path : string) (doc : ProcessedDocument) :
  process fs self extract path = Ok doc ->
  (exists content, read_bytes fs path = Ok content
                   /\ file_hash doc = sha256_hexdigest fs content)
  /\ total_chunks doc = Z.of_nat (length (chunks doc))
  /\ forall i ch,
       chunks doc !! i = Some ch ->
       chunk_id ch = file_hash doc +:+ "_" +:+ pretty (Z.of_nat i)
       /\ metadata ch !! "file_hash" = Some (VStr (file_hash doc))
       /\ metadata ch !! "file_path" = Some (VStr path)
       /\ metadata ch !! "file_name" = Some (VStr (basename path))
       /\ exists size, st_size fs path = Ok size
                       /\ metadata ch !! "file_size" = Some (VInt size).
Proof.
  intros Hdoc.
  destruct (process_ok fs self extract path doc Hdoc)
    as (content & text & md & size & _ & Hread & _ & Hsize & _
        & Hhash & Hmd & Hcs & _ & Hlen).
  split; [exists content; split; assumption|].
  split; [exact Hlen|].
  intros i ch Hi.
  destruct (ChunkerMore.chunk_text_imap self text _ _ Hcs)
    as (tokens & total & starts & Heq).
  rewrite Heq, list_lookup_imap in Hi.
  destruct (starts !! i) as [s|]; [|discriminate].
  cbn in Hi. injection Hi as <-. unfold make_chunk.
  cbn [metadata chunk_id]. rewrite Hmd. unfold dict_get.
  split; [by simplify_map_eq|].
  repeat split; try by simplify_map_eq.
  exists size. split; [exact Hsize | by simplify_map_eq].
Qed.

Lemma processed_document_chunks_witness :
  let doc :=
    match process Samples.sample_files Samples.small_windows
                  (text_extract_text Samples.sample_files)
                  "data/notes.txt" with
    | Ok doc => doc
    | Raise _ => Samples.sample_document "" []
    end in
  (exists content,
     read_bytes Samples.sample_files "data/notes.txt" = Ok content
     /\ file_hash doc = sha256_hexdigest Samples.sample_files content)
  /\ total_chunks doc = Z.of_nat (length (chunks doc))
  /\ forall i ch,
       chunks doc !! i = Some ch ->
       chunk_id ch = file_hash doc +:+ "_" +:+ pretty (Z.of_nat i)
       /\ metadata ch !! "file_hash" = Some (VStr (file_hash doc))
       /\ metadata ch !! "file_path" = Some (VStr "data/notes.txt")
       /\ metadata ch !! "file_name" = Some (VStr (basename "data/notes.txt"))
       /\ exists size,
            st_size Samples.sample_files "data/notes.txt" = Ok size
            /\ metadata ch !! "file_size" = Some (VInt size).
Proof.
  intros doc.
  apply (processed_document_chunks Samples.sample_files
           Samples.small_windows (text_extract_text Samples.sample_files)
           "data/notes.txt" doc).
  vm_compute. reflexivity.
Defined.

Example process_notes :
  match process Samples.sample_files Samples.small_windows
                (text_extract_text Samples.sample_files)
                "data/notes.txt" with
  | Ok doc => (file_hash doc, map chunk_id (chunks doc),
               map text (chunks doc), total_chunks doc, total_tokens doc)
  | Raise _ => (EmptyString, [], [], 0, 0)
  end
  = ("digest11",
     ["digest11_0"; "digest11_1"; "digest11_2"; "digest11_3";
      "digest11_4"; "digest11_5"]%string,
     ["hel"; "llo"; "o w"; "wor"; "rld"; "d"]%string, 6, 16).
Proof. vm_compute. reflexivity. Qed.

(** X10: the [total_tokens] of a processed document is the sum of the
    chunks' token counts; with [0 <= overlap < chunk_size] it is at least
    the number of tokens of the stripped text, the tokens of the overlaps
    being counted once per chunk, and with [overlap = 0] it is exactly that
    number. *)
Theorem processed_document_tokens (fs : FileSystem)
    (self : BaseDocumentProcessor)
    (extract : string -> Result (string * gmap string pyval))
    (path : string) (doc : ProcessedDocument) :
  process fs self extract path = Ok doc ->
  0 <= chunk_overlap self < chunk_size self ->
  exists text md,
    extract path = Ok (text, md)
    /\ sum_token_counts (chunks doc) = Ok (total_tokens doc)
    /\ (strip text <> EmptyString ->
        count_tokens self (strip text) <= total_tokens doc
        /\ (chunk_overlap self = 0 ->
            total_tokens doc = count_tokens self (strip text)))
    /\ (strip text = EmptyString ->
        chunks doc = [] /\ total_tokens doc = 0).
Proof.
  intros Hdoc Hoc.
  destruct (process_ok fs self extract path doc Hdoc)
    as (content & text & md & size & _ & _ & Hex & _ & _ & _ & _
        & Hcs & Hsum & _).
  exists text, md. split; [exact Hex|]. split; [exact Hsum|].
  destruct (chunk_text_token_total self text _ _ Hcs) as (total & Ht & Hb).
  rewrite Hsum in Ht. injection Ht as <-. split.
  - intros Hne. apply Hb; assumption.
  - intros He. revert Hcs Hsum. unfold chunk_text.
    destruct (decide (strip text = EmptyString)); [|contradiction].
    intros [= <-]. cbn. intros [= <-]. split; reflexivity.
Qed.

Lemma processed_document_tokens_witness :
  let doc :=
    match process Samples.sample_files Samples.small_windows
                  (text_extract_text Samples.sample_files)
                  "data/notes.txt" with
    | Ok doc => doc
    | Raise _ => Samples.sample_document "" []
    end in
  exists text md,
    text_extract_text Samples.sample_files "data/notes.txt" = Ok (text, md)
    /\ sum_token_counts (chunks doc) = Ok (total_tokens doc)
    /\ (strip text <> EmptyString ->
        count_tokens Samples.small_windows (strip text) <= total_tokens doc
        /\ (chunk_overlap Samples.small_windows = 0 ->
            total_tokens doc
            = count_tokens Samples.small_windows (strip text)))
    /\ (strip text = EmptyString ->
        chunks doc = [] /\ total_tokens doc = 0).
Proof.
  intros doc.
  apply (processed_document_tokens Samples.sample_files
           Samples.small_windows (text_extract_text Samples.sample_files)
           "data/notes.txt" doc);
    [vm_compute; reflexivity | cbn; lia].
Defined.

End ProcessingFacts.

(** ** Extraction and embeddings *)

Module ExtractionFacts.
Import Python Utils Processing.

Lemma split_chars_nonempty sep s : split_chars sep s <> [].
Proof.
  destruct s as [|c s]; cbn; [discriminate|].
  destruct (Ascii.eqb c sep); [discriminate|].
  destruct (split_chars sep s); discriminate.
Qed.

Lemma split_length_pos sep s : (1 <= length (split sep s))%nat.
Proof.
  unfold split. rewrite length_map.
  pose proof (split_chars_nonempty sep (list_ascii_of_string s)).
  destruct (split_chars sep (list_ascii_of_string s)); [contradiction|].
  cbn. lia.
Qed.

Lemma filter_length_mono {A} (p q : A -> bool) (l : list A) :
  (forall x, p x = true -> q x = true) ->
  (length (List.filter p l) <= length (List.filter q l))%nat.
Proof.
  intros Hpq. induction l as [|x l IH]; cbn; [lia|].
  destruct (p x) eqn:Hp.
  - rewrite (Hpq x Hp). cbn. lia.
  - destruct (q x); cbn; lia.
Qed.

Lemma header_is_not_blank (line : string) :
  startswith (strip line) "#" = true -> negb (is_blank line) = true.
Proof.
  unfold startswith, is_blank. intros Hp.
  rewrite bool_decide_eq_false_2; [reflexivity|].
  intros He. rewrite He in Hp. discriminate.
Qed.

(** X11: the Markdown extractor returns the file's text unchanged, tagged
    ["markdown"], with line counts that satisfy
    header_count <= non_empty_lines <= total_lines and total_lines >= 1
    (an empty file has one line); a file that cannot be read or decoded
    gives the text extractor's [ValueError]. *)
Theorem markdown_line_counts (fs : FileSystem) (path : string) :
  match read_text fs path with
  | Ok text =>
      exists md total non_empty headers,
        markdown_extract_text fs path = Ok (text, md)
        /\ md !! "file_type" = Some (VStr "markdown")
        /\ md !! "total_lines" = Some (VInt total)
        /\ md !! "non_empty_lines" = Some (VInt non_empty)
        /\ md !! "header_count" = Some (VInt headers)
        /\ 0 <= headers <= non_empty /\ non_empty <= total /\ 1 <= total
  | Raise e =>
      markdown_extract_text fs path
      = Raise (Exn "ValueError"
                   ("Failed to read text file: " +:+ exn_msg e))
  end.
Proof.
  unfold markdown_extract_text, text_extract_text.
  destruct (read_text fs path) as [text|e]; [|reflexivity].
  cbn [bind fst snd]. do 4 eexists. split; [reflexivity|].
  split; [by simplify_map_eq|]. split; [by simplify_map_eq|].
  split; [by simplify_map_eq|]. split; [by simplify_map_eq|].
  pose proof (filter_length_mono
                (fun l => startswith (strip l) "#")
                (fun l => negb (is_blank l))
                (split "010" text) header_is_not_blank).
  pose proof (List.filter_length_le (fun l => negb (is_blank l))
                                    (split "010" text)).
  pose proof (split_length_pos "010" text). lia.
Qed.

Example readme_counts :
  markdown_extract_text Samples.sample_files "data/readme.md"
  = Ok (Samples.file_content "data/readme.md",
        {[ "file_type" := VStr "markdown"; "total_lines" := VInt 3;
           "non_empty_lines" := VInt 3; "header_count" := VInt 2 ]}).
Proof. vm_compute. reflexivity. Qed.

End ExtractionFacts.

Module EmbeddingMore.
Import Python Numeric External Embeddings.

(** X12: the Ollama client sends one request per text, in order, and stops
    at the first request that fails: on success it has sent all of them and
    returns exactly one vector per text; on failure it has sent a non-empty
    prefix of them and returns no vector. *)
Theorem ollama_requests (env : Env) (texts : list string) (w : World) :
  let model := Settings.embedding_model (settings env) in
  let '(w1, r) := OllamaClient.generate_embeddings env texts w in
  exists k,
    (k <= length texts)%nat
    /\ w1 = w ++ map (OllamaEmbeddings model) (take k texts)
    /\ match r with
       | Ok vs => k = length texts /\ length vs = length texts
       | Raise _ => (1 <= k)%nat
       end.
Proof.
  cbn zeta. revert w. induction texts as [|t ts IH]; intros w.
  - exists 0%nat. cbn. rewrite app_nil_r. repeat split; lia.
  - cbn [OllamaClient.generate_embeddings].
    destruct (ollama_embeddings env (length w) _ t) as [v|e].
    + specialize (IH (w ++ [OllamaEmbeddings
                              (Settings.embedding_model (settings env)) t])).
      destruct (OllamaClient.generate_embeddings env ts _) as [w2 [vs|e]];
        destruct IH as (k & Hk & -> & Hr); exists (S k); cbn;
        rewrite <- app_assoc; repeat split; try lia; reflexivity.
    + exists 1%nat. cbn. repeat split; lia.
Qed.

(** X13: [batch_generate_embeddings] with batch size 0 raises the
    [ValueError] of [range()] whatever the texts, with a negative batch
    size it returns the empty list for any texts, and with a positive one
    it returns the empty list for no texts; in all three cases no backend
    is called and the generator is left as it was. *)
Theorem batch_size_edges (env : Env) (self : EmbeddingGenerator)
    (w : World) :
  (forall texts,
     batch_generate_embeddings env self texts 0 w
     = (w, self,
        Raise (Exn "ValueError" "range() arg 3 must not be zero")))
  /\ (forall texts bs,
        bs < 0 ->
        batch_generate_embeddings env self texts bs w = (w, self, Ok []))
  /\ (forall bs,
        0 < bs ->
        batch_generate_embeddings env self [] bs w = (w, self, Ok [])).
Proof.
  unfold batch_generate_embeddings. split; [|split].
  - intros texts. reflexivity.
  - intros texts bs Hbs.
    rewrite ChunkerFacts.py_range_negative by lia. reflexivity.
  - intros bs Hbs. unfold py_range.
    destruct (Z.eqb_spec bs 0); [lia|].
    destruct (Z.ltb_spec 0 bs); [|lia]. reflexivity.
Qed.

Lemma batch_size_edges_witness :
  batch_generate_embeddings Samples.picky_primary Samples.fresh_generator
    ["a"; "c"] (-1) []
  = ([], Samples.fresh_generator, Ok [])
  /\ batch_generate_embeddings Samples.picky_primary Samples.fresh_generator
       [] 32 []
     = ([], Samples.fresh_generator, Ok []).
Proof.
  destruct (batch_size_edges Samples.picky_primary Samples.fresh_generator [])
    as (_ & Hneg & Hpos).
  split; [apply Hneg | apply Hpos]; reflexivity.
Defined.

(** X14: a call of [generate_embeddings] that raises leaves the generator
    on the local model: an error reaches the caller only after the
    fallback has been engaged, and the next call goes to the local model
    at once. *)
Theorem raising_call_is_demoted (env : Env) (self : EmbeddingGenerator)
    (texts : list string) (w : World) :
  match generate_embeddings env self texts w with
  | (_, self1, Raise _) => use_ollama self1 = false
  | (_, _, Ok _) => True
  end.
Proof.
  unfold generate_embeddings, encode_locally.
  destruct texts as [|t ts]; [exact I|].
  destruct (use_ollama self) eqn:Hon.
  - destruct (OllamaClient.generate_embeddings env (t :: ts) w)
      as [w1 [vs|e]]; [exact I|].
    destruct (sentence_transformer_load env (length w1) fallback_model)
      as [[]|e']; [|reflexivity].
    cbn [model].
    destruct (sentence_transformer_encode env _ (t :: ts)); [exact I|].
    reflexivity.
  - destruct (model self); [|exact Hon].
    destruct (sentence_transformer_encode env _ (t :: ts));
      [exact I | exact Hon].
Qed.

Example both_backends_down :
  generate_embeddings Samples.no_backend Samples.fresh_generator ["x"] []
  = ([OllamaEmbeddings "nomic-embed-text" "x";
      SentenceTransformerLoad fallback_model],
     {| use_ollama := false; model_name := "nomic-embed-text";
        model := None |},
     Raise (Exn "OSError" "model files not found")).
Proof. vm_compute. reflexivity. Qed.

End EmbeddingMore.

(** ** More on the vector store *)

Module StoreMore.
Import Python Numeric External VectorStore.

(** *** What [add] does to the records that are there *)

Lemma add_one_subseteq coll id r : coll ⊆ Chroma.add_one coll id r.
Proof.
  unfold Chroma.add_one. destruct (coll !! id) eqn:Hid; [reflexivity|].
  apply insert_subseteq. exact Hid.
Qed.

Lemma add_rows_subseteq coll rows : coll ⊆ Chroma.add_rows coll rows.
Proof.
  revert coll. induction rows as [|[id r] rows IH]; intros coll; cbn;
    [reflexivity|].
  etrans; [apply (add_one_subseteq coll id r) | apply IH].
Qed.

Lemma add_rows_is_Some coll rows id :
  id ∈ rows.*1 -> is_Some (Chroma.add_rows coll rows !! id).
Proof.
  revert coll. induction rows as [|[i r] rows IH]; intros coll; cbn.
  - intros H. apply elem_of_nil in H. contradiction.
  - rewrite elem_of_cons. intros [->|Hin]; [|apply IH; exact Hin].
    assert (His : is_Some (Chroma.add_one coll i r !! i)).
    { unfold Chroma.add_one. destruct (coll !! i) eqn:Hi; [by rewrite Hi|].
      rewrite lookup_insert_eq. eauto. }
    destruct His as [x Hx]. exists x.
    eapply lookup_weaken; [exact Hx | apply add_rows_subseteq].
Qed.

Lemma add_rows_matching coll rows h :
  Forall (Chroma.matches (hash_filter h)) rows ->
  filter (fun kr => ~ Chroma.matches (hash_filter h) kr)
         (Chroma.add_rows coll rows)
  = filter (fun kr => ~ Chroma.matches (hash_filter h) kr) coll.
Proof.
  intros Hrows. revert coll.
  induction Hrows as [|[id r] rows Hr _ IH]; intros coll; cbn; [reflexivity|].
  rewrite IH. unfold Chroma.add_one.
  destruct (coll !! id) eqn:Hid; [reflexivity|].
  apply map_filter_insert_not'; [tauto|]. intros y Hy. congruence.
Qed.

Lemma staged_matching (h : string) ids embeddings documents mds :
  Forall (fun md : gmap string pyval =>
            md !! "file_hash" = Some (VStr h)) mds ->
  Forall (Chroma.matches (hash_filter h))
         (Chroma.staged ids embeddings documents mds).
Proof.
  unfold Chroma.staged. generalize (zip embeddings documents) as eds.
  intros eds Hmds. revert ids eds.
  induction Hmds as [|md mds Hmd _ IH]; intros ids eds.
  - destruct eds; destruct ids; cbn; constructor.
  - destruct eds as [|ed eds]; [destruct ids; constructor|].
    destruct ids as [|id ids]; [constructor|]. cbn. constructor; [|apply IH].
    apply StoreFacts.matches_hash. exact Hmd.
Qed.

Lemma add_inv coll ids embeddings documents mds coll' :
  Chroma.add coll ids embeddings documents mds = Ok coll' ->
  coll' = Chroma.add_rows coll (Chroma.staged ids embeddings documents mds)
  /\ NoDup ids /\ ids <> []
  /\ length embeddings = length ids /\ length documents = length ids
  /\ length mds = length ids.
Proof.
  unfold Chroma.add.
  destruct (bool_decide_reflect (ids = [])); [discriminate|].
  destruct (bool_decide_reflect
              (length embeddings = length ids
               /\ length documents = length ids
               /\ length mds = length ids)) as [(H1 & H2 & H3)|];
    [|discriminate].
  destruct (bool_decide_reflect (NoDup ids)); [|discriminate].
  cbn. intros [= <-]. repeat split; assumption.
Qed.

Lemma staged_ids ids embeddings documents mds :
  length embeddings = length ids -> length documents = length ids ->
  length mds = length ids ->
  (Chroma.staged ids embeddings documents mds).*1 = ids.
Proof.
  intros H1 H2 H3. unfold Chroma.staged. apply fst_zip.
  rewrite length_zip_with, length_zip. lia.
Qed.

(** The collection [add_document] leaves behind: the old one, or the old
    one with rows staged under the document's hash added. *)
Lemma add_document_collection env self doc w :
  let '(w1, self1, (ok, message)) := add_document env self doc w in
  if ok then
    DocumentProcessor.chunks doc <> []
    /\ message
       = "Added "
           +:+ pretty (Z.of_nat (length (DocumentProcessor.chunks doc)))
           +:+ " chunks to vector store"
    /\ exists embeddings mds,
         let ids := map DocumentProcessor.chunk_id
                        (DocumentProcessor.chunks doc) in
         let rows :=
           Chroma.staged ids embeddings
                  (map DocumentProcessor.text
                       (DocumentProcessor.chunks doc)) mds in
         collection self1 = Chroma.add_rows (collection self) rows
         /\ rows.*1 = ids /\ NoDup ids
         /\ Forall (Chroma.matches
                      (hash_filter (DocumentProcessor.file_hash doc))) rows
  else collection self1 = collection self.
Proof.
  unfold add_document.
  destruct (document_exists env self (DocumentProcessor.file_hash doc) w)
    as [w1 [|]]; [reflexivity|].
  destruct (DocumentProcessor.chunks doc) as [|c cs] eqn:Hchunks;
    [reflexivity|].
  cbn [map].
  destruct (Embeddings.batch_generate_embeddings env
              (embedding_generator self) _ _ w1) as [[w2 g] [embs|e]];
    [|reflexivity].
  pose proof (StoreFacts.build_metadatas_hash env doc (c :: cs) w2) as Hmds.
  destruct (build_metadatas env doc (c :: cs) w2) as [w3 mds].
  cbn [snd] in Hmds. unfold engine_call.
  destruct (engine_fault env (length w3)); [reflexivity|].
  destruct (Chroma.add _ _ _ _ _) as [coll'|e] eqn:Hadd; [|reflexivity].
  cbn [with_generator with_collection collection] in *.
  apply add_inv in Hadd as (-> & Hnd & _ & H1 & H2 & H3).
  split; [discriminate|].
  split; [cbn [length]; rewrite length_map; reflexivity|].
  exists embs, mds. cbn zeta. split; [reflexivity|].
  split; [apply staged_ids; assumption|]. split; [exact Hnd|].
  apply staged_matching. exact Hmds.
Qed.

(** X15: whatever the engine and the backends do, [add_document] never
    removes or changes a record that is in the collection; when it reports
    failure the collection is exactly as before, and when it reports
    success the document has chunks and every chunk id is a key of the
    collection. *)
Theorem add_document_keeps_records env self doc w :
  let '(w1, self1, (ok, message)) := add_document env self doc w in
  collection self ⊆ collection self1
  /\ (ok = false -> collection self1 = collection self)
  /\ (ok = true ->
      DocumentProcessor.chunks doc <> []
      /\ forall ch, ch ∈ DocumentProcessor.chunks doc ->
                    is_Some (collection self1
                               !! DocumentProcessor.chunk_id ch)).
Proof.
  pose proof (add_document_collection env self doc w) as H.
  destruct (add_document env self doc w) as [[w1 self1] [[|] message]].
  - destruct H as (Hne & _ & embs & mds & Hcoll & Hids & _ & _).
    cbn zeta in *. split; [rewrite Hcoll; apply add_rows_subseteq|].
    split; [discriminate|]. intros _. split; [exact Hne|].
    intros ch Hch. rewrite Hcoll. apply add_rows_is_Some. rewrite Hids.
    apply list_elem_of_fmap. exists ch. split; [reflexivity | exact Hch].
  - split; [rewrite H; reflexivity|]. split; [intros _; exact H|].
    discriminate.
Qed.

Lemma add_document_keeps_records_witness :
  let doc := Samples.sample_document "Z" [Samples.sample_chunk "Z" 0 "zeta"] in
  let '(w1, self1, (ok, message)) :=
    add_document Samples.picky_primary Samples.stocked_store doc [] in
  collection Samples.stocked_store ⊆ collection self1
  /\ (ok = false -> collection self1 = collection Samples.stocked_store)
  /\ (ok = true ->
      DocumentProcessor.chunks doc <> []
      /\ forall ch, ch ∈ DocumentProcessor.chunks doc ->
                    is_Some (collection self1
                               !! DocumentProcessor.chunk_id ch)).
Proof.
  exact (add_document_keeps_records Samples.picky_primary
           Samples.stocked_store
           (Samples.sample_document "Z" [Samples.sample_chunk "Z" 0 "zeta"])
           []).
Defined.

(** X16: whatever the engine does, [delete_document] either reports
    success, and then the hash had records and the collection is the old
    one without exactly the records of that hash, or reports failure, and
    then the store is unchanged. *)
Theorem delete_document_all_or_nothing env self h w :
  let '(w1, self1, (ok, message)) := delete_document env self h w in
  if ok then
    records_with_hash (collection self) h <> ∅
    /\ collection self1
       = filter (fun kr => ~ Chroma.matches (hash_filter h) kr)
                (collection self)
    /\ records_with_hash (collection self1) h = ∅
  else self1 = self.
Proof.
  unfold delete_document, engine_call.
  destruct (engine_fault env (length w)); [reflexivity|].
  pose proof (StoreFacts.get_ids_nil (collection self) h None) as Hnil.
  pose proof (StoreFacts.delete_fetched (collection self) h) as Hdel.
  destruct (Chroma.gr_ids _) as [|id ids] eqn:Hids.
  { reflexivity. }
  destruct (engine_fault env _); [reflexivity|].
  cbn [collection with_collection].
  split; [intros He; specialize (Hnil He); discriminate|].
  split; [exact Hdel|]. rewrite Hdel. apply StoreFacts.none_left.
Qed.

(** X17: with an answering engine, adding a document whose hash has no
    records and then deleting that hash gives back the collection one
    started from, whether the addition succeeded or not. *)
Theorem add_then_delete_restores env self doc w :
  responsive env ->
  let h := DocumentProcessor.file_hash doc in
  records_with_hash (collection self) h = ∅ ->
  let '(w1, self1, _) := add_document env self doc w in
  let '(w2, self2, _) := delete_document env self1 h w1 in
  collection self2 = collection self.
Proof.
  intros Hresp h Hout.
  assert (Hclean : filter (fun kr => ~ Chroma.matches (hash_filter h) kr)
                          (collection self) = collection self).
  { apply map_filter_id. intros id r Hid Hm.
    assert (Hin : records_with_hash (collection self) h !! id = Some r)
      by (apply map_lookup_filter_Some; split; assumption).
    rewrite Hout in Hin. rewrite lookup_empty in Hin. discriminate. }
  pose proof (add_document_collection env self doc w) as Hadd.
  destruct (add_document env self doc w) as [[w1 self1] [ok message]].
  assert (Hsame : filter (fun kr => ~ Chroma.matches (hash_filter h) kr)
                         (collection self1) = collection self).
  { destruct ok.
    - destruct Hadd as (_ & _ & embs & mds & Hcoll & _ & _ & Hall).
      cbn zeta in *. rewrite Hcoll, add_rows_matching by exact Hall.
      exact Hclean.
    - rewrite Hadd. exact Hclean. }
  destruct (decide (records_with_hash (collection self1) h = ∅))
    as [Hnone|Hsome].
  - rewrite StoreFacts.delete_document_absent by (auto using Hresp).
    rewrite <- Hsame. symmetry. apply map_filter_id. intros id r Hid Hm.
    assert (Hin : records_with_hash (collection self1) h !! id = Some r)
      by (apply map_lookup_filter_Some; split; assumption).
    rewrite Hnone, lookup_empty in Hin. discriminate.
  - rewrite (StoreFacts.delete_document_present env self1 h w1 Hresp Hsome).
    cbn [collection with_collection]. exact Hsame.
Qed.

Lemma add_then_delete_restores_witness :
  let doc := Samples.sample_document "Z" [Samples.sample_chunk "Z" 0 "zeta"] in
  let '(w1, self1, _) :=
    add_document Samples.picky_primary Samples.stocked_store doc [] in
  let '(w2, self2, _) :=
    delete_document Samples.picky_primary self1 "Z" w1 in
  collection self2 = collection Samples.stocked_store.
Proof.
  apply (add_then_delete_restores Samples.picky_primary Samples.stocked_store
           (Samples.sample_document "Z" [Samples.sample_chunk "Z" 0 "zeta"])
           []).
  - intros t. reflexivity.
  - vm_compute. reflexivity.
Defined.

(** *** Adding a document under free ids *)

Lemma add_rows_fresh coll rows :
  NoDup rows.*1 ->
  (forall id, id ∈ rows.*1 -> coll !! id = None) ->
  size (Chroma.add_rows coll rows) = (size coll + length rows)%nat
  /\ forall id r, (id, r) ∈ rows -> Chroma.add_rows coll rows !! id = Some r.
Proof.
  revert coll. induction rows as [|[i r] rows IH]; intros coll Hnd Hfree.
  - cbn. split; [lia|]. intros id r0 H. apply elem_of_nil in H. contradiction.
  - cbn in Hnd |- *. apply NoDup_cons in Hnd as [Hi Hnd].
    assert (Hnone : coll !! i = None) by (apply Hfree; cbn; left).
    unfold Chroma.add_one. rewrite Hnone.
    destruct (IH (<[i := r]> coll) Hnd) as [Hsize Hlook].
    { intros id Hid. rewrite lookup_insert_ne.
      - apply Hfree. cbn. right. exact Hid.
      - intros ->. contradiction. }
    split.
    + rewrite Hsize, map_size_insert_None by exact Hnone. lia.
    + intros id r0. rewrite elem_of_cons. intros [[= -> ->]|Hin].
      * eapply lookup_weaken; [apply lookup_insert_eq|].
        apply add_rows_subseteq.
      * apply Hlook. exact Hin.
Qed.

Lemma staged_lookup ids embeddings documents mds i id r :
  Chroma.staged ids embeddings documents mds !! i = Some (id, r) ->
  ids !! i = Some id /\ documents !! i = Some (Chroma.rec_document r).
Proof.
  unfold Chroma.staged. intros H.
  apply lookup_zip_with_Some in H as (x & y & [= -> ->] & Hx & Hy).
  split; [exact Hx|].
  apply lookup_zip_with_Some in Hy as (ed & m & -> & Hed & _).
  apply lookup_zip_with_Some in Hed as (e & d & -> & _ & Hd). exact Hd.
Qed.

(** X18: with an answering engine, when [add_document] succeeds on a
    document none of whose chunk ids is in use, the collection grows by
    one record per chunk, the record stored under a chunk's id holds that
    chunk's text under the document's hash, [document_exists] then answers
    [True] for the hash, and the record count of the statistics grows by
    the number of chunks. *)
Theorem add_fresh_document env self doc w :
  responsive env ->
  (forall ch, ch ∈ DocumentProcessor.chunks doc ->
              collection self !! DocumentProcessor.chunk_id ch = None) ->
  let h := DocumentProcessor.file_hash doc in
  let n := length (DocumentProcessor.chunks doc) in
  let '(w1, self1, (ok, message)) := add_document env self doc w in
  ok = true ->
  size (collection self1) = (size (collection self) + n)%nat
  /\ (forall i ch,
        DocumentProcessor.chunks doc !! i = Some ch ->
        exists r,
          collection self1 !! DocumentProcessor.chunk_id ch = Some r
          /\ Chroma.rec_document r = DocumentProcessor.text ch
          /\ Chroma.rec_metadata r !! "file_hash" = Some (VStr h))
  /\ (forall w', snd (document_exists env self1 h w') = true)
  /\ total_chunks (snd (get_collection_stats env self1 w1))
     = total_chunks (snd (get_collection_stats env self w)) + Z.of_nat n.
Proof.
  intros Hresp Hfree h n.
  pose proof (add_document_collection env self doc w) as Hadd.
  destruct (add_document env self doc w) as [[w1 self1] [ok message]].
  intros ->. destruct Hadd as (Hne & _ & embs & mds & Hcoll & Hids & Hnd & Hall).
  cbn zeta in *.
  set (rows := Chroma.staged (map DocumentProcessor.chunk_id
                           (DocumentProcessor.chunks doc)) embs
                      (map DocumentProcessor.text
                           (DocumentProcessor.chunks doc)) mds) in *.
  destruct (add_rows_fresh (collection self) rows) as [Hsize Hlook].
  { rewrite Hids. exact Hnd. }
  { intros id Hid. rewrite Hids in Hid.
    apply list_elem_of_fmap in Hid as (ch & -> & Hch). apply Hfree, Hch. }
  assert (Hlen : length rows = n).
  { rewrite <- (length_fmap fst rows), Hids, length_map. reflexivity. }
  assert (Hchunk : forall i ch,
            DocumentProcessor.chunks doc !! i = Some ch ->
            exists r,
              collection self1 !! DocumentProcessor.chunk_id ch = Some r
              /\ Chroma.rec_document r = DocumentProcessor.text ch
              /\ Chroma.rec_metadata r !! "file_hash" = Some (VStr h)).
  { intros i ch Hi.
    assert (Hrow : is_Some (rows !! i)).
    { apply lookup_lt_is_Some. rewrite Hlen.
      apply lookup_lt_Some in Hi. exact Hi. }
    destruct Hrow as [[id r] Hrow].
    destruct (staged_lookup _ _ _ _ _ _ _ Hrow) as [Hid Hdoc].
    change (map ?f ?l) with (f <$> l) in Hid, Hdoc.
    rewrite list_lookup_fmap, Hi in Hid, Hdoc.
    cbn in Hid, Hdoc. injection Hid as <-. injection Hdoc as Hdoc.
    exists r. split; [|split].
    - rewrite Hcoll. apply Hlook. eapply list_elem_of_lookup_2. exact Hrow.
    - symmetry. exact Hdoc.
    - apply (proj1 (StoreFacts.matches_hash h
                      (DocumentProcessor.chunk_id ch, r))).
      exact (Forall_lookup_1 _ _ _ _ Hall Hrow). }
  split; [rewrite Hcoll, Hsize, Hlen; reflexivity|].
  split; [exact Hchunk|]. split.
  - intros w'. rewrite StoreFacts.document_exists_present;
      [reflexivity | apply Hresp |].
    destruct (DocumentProcessor.chunks doc) as [|c cs] eqn:Hcs;
      [contradiction|].
    destruct (Hchunk 0%nat c eq_refl) as (r & Hr & _ & Hh).
    intros Hempty.
    assert (Hin : records_with_hash (collection self1) h
                    !! DocumentProcessor.chunk_id c = Some r).
    { apply map_lookup_filter_Some. split; [exact Hr|].
      apply (proj2 (StoreFacts.matches_hash h
                      (DocumentProcessor.chunk_id c, r))). exact Hh. }
    rewrite Hempty, lookup_empty in Hin. discriminate.
  - unfold get_collection_stats, engine_call. rewrite !Hresp.
    cbn [snd total_chunks]. unfold Chroma.count.
    rewrite Hcoll, Hsize, Hlen. lia.
Qed.

Lemma add_fresh_document_witness :
  let env := Samples.picky_primary in
  let doc := Samples.sample_document "Z"
               [Samples.sample_chunk "Z" 0 "zeta";
                Samples.sample_chunk "Z" 1 "eta"] in
  let '(w1, self1, (ok, message)) :=
    add_document env Samples.stocked_store doc [] in
  ok = true ->
  size (collection self1) = (size (collection Samples.stocked_store) + 2)%nat
  /\ (forall i ch,
        DocumentProcessor.chunks doc !! i = Some ch ->
        exists r,
          collection self1 !! DocumentProcessor.chunk_id ch = Some r
          /\ Chroma.rec_document r = DocumentProcessor.text ch
          /\ Chroma.rec_metadata r !! "file_hash" = Some (VStr "Z"))
  /\ (forall w', snd (document_exists env self1 "Z" w') = true)
  /\ total_chunks (snd (get_collection_stats env self1 w1))
     = total_chunks (snd (get_collection_stats env Samples.stocked_store []))
       + Z.of_nat 2.
Proof.
  apply (add_fresh_document Samples.picky_primary Samples.stocked_store
           (Samples.sample_document "Z"
              [Samples.sample_chunk "Z" 0 "zeta";
               Samples.sample_chunk "Z" 1 "eta"]) []).
  - intros t. reflexivity.
  - intros ch Hch. cbn in Hch. rewrite !elem_of_cons in Hch.
    destruct Hch as [->|[->|Hch]];
      [vm_compute; reflexivity | vm_compute; reflexivity
      | apply elem_of_nil in Hch; contradiction].
Defined.

Example add_fresh_document_succeeds :
  snd (add_document Samples.picky_primary Samples.stocked_store
         (Samples.sample_document "Z"
            [Samples.sample_chunk "Z" 0 "zeta";
             Samples.sample_chunk "Z" 1 "eta"]) [])
  = (true, "Added 2 chunks to vector store").
Proof. vm_compute. reflexivity. Qed.

(** *** Statistics *)

Lemma length_remove_dups_le {A} `{EqDecision A} (l : list A) :
  (length (remove_dups l) <= length l)%nat.
Proof.
  induction l as [|x l IH]; cbn; [lia|].
  destruct (decide_rel elem_of x l); cbn; lia.
Qed.

Lemma length_omap_le {A B} (f : A -> option B) (l : list A) :
  (length (omap f l) <= length l)%nat.
Proof.
  induction l as [|x l IH]; cbn; [lia|]. destruct (f x); cbn; lia.
Qed.

Lemma get_all_rows coll :
  filter (Chroma.matches ∅) (map_to_list coll) = map_to_list coll.
Proof.
  induction (map_to_list coll) as [|kr l IH]; [reflexivity|].
  rewrite filter_cons_True; [rewrite IH; reflexivity|].
  unfold Chroma.matches. apply map_Forall_empty.
Qed.

(** X19: with an answering engine the statistics report the number of
    records as [total_chunks], carry no ['error'] entry, and count no more
    documents than records; a hash that has records is counted, so that
    [unique_documents] is at least 1 as soon as one document is stored. *)
Theorem collection_stats_counts env self w :
  responsive env ->
  let stats := snd (get_collection_stats env self w) in
  total_chunks stats = Z.of_nat (size (collection self))
  /\ stats_error stats = None
  /\ stats_collection_name stats = collection_name self
  /\ 0 <= unique_documents stats <= total_chunks stats
  /\ (forall h, records_with_hash (collection self) h <> ∅ ->
                1 <= unique_documents stats).
Proof.
  intros Hresp stats. subst stats.
  unfold get_collection_stats, engine_call. rewrite !Hresp.
  cbn [snd total_chunks stats_error stats_collection_name unique_documents].
  unfold Chroma.count, Chroma.get. rewrite get_all_rows.
  cbn [Chroma.gr_metadatas].
  set (hashes := omap (fun md : gmap string pyval => md !! "file_hash")
                      (map (fun kr => Chroma.rec_metadata (snd kr))
                           (map_to_list (collection self)))).
  split; [reflexivity|]. split; [reflexivity|]. split; [reflexivity|].
  assert (Hle : (length (remove_dups hashes) <= size (collection self))%nat).
  { etrans; [apply length_remove_dups_le|].
    etrans; [apply length_omap_le|].
    rewrite length_map, length_map_to_list. reflexivity. }
  split; [lia|].
  intros h Hin.
  assert (Hex : VStr h ∈ remove_dups hashes).
  { apply elem_of_remove_dups.
    destruct (map_choose _ Hin) as (id & r & Hr).
    apply map_lookup_filter_Some in Hr as [Hid Hm].
    apply (proj1 (StoreFacts.matches_hash h (id, r))) in Hm. cbn in Hm.
    apply list_elem_of_omap. exists (Chroma.rec_metadata r).
    split; [|exact Hm].
    apply list_elem_of_fmap. exists (id, r). split; [reflexivity|].
    apply elem_of_map_to_list. exact Hid. }
  destruct (remove_dups hashes); [apply elem_of_nil in Hex; contradiction|].
  cbn [length]. lia.
Qed.

Lemma collection_stats_counts_witness :
  let stats := snd (get_collection_stats Samples.picky_primary
                      Samples.stocked_store []) in
  total_chunks stats = Z.of_nat (size (collection Samples.stocked_store))
  /\ stats_error stats = None
  /\ stats_collection_name stats = collection_name Samples.stocked_store
  /\ 0 <= unique_documents stats <= total_chunks stats
  /\ (forall h, records_with_hash (collection Samples.stocked_store) h <> ∅ ->
                1 <= unique_documents stats).
Proof.
  apply (collection_stats_counts Samples.picky_primary
           Samples.stocked_store []).
  intros t. reflexivity.
Defined.

Example stocked_store_stats :
  snd (get_collection_stats Samples.picky_primary Samples.stocked_store [])
  = {| total_chunks := 3; unique_documents := 2;
       stats_collection_name := "rag_documents"; stats_error := None |}.
Proof. vm_compute. reflexivity. Qed.

(** *** Similar chunks *)

Lemma similar_loop_entries results ids0 chunk_id indices rs :
  similar_loop results ids0 chunk_id indices = Ok rs ->
  Forall (fun r =>
            sr_id r <> chunk_id /\ sr_distance r = None
            /\ exists d,
                 sr_similarity r = Some (sub binary64 (one binary64) d)) rs.
Proof.
  revert rs. induction indices as [|i rest IH]; intros rs; cbn.
  - intros [= <-]. constructor.
  - unfold bind at 1.
    destruct (format_similar results ids0 chunk_id i) as [r|e] eqn:Hr;
      [|discriminate].
    unfold bind at 1.
    destruct (similar_loop results ids0 chunk_id rest) as [rs'|e];
      [|discriminate].
    intros [= <-]. specialize (IH rs' eq_refl).
    destruct r as [r|]; [|exact IH]. constructor; [|exact IH].
    revert Hr. unfold format_similar, bind, index.
    repeat case_match; try discriminate.
    intros [= <-]. cbn. rewrite bool_decide_eq_false in *.
    simplify_eq. repeat split; eauto.
Qed.

(** X20: [get_similar_chunks] never returns the chunk it was asked about;
    each entry carries 1 minus a distance as similarity and no distance;
    no embedding backend is called; and for a chunk id that is not stored
    the answer is the empty list after the one lookup, without any
    query. *)
Theorem similar_chunks_exclude_self env self chunk_id n w :
  let '(w1, results) := get_similar_chunks env self chunk_id n w in
  Forall (fun r =>
            sr_id r <> chunk_id /\ sr_distance r = None
            /\ exists d,
                 sr_similarity r = Some (sub binary64 (one binary64) d))
         results
  /\ embedding_calls w1 = embedding_calls w
  /\ (collection self !! chunk_id = None ->
      results = [] /\ w1 = w ++ [CollectionGet ∅ None]).
Proof.
  set (P := fun r : SearchResult => _).
  unfold get_similar_chunks, engine_call, Chroma.get_by_ids.
  cbn [omap list_omap].
  assert (H1 : forall c, embedding_calls (w ++ [CollectionGet ∅ None]) =
                         embedding_calls w /\
                         embedding_calls
                           ((w ++ [CollectionGet ∅ None])
                              ++ [CollectionQuery c]) = embedding_calls w).
  { intros c. rewrite !StoreFacts.embedding_calls_app. cbn.
    rewrite !app_nil_r. split; reflexivity. }
  destruct (engine_fault env (length w)).
  { split; [constructor|]. split; [apply (H1 0)|]. intros _. split; reflexivity. }
  destruct (collection self !! chunk_id) as [r|] eqn:Hr.
  2: { split; [constructor|]. split; [apply (H1 0)|]. intros _.
       split; reflexivity. }
  destruct (engine_fault env _).
  { split; [constructor|]. split; [apply (H1 (n + 1))|]. discriminate. }
  destruct (Chroma.qr_ids _) as [|[|id ids0] rest].
  - split; [constructor|]. split; [apply (H1 (n + 1))|]. discriminate.
  - split; [constructor|]. split; [apply (H1 (n + 1))|]. discriminate.
  - destruct (similar_loop _ _ _ _) as [rs|e] eqn:Hloop.
    + split; [exact (similar_loop_entries _ _ _ _ _ Hloop)|].
      split; [apply (H1 (n + 1))|]. discriminate.
    + split; [constructor|]. split; [apply (H1 (n + 1))|]. discriminate.
Qed.

Lemma similar_chunks_exclude_self_witness :
  collection Samples.stocked_store !! "nowhere_0" = None
  /\ let '(w1, results) :=
       get_similar_chunks Samples.two_neighbours Samples.stocked_store
                          "nowhere_0" 5 [] in
     results = [] /\ w1 = [] ++ [CollectionGet ∅ None].
Proof.
  split; [vm_compute; reflexivity|].
  generalize (similar_chunks_exclude_self Samples.two_neighbours
                Samples.stocked_store "nowhere_0" 5 []).
  destruct (get_similar_chunks _ _ _ _ _) as [w1 results].
  intros (_ & _ & H). apply H. vm_compute. reflexivity.
Defined.

Example similar_to_first_chunk :
  map (fun r => (sr_id r, sr_similarity r))
      (snd (get_similar_chunks Samples.two_neighbours Samples.stocked_store
              "H_0" 1 []))
  = [("H_1", Some (zero binary64))].
Proof. vm_compute. reflexivity. Qed.

(** *** What a search changes, and what it returns *)

(** X21: [search] never changes the collection; the one thing it can
    change is the generator's latch: a store whose generator is already on
    the local model comes back unchanged, and a failure of the primary on
    the query leaves the store's generator on the local model for every
    later call, additions included. *)
Theorem search_side_effects env self q n f w :
  let g := embedding_generator self in
  let '(w1, self1, results) := search env self q n f w in
  collection self1 = collection self
  /\ collection_name self1 = collection_name self
  /\ (Embeddings.use_ollama g = false -> self1 = self)
  /\ (forall e,
        Embeddings.use_ollama g = true ->
        ollama_embeddings env (length w)
          (Settings.embedding_model (settings env)) q = Raise e ->
        Embeddings.use_ollama (embedding_generator self1) = false).
Proof.
  cbn zeta. unfold search.
  assert (Hgen :
    let '(w1, g1, r) :=
      Embeddings.generate_query_embedding env (embedding_generator self) q w in
    (Embeddings.use_ollama (embedding_generator self) = false ->
     g1 = embedding_generator self)
    /\ (forall e,
          Embeddings.use_ollama (embedding_generator self) = true ->
          ollama_embeddings env (length w)
            (Settings.embedding_model (settings env)) q = Raise e ->
          Embeddings.use_ollama g1 = false)).
  { unfold Embeddings.generate_query_embedding,
      Embeddings.generate_embeddings, Embeddings.encode_locally.
    destruct (Embeddings.use_ollama (embedding_generator self)) eqn:Hon.
    - cbn [OllamaClient.generate_embeddings].
      destruct (ollama_embeddings env (length w) _ q) as [v|e0].
      + cbn. split; [discriminate|]. intros e _ He. discriminate.
      + destruct (sentence_transformer_load env _ _) as [[]|e1].
        * cbn [Embeddings.model].
          destruct (sentence_transformer_encode env _ [q]);
            (split; [discriminate | intros; reflexivity]).
        * split; [discriminate | intros; reflexivity].
    - destruct (Embeddings.model (embedding_generator self)).
      + destruct (sentence_transformer_encode env _ [q]);
          (split; [reflexivity | intros; discriminate]).
      + split; [reflexivity | intros; discriminate]. }
  destruct (Embeddings.generate_query_embedding env
              (embedding_generator self) q w) as [[w1 g1] r].
  destruct Hgen as [Hsame Hdem].
  assert (Hself : Embeddings.use_ollama (embedding_generator self) = false ->
                  with_generator self g1 = self).
  { intros Hoff. rewrite (Hsame Hoff). destruct self. reflexivity. }
  destruct r as [qe|e].
  - unfold engine_call. destruct (engine_fault env (length w1)).
    + repeat split; auto.
    + destruct (format_results _); repeat split; auto.
  - repeat split; auto.
Qed.

Lemma search_side_effects_witness :
  let env := Samples.outage_at_start in
  Embeddings.use_ollama (embedding_generator Samples.stocked_store) = true
  /\ ollama_embeddings env 0 (Settings.embedding_model (settings env))
       "alpha" = Raise (Exn "ConnectionError" "connection refused")
  /\ let '(w1, self1, results) :=
       search env Samples.stocked_store "alpha" None None [] in
     collection self1 = collection Samples.stocked_store
     /\ Embeddings.use_ollama (embedding_generator self1) = false.
Proof.
  cbn zeta.
  split; [vm_compute; reflexivity|]. split; [reflexivity|].
  generalize (search_side_effects Samples.outage_at_start
                Samples.stocked_store "alpha" None None []).
  cbn zeta.
  destruct (search _ _ _ _ _ _) as [[w1 self1] results].
  intros (Hcoll & _ & _ & H). split; [exact Hcoll|].
  apply (H (Exn "ConnectionError" "connection refused"));
    [vm_compute; reflexivity | reflexivity].
Defined.

Example search_demotes_the_store :
  Embeddings.use_ollama (embedding_generator Samples.stocked_store) = true
  /\ Embeddings.use_ollama
       (embedding_generator
          (snd (fst (search Samples.outage_at_start Samples.stocked_store
                       "alpha" None None [])))) = false.
Proof. vm_compute. split; reflexivity. Qed.

Lemma format_loop_ids results ids0 n k rs :
  format_loop results ids0 (seq k n) = Ok rs ->
  map sr_id rs = take n (drop k ids0).
Proof.
  revert k rs. induction n as [|n IH]; intros k rs; cbn.
  - intros [= <-]. reflexivity.
  - unfold bind at 1.
    destruct (format_result results ids0 k) as [r|e] eqn:Hr; [|discriminate].
    unfold bind at 1.
    destruct (format_loop results ids0 (seq (S k) n)) as [rs'|e] eqn:Hrs;
      [|discriminate].
    intros [= <-]. cbn [map]. rewrite (IH _ _ Hrs).
    revert Hr. unfold format_result, bind at 1, index.
    destruct (ids0 !! k) as [id|] eqn:Hid; [|discriminate].
    intros Hr. rewrite (drop_S _ _ _ Hid). cbn. f_equal.
    revert Hr. unfold bind, index. repeat case_match; try discriminate.
    all: intros [= <-]; reflexivity.
Qed.

(** X22: [search] returns either nothing or one entry for each neighbour
    of the engine's answer, with the ids in the engine's order: an answer
    that cannot be formatted in full is dropped as a whole. *)
Theorem search_all_or_nothing env self q n f w :
  let results := snd (search env self q n f w) in
  results = []
  \/ exists t qe k ids0 rest,
       Chroma.qr_ids (engine_query env t (collection self) qe k f)
       = ids0 :: rest
       /\ map sr_id results = ids0.
Proof.
  cbn zeta. unfold search.
  destruct (Embeddings.generate_query_embedding env
              (embedding_generator self) q w) as [[w1 g1] [qe|e]];
    [|left; reflexivity].
  unfold engine_call. destruct (engine_fault env (length w1));
    [left; reflexivity|].
  destruct (format_results _) as [rs|e] eqn:Hfmt; [|left; reflexivity].
  cbn [snd]. revert Hfmt. unfold format_results.
  destruct (Chroma.qr_ids _) as [|[|id ids0] rest] eqn:Hids.
  - intros [= <-]. left. reflexivity.
  - intros [= <-]. left. reflexivity.
  - intros Hloop. right. do 5 eexists. split; [exact Hids|].
    rewrite (format_loop_ids _ _ _ _ _ Hloop).
    cbn [drop]. apply take_ge. lia.
Qed.

End StoreMore.

(** ** app.py: uploads *)

Module AppFacts.
Import Python External Utils Processing App.

(** *** What an upload reports and records *)

(** X23: [process_uploaded_file] reports on the processing alone.  When
    [process_document] raises, it answers [False] with the error message
    and nothing is recorded or called; when [process_document] returns, it
    answers [True] whatever the vector store did, records the document
    under the path and leaves the entries of the other paths alone. *)
Theorem upload_reports_processing env fs enc session path add w :
  let '(w1, session1, (ok, message)) :=
    process_uploaded_file env fs enc session path add w in
  match process_document fs (settings env) enc path with
  | Raise e =>
      ok = false
      /\ message = "Error processing file: " +:+ exn_msg e
      /\ w1 = w /\ session1 = session
  | Ok doc =>
      ok = true
      /\ (exists entry,
            processed_files session1 !! path = Some entry
            /\ pf_file_hash entry = DocumentProcessor.file_hash doc
            /\ pf_total_chunks entry = DocumentProcessor.total_chunks doc
            /\ vector_status entry
               = if add
                 then Some (snd (VectorStore.add_document env
                                   (vector_store session) doc w))
                 else None)
      /\ (forall other,
            other <> path ->
            processed_files session1 !! other
            = processed_files session !! other)
      /\ (add = false ->
          vector_store session1 = vector_store session
          /\ w1 = w ++ [DatetimeNow])
  end.
Proof.
  unfold process_uploaded_file.
  destruct (process_document fs (settings env) enc path) as [doc|e].
  2: { repeat split; reflexivity. }
  destruct add.
  - destruct (VectorStore.add_document env (vector_store session) doc w)
      as [[w1 store1] [ok message]].
    cbn [snd]. destruct ok.
    + split; [reflexivity|]. split.
      * eexists. cbn [processed_files]. rewrite lookup_insert_eq. repeat split; reflexivity.
      * split; [|discriminate]. intros other Hne. cbn.
        apply lookup_insert_ne. congruence.
    + split; [reflexivity|]. split.
      * eexists. cbn [processed_files]. rewrite lookup_insert_eq. repeat split; reflexivity.
      * split; [|discriminate]. intros other Hne. cbn.
        apply lookup_insert_ne. congruence.
  - split; [reflexivity|]. split.
    + eexists. cbn. rewrite lookup_insert_eq. repeat split; reflexivity.
    + split; [|intros _; split; reflexivity]. intros other Hne. cbn.
      apply lookup_insert_ne. congruence.
Qed.

Lemma upload_reports_processing_witness :
  let '(w1, session1, (ok, message)) :=
    process_uploaded_file Samples.picky_primary Samples.sample_files
      DocumentProcessor.char_encoding Samples.empty_session
      "data/old.doc" true [] in
  ok = false
  /\ message
     = "Error processing file: No processor available for file type: .doc"
  /\ w1 = [] /\ session1 = Samples.empty_session.
Proof.
  generalize (upload_reports_processing Samples.picky_primary
                Samples.sample_files DocumentProcessor.char_encoding
                Samples.empty_session "data/old.doc" true []).
  destruct (process_uploaded_file _ _ _ _ _ _ _)
    as [[w1 session1] [ok message]].
  assert (Hdoc : process_document Samples.sample_files
                   (settings Samples.picky_primary)
                   DocumentProcessor.char_encoding "data/old.doc"
                 = Raise (Exn "ValueError"
                            "No processor available for file type: .doc"))
    by (vm_compute; reflexivity).
  rewrite Hdoc. intros H. exact H.
Defined.

(** *** Uploading what the store already holds *)

Lemma add_document_present env self doc w :
  engine_fault env (length w) = None ->
  VectorStore.records_with_hash (VectorStore.collection self)
    (DocumentProcessor.file_hash doc) <> ∅ ->
  VectorStore.add_document env self doc w
  = (w ++ [CollectionGet
             (VectorStore.hash_filter (DocumentProcessor.file_hash doc))
             (Some 1%nat)],
     self, (false, "Document already exists in vector store")).
Proof.
  intros Hok Hin. unfold VectorStore.add_document.
  rewrite (StoreFacts.document_exists_present env self _ w Hok Hin).
  reflexivity.
Qed.

(** X24: uploading a file whose hash the store already holds is answered
    with [True] and the message that the document already exists: the
    store is left as it was, no embedding backend is called, and the entry
    of the path records the refusal. *)
Theorem upload_of_a_stored_document env fs enc session path w doc :
  process_document fs (settings env) enc path = Ok doc ->
  engine_fault env (length w) = None ->
  VectorStore.records_with_hash
    (VectorStore.collection (vector_store session))
    (DocumentProcessor.file_hash doc) <> ∅ ->
  let '(w1, session1, (ok, message)) :=
    process_uploaded_file env fs enc session path true w in
  ok = true
  /\ message
     = "Processed " +:+ pretty (DocumentProcessor.total_chunks doc)
         +:+ " chunks. Vector store: Document already exists in vector store"
  /\ vector_store session1 = vector_store session
  /\ embedding_calls w1 = embedding_calls w
  /\ exists entry,
       processed_files session1 !! path = Some entry
       /\ vector_status entry
          = Some (false, "Document already exists in vector store").
Proof.
  intros Hdoc Hok Hin. unfold process_uploaded_file. rewrite Hdoc.
  rewrite (add_document_present env _ doc w Hok Hin).
  split; [reflexivity|]. split; [reflexivity|]. split; [reflexivity|]. split.
  - rewrite !StoreFacts.embedding_calls_app. cbn. rewrite !app_nil_r.
    reflexivity.
  - eexists. cbn. rewrite lookup_insert_eq. split; reflexivity.
Qed.

Lemma upload_of_a_stored_document_witness :
  let '(w1, session1, (ok, message)) :=
    process_uploaded_file Samples.picky_primary Samples.sample_files
      DocumentProcessor.char_encoding Samples.after_first_upload
      "data/notes.txt" true [] in
  ok = true
  /\ message
     = "Processed 1 chunks. Vector store: Document already exists in vector store"
  /\ vector_store session1 = vector_store Samples.after_first_upload.
Proof.
  assert (Hdoc : exists doc,
             process_document Samples.sample_files
               (settings Samples.picky_primary)
               DocumentProcessor.char_encoding "data/notes.txt" = Ok doc
             /\ DocumentProcessor.file_hash doc = "digest11"
             /\ DocumentProcessor.total_chunks doc = 1).
  { eexists. vm_compute. repeat split; reflexivity. }
  destruct Hdoc as (doc & Hdoc & Hhash & Hn).
  generalize (upload_of_a_stored_document Samples.picky_primary
                Samples.sample_files DocumentProcessor.char_encoding
                Samples.after_first_upload "data/notes.txt" [] doc Hdoc
                eq_refl).
  rewrite Hhash, Hn.
  destruct (process_uploaded_file _ _ _ _ _ _ _)
    as [[w1 session1] [ok message]].
  intros H. destruct H as (Hok & Hmsg & Hstore & _).
  - vm_compute. discriminate.
  - repeat split; assumption.
Defined.

(** *** Uploading a text file with nothing in it but white space *)

Lemma add_document_without_chunks env self doc w :
  DocumentProcessor.chunks doc = [] ->
  exists message,
    VectorStore.add_document env self doc w
    = (w ++ [CollectionGet
               (VectorStore.hash_filter (DocumentProcessor.file_hash doc))
               (Some 1%nat)],
       self, (false, message))
    /\ (message = "No text chunks to process"
        \/ message = "Document already exists in vector store").
Proof.
  intros Hnil. unfold VectorStore.add_document.
  pose proof (StoreFacts.document_exists_world env self
                (DocumentProcessor.file_hash doc) w) as Hw.
  destruct (VectorStore.document_exists env self _ w) as [w1 [|]];
    cbn in Hw; subst w1.
  - eexists. split; [reflexivity|]. right. reflexivity.
  - rewrite Hnil. eexists. split; [reflexivity|]. left. reflexivity.
Qed.

(** X25: a [.txt] file that passes validation and holds nothing but white
    space is processed into a document with no chunks; its upload answers
    [True] with "Processed 0 chunks" and the reason the store gave for
    refusing it, and neither the store nor an embedding backend is
    touched. *)
Theorem upload_of_a_blank_text_file env fs enc session path w
    content text size :
  lower (path_suffix path) = ".txt" ->
  fst (validate_file fs path) = true ->
  read_bytes fs path = Ok content ->
  read_text fs path = Ok text ->
  st_size fs path = Ok size ->
  strip text = EmptyString ->
  let '(w1, session1, (ok, message)) :=
    process_uploaded_file env fs enc session path true w in
  ok = true
  /\ (message = "Processed 0 chunks. Vector store: No text chunks to process"
      \/ message = "Processed 0 chunks. Vector store: Document already exists in vector store")
  /\ vector_store session1 = vector_store session
  /\ embedding_calls w1 = embedding_calls w
  /\ exists entry,
       processed_files session1 !! path = Some entry
       /\ pf_total_chunks entry = 0 /\ pf_total_tokens entry = 0
       /\ pf_file_hash entry = sha256_hexdigest fs content.
Proof.
  intros Hext Hvalid Hbytes Htext Hsize Hblank.
  assert (Hdoc : exists doc,
             process_document fs (settings env) enc path = Ok doc
             /\ DocumentProcessor.chunks doc = []
             /\ DocumentProcessor.total_chunks doc = 0
             /\ DocumentProcessor.total_tokens doc = 0
             /\ DocumentProcessor.file_hash doc
                = sha256_hexdigest fs content).
  { unfold process_document, get_processor. rewrite Hext.
    cbn [lookup_processor processors String.eqb Ascii.eqb Bool.eqb bind].
    unfold process. destruct (validate_file fs path) as [[|] msg];
      [|discriminate].
    unfold get_file_hash. rewrite Hbytes. cbn [bind].
    rewrite UtilsFacts.hash_blocks_all.
    unfold extract_text, text_extract_text. rewrite Htext. cbn [bind fst snd].
    rewrite Hsize. cbn [bind].
    unfold DocumentProcessor.chunk_text.
    destruct (decide (strip text = EmptyString)); [|contradiction].
    cbn [bind sum_token_counts]. eexists. split; [reflexivity|].
    repeat split; reflexivity. }
  destruct Hdoc as (doc & Hdoc & Hnil & Hn & Ht & Hh).
  unfold process_uploaded_file. rewrite Hdoc.
  destruct (add_document_without_chunks env (vector_store session) doc w Hnil)
    as (reason & -> & Hreason).
  rewrite Hn. split; [reflexivity|]. split.
  { destruct Hreason as [-> | ->]; [left|right]; reflexivity. }
  split; [reflexivity|]. split.
  - rewrite !StoreFacts.embedding_calls_app. cbn. rewrite !app_nil_r.
    reflexivity.
  - eexists. cbn. rewrite lookup_insert_eq. split; [reflexivity|].
    repeat split; assumption.
Qed.

Lemma upload_of_a_blank_text_file_witness :
  let '(w1, session1, (ok, message)) :=
    process_uploaded_file Samples.picky_primary Samples.sample_files
      DocumentProcessor.char_encoding Samples.empty_session
      "data/blank.txt" true [] in
  ok = true
  /\ (message = "Processed 0 chunks. Vector store: No text chunks to process"
      \/ message = "Processed 0 chunks. Vector store: Document already exists in vector store")
  /\ vector_store session1 = vector_store Samples.empty_session
  /\ embedding_calls w1 = embedding_calls []
  /\ exists entry,
       processed_files session1 !! "data/blank.txt" = Some entry
       /\ pf_total_chunks entry = 0 /\ pf_total_tokens entry = 0
       /\ pf_file_hash entry
          = sha256_hexdigest Samples.sample_files
              (list_ascii_of_string "   ").
Proof.
  apply (upload_of_a_blank_text_file Samples.picky_primary
           Samples.sample_files DocumentProcessor.char_encoding
           Samples.empty_session "data/blank.txt" []
           (list_ascii_of_string "   ") "   " 3);
    vm_compute; reflexivity.
Defined.

Example first_upload_of_notes :
  snd (process_uploaded_file Samples.picky_primary Samples.sample_files
         DocumentProcessor.char_encoding Samples.empty_session
         "data/notes.txt" true [])
  = (true, "Successfully processed: 1 chunks, 11 tokens").
Proof. vm_compute. reflexivity. Qed.

End AppFacts.
